(** * LogStriker: parsing, aggregation and serialisation of beacon logs

    A shallow embedding of the core of [logstriker.py] (the classes
    [LogEntry], [LogParser], [LogAggregator] and [LogWriter]) together with
    the properties of it that the specification states.

    Conventions of the embedding.
    - A Python [str] is a [string]; every [ascii] stands for the Unicode
      code point of the same number (U+0000 .. U+00FF).  The character
      classes below are the restrictions of Python's Unicode classes to
      that range.
    - [print] is modelled by the list of messages a call produces.
    - An uncaught exception is an [outcome] of its own.
    - [datetime.now().year] is an explicit argument [now_year].
    - A [dict] is an association list in insertion order, with distinct
      keys ([dict_wf]); iteration follows the list. *)

From Stdlib Require Import ZArith NArith List String Ascii Bool Lia.
From Stdlib Require Import Sorting.Sorted Sorting.Permutation.
Import ListNotations.

Local Open Scope string_scope.
Local Open Scope list_scope.

Infix "+:+" := String.append (at level 60, right associativity).

(* ===================================================================== *)
(** * Part I: definitions *)
(* ===================================================================== *)

(** ** Python [str] primitives used by the program *)

Module PyStr.

Definition code (c : ascii) : N := N_of_ascii c.

Definition between (lo hi : N) (c : ascii) : bool :=
  ((lo <=? code c) && (code c <=? hi))%N.

(** Unicode decimal digits (category Nd): what [\d] matches and what
    [int] accepts as a digit.  Below U+0100 these are '0'..'9'. *)
Definition isdecimal_char (c : ascii) : bool := between 48 57 c.

(** [str.isdigit] on one character: decimal digits and the characters
    of numeric type Digit; below U+0100 the latter are the superscripts
    U+00B2, U+00B3 and U+00B9. *)
Definition isdigit_char (c : ascii) : bool :=
  isdecimal_char c || between 178 179 c || between 185 185 c.

(** [str.isspace] on one character, which is also what [\s] matches:
    U+0009..U+000D, U+001C..U+0020, U+0085 and U+00A0. *)
Definition isspace_char (c : ascii) : bool :=
  between 9 13 c || between 28 32 c || between 133 133 c
  || between 160 160 c.

(** Line boundaries of [str.splitlines]: LF, VT, FF, CR, FS, GS, RS and
    NEL (and CR LF as one boundary). *)
Definition is_linebreak (c : ascii) : bool :=
  between 10 13 c || between 28 30 c || between 133 133 c.

Definition LF : ascii := ascii_of_N 10.
Definition CR : ascii := ascii_of_N 13.
Definition nl : string := String LF EmptyString.

Fixpoint forallb (p : ascii -> bool) (s : string) : bool :=
  match s with
  | EmptyString => true
  | String c s' => p c && forallb p s'
  end.

(** [s.isdigit()]: every character is a digit and there is at least one. *)
Definition isdigit (s : string) : bool :=
  match s with
  | EmptyString => false
  | _ => forallb isdigit_char s
  end.

(** [s[:n]] *)
Fixpoint slice_to (n : nat) (s : string) : string :=
  match n, s with
  | S n', String c s' => String c (slice_to n' s')
  | _, _ => EmptyString
  end.

Fixpoint digits_value (acc : Z) (s : string) : option Z :=
  match s with
  | EmptyString => Some acc
  | String c s' =>
      if isdecimal_char c
      then digits_value (10 * acc + Z.of_N (code c - 48)) s'
      else None
  end.

(** [int(s)], with [None] for [ValueError].  The program calls [int]
    only on strings made of [isdigit] characters and of [\d{2}] pieces
    of a match; on those this is exact: the decimal value when all
    characters are decimal digits, [ValueError] otherwise.  (Signs,
    underscores and surrounding blanks, which [int] also accepts, never
    reach it.) *)
Definition int (s : string) : option Z :=
  match s with
  | EmptyString => None
  | _ => digits_value 0 s
  end.

(** [s.split(sep)] for a one-character separator. *)
Fixpoint split (sep : ascii) (s : string) : list string :=
  match s with
  | EmptyString => [EmptyString]
  | String c s' =>
      if Ascii.eqb c sep then EmptyString :: split sep s'
      else match split sep s' with
           | h :: t => String c h :: t
           | [] => [String c EmptyString]
           end
  end.

(** [s.splitlines()]: the lines of [s] without their terminators; a
    terminator at the very end opens no further line. *)
Fixpoint splitlines (s : string) : list string :=
  match s with
  | EmptyString => []
  | String c s' =>
      if is_linebreak c then
        match s' with
        | String c' s'' =>
            if Ascii.eqb c CR && Ascii.eqb c' LF
            then EmptyString :: splitlines s''
            else EmptyString :: splitlines s'
        | EmptyString => [EmptyString]
        end
      else match splitlines s' with
           | h :: t => String c h :: t
           | [] => [String c EmptyString]
           end
  end.

Fixpoint lstrip (s : string) : string :=
  match s with
  | String c s' => if isspace_char c then lstrip s' else s
  | EmptyString => EmptyString
  end.

Fixpoint rstrip (s : string) : string :=
  match s with
  | EmptyString => EmptyString
  | String c s' =>
      match rstrip s' with
      | EmptyString => if isspace_char c then EmptyString
                       else String c EmptyString
      | r => String c r
      end
  end.

(** [s.strip()] *)
Definition strip (s : string) : string := rstrip (lstrip s).

(** Truth value of a [str]: non-empty. *)
Definition truthy (s : string) : bool :=
  match s with EmptyString => false | _ => true end.

(** [sep.join(l)] *)
Fixpoint join (sep : string) (l : list string) : string :=
  match l with
  | [] => EmptyString
  | [x] => x
  | x :: l' => x +:+ sep +:+ join sep l'
  end.

(** Two-digit zero-padded decimal, as [%m], [%d], [%H], [%M] and [%S]
    print the fields of a [datetime] (all below 100). *)
Definition digit_char (d : Z) : ascii := ascii_of_N (48 + Z.to_N d).

Definition fmt2 (v : Z) : string :=
  String (digit_char (v / 10)) (String (digit_char (v mod 10)) EmptyString).

End PyStr.

(** ** [datetime] with [tzinfo=timezone.utc] *)

Module DateTime.

Record datetime : Type := mk_datetime {
  year : Z; month : Z; day : Z; hour : Z; minute : Z; second : Z
}.

Definition is_leap (y : Z) : bool :=
  ((y mod 4 =? 0) && (negb (y mod 100 =? 0) || (y mod 400 =? 0)))%Z.

Definition days_in_month (y m : Z) : Z :=
  if (m =? 2)%Z then (if is_leap y then 29 else 28)%Z
  else if ((m =? 4) || (m =? 6) || (m =? 9) || (m =? 11))%Z then 30%Z
  else 31%Z.

Definition in_range (lo hi v : Z) : bool := ((lo <=? v) && (v <=? hi))%Z.

(** The constructor [datetime(y, m, d, H, M, S, tzinfo=UTC)]; [None] is
    the [ValueError] it raises on a component out of range. *)
Definition datetime_new (y m d H M S : Z) : option datetime :=
  if in_range 1 9999 y && in_range 1 12 m
     && in_range 1 (days_in_month y m) d
     && in_range 0 23 H && in_range 0 59 M && in_range 0 59 S
  then Some (mk_datetime y m d H M S)
  else None.

Definition fields (t : datetime) : list Z :=
  [year t; month t; day t; hour t; minute t; second t].

Fixpoint lex_ltb (a b : list Z) : bool :=
  match a, b with
  | x :: a', y :: b' => (x <? y)%Z || ((x =? y)%Z && lex_ltb a' b')
  | [], _ :: _ => true
  | _, [] => false
  end.

(** [a < b] on two aware datetimes of the same zone. *)
Definition ltb (a b : datetime) : bool := lex_ltb (fields a) (fields b).

Definition eqb (a b : datetime) : bool :=
  ((year a =? year b) && (month a =? month b) && (day a =? day b)
   && (hour a =? hour b) && (minute a =? minute b)
   && (second a =? second b))%Z.

(** [t.strftime('%m/%d %H:%M:%S')] *)
Definition strftime_md_hms (t : datetime) : string :=
  PyStr.fmt2 (month t) +:+ "/" +:+ PyStr.fmt2 (day t) +:+ " "
  +:+ PyStr.fmt2 (hour t) +:+ ":" +:+ PyStr.fmt2 (minute t) +:+ ":"
  +:+ PyStr.fmt2 (second t).

End DateTime.

(** ** [class LogEntry] *)

Record LogEntry : Type := mk_LogEntry {
  timestamp : DateTime.datetime;
  entry_type : string;
  content : list string;
  source_file : string;
  ip_address : option string;
  date_folder : option string
}.

Module LogEntryM.

Definition header (e : LogEntry) : string :=
  DateTime.strftime_md_hms (timestamp e) +:+ " UTC "
  +:+ "[" +:+ entry_type e +:+ "] ".

(** [LogEntry.format] *)
Definition format (e : LogEntry) : string :=
  match content e with
  | [] => header e +:+ "(empty)" +:+ PyStr.nl
  | c0 :: rest => PyStr.join PyStr.nl ((header e +:+ c0) :: rest) +:+ PyStr.nl
  end.

End LogEntryM.

(** ** The fragment of [re] that [TIMESTAMP_PATTERN] uses

    A pattern is a concatenation of atoms: one character of a class, a
    greedy repetition of a class, the brackets of a capture group (groups
    do not nest) and the end anchor.  [run] is the backtracking matcher of
    [Pattern.match]: it matches at the start of the string, prefers the
    longest repetition first and shortens it on failure. *)

Module Regex.

Inductive atom : Type :=
| Cls (p : ascii -> bool)     (* one character of the class *)
| Star (p : ascii -> bool)    (* class*, greedy *)
| Plus (p : ascii -> bool)    (* class+, greedy *)
| GOpen                       (* ( *)
| GClose                      (* ) *)
| Eol.                        (* $ *)

(** Record a consumed character in the group that is open, if any. *)
Definition push (cur : option string) (c : ascii) : option string :=
  match cur with
  | Some g => Some (g +:+ String c EmptyString)
  | None => None
  end.

Fixpoint star {R : Type} (p : ascii -> bool)
    (k : option string -> string -> option R)
    (cur : option string) (s : string) : option R :=
  match s with
  | String c s' =>
      if p c then
        match star p k (push cur c) s' with
        | Some r => Some r
        | None => k cur s
        end
      else k cur s
  | EmptyString => k cur s
  end.

Fixpoint run (items : list atom) (caps : list string)
    (cur : option string) (s : string) : option (list string) :=
  match items with
  | [] => Some caps
  | Cls p :: rest =>
      match s with
      | String c s' => if p c then run rest caps (push cur c) s' else None
      | EmptyString => None
      end
  | Star p :: rest => star p (run rest caps) cur s
  | Plus p :: rest =>
      match s with
      | String c s' =>
          if p c then star p (run rest caps) (push cur c) s' else None
      | EmptyString => None
      end
  | GOpen :: rest => run rest caps (Some EmptyString) s
  | GClose :: rest =>
      match cur with
      | Some g => run rest (caps ++ [g]) None s
      | None => run rest caps None s
      end
  | Eol :: rest =>
      (* end of the string, or just before a newline that ends it *)
      match s with
      | EmptyString => run rest caps cur s
      | String c EmptyString =>
          if Ascii.eqb c PyStr.LF then run rest caps cur s else None
      | _ => None
      end
  end.

(** [pattern.match(s).groups()], [None] when there is no match. *)
Definition match_groups (pattern : list atom) (s : string)
    : option (list string) :=
  run pattern [] None s.

Definition chr (a : ascii) : atom := Cls (Ascii.eqb a).
Definition digit : atom := Cls PyStr.isdecimal_char.            (* \d *)
Definition spaces : atom := Plus PyStr.isspace_char.            (* \s+ *)
Definition not_chr (a : ascii) (c : ascii) : bool := negb (Ascii.eqb c a).
Definition dot (c : ascii) : bool := negb (Ascii.eqb c PyStr.LF). (* . *)

End Regex.

(** ** [class LogParser] *)

Inductive exn : Type := ValueError | OSError.

Inductive outcome (A : Type) : Type :=
| Returned (a : A)
| Raised (e : exn).
Arguments Returned {A} a.
Arguments Raised {A} e.

(** The three warnings the parser prints. *)
Inductive warning : Type :=
| InvalidDateFolder (token : option string) (source : string)
| MalformedTimestamp (source : string) (excerpt : string)
| OrphanedLine (source : string) (excerpt : string).

Module LogParser.

Import Regex.

(** The pattern, atom by atom (its last group is a starred dot):
    ^(\d{2}/\d{2})  \s+  (\d{2}:\d{2}:\d{2})  \s+ UTC \s+
    \[ ([^\]]+) \]  \s+  ( .* ) $ *)
Definition TIMESTAMP_PATTERN : list atom :=
  [ GOpen; digit; digit; chr "/"; digit; digit; GClose;
    spaces;
    GOpen; digit; digit; chr ":"; digit; digit; chr ":"; digit; digit;
    GClose;
    spaces; chr "U"; chr "T"; chr "C"; spaces;
    chr "[";
    GOpen; Plus (not_chr "]"); GClose;
    chr "]"; spaces;
    GOpen; Star dot; GClose;
    Eol ].

(** [TIMESTAMP_PATTERN.match(line)] with its four groups. *)
Definition match_header (line : string)
    : option (string * string * string * string) :=
  match match_groups TIMESTAMP_PATTERN line with
  | Some [mm_dd; time_str; kind; content_line] =>
      Some (mm_dd, time_str, kind, content_line)
  | _ => None
  end.

(** The text of a printed warning. *)
Definition warning_text (w : warning) : string :=
  match w with
  | InvalidDateFolder tok src =>
      "[!] Warning: Invalid date_folder '"
      +:+ match tok with Some t => t | None => "None" end
      +:+ "' in " +:+ src +:+ ", using current year"
  | MalformedTimestamp src excerpt =>
      "[!] Warning: Skipping malformed timestamp in " +:+ src +:+ ": "
      +:+ excerpt
  | OrphanedLine src excerpt =>
      "[!] Warning: Orphaned line in " +:+ src +:+ ": " +:+ excerpt
  end.

(** [not date_folder or len(date_folder) != 6 or not date_folder.isdigit()] *)
Definition date_folder_rejected (date_folder : option string) : bool :=
  match date_folder with
  | None => true
  | Some df =>
      negb (PyStr.truthy df) || negb (String.length df =? 6)%nat
      || negb (PyStr.isdigit df)
  end.

(** Lines 266-271: the year every timestamp of the call gets. *)
Definition resolve_base_year (now_year : Z) (date_folder : option string)
    (source : string) : list warning * outcome Z :=
  if date_folder_rejected date_folder
  then ([InvalidDateFolder date_folder source], Returned now_year)
  else
    match PyStr.int (PyStr.slice_to 2
                       (match date_folder with Some df => df
                                             | None => EmptyString end)) with
    | Some year_suffix => ([], Returned (2000 + year_suffix)%Z)
    | None => ([], Raised ValueError)
    end.

(** Lines 286-292; [None] stands for the [ValueError] that the [except]
    clause catches (a failed [int], a wrong number of parts to unpack or
    a component that [datetime] refuses). *)
Definition build_timestamp (base_year : Z) (mm_dd time_str : string)
    : option DateTime.datetime :=
  match map PyStr.int (PyStr.split "/" mm_dd) with
  | [Some month; Some day] =>
      match map PyStr.int (PyStr.split ":" time_str) with
      | [Some hour; Some minute; Some second] =>
          DateTime.datetime_new base_year month day hour minute second
      | _ => None
      end
  | _ => None
  end.

(** The variables of the loop: [entries], [current_entry] and what has
    been printed. *)
Record pstate : Type := mk_pstate {
  entries : list LogEntry;
  current_entry : option LogEntry;
  printed : list warning
}.

Definition initial : pstate := mk_pstate [] None [].

(** [if current_entry: entries.append(current_entry)] *)
Definition flush (st : pstate) : list LogEntry :=
  match current_entry st with
  | Some e => entries st ++ [e]
  | None => entries st
  end.

(** [current_entry.content.append(line)] *)
Definition append_line (e : LogEntry) (line : string) : LogEntry :=
  mk_LogEntry (timestamp e) (entry_type e) (content e ++ [line])
              (source_file e) (ip_address e) (date_folder e).

(** One iteration of the loop over [content.splitlines()]. *)
Definition step (base_year : Z) (folder : option string) (source : string)
    (ip : option string) (st : pstate) (line : string) : pstate :=
  match match_header line with
  | Some (mm_dd, time_str, kind, content_line) =>
      match build_timestamp base_year mm_dd time_str with
      | Some ts =>
          mk_pstate (flush st)
            (Some (mk_LogEntry ts kind [content_line] source ip folder))
            (printed st)
      | None =>
          mk_pstate (flush st) None
            (printed st
             ++ [MalformedTimestamp source (PyStr.slice_to 80 line)])
      end
  | None =>
      match current_entry st with
      | Some e => mk_pstate (entries st) (Some (append_line e line))
                            (printed st)
      | None =>
          if PyStr.truthy (PyStr.strip line)
          then mk_pstate (entries st) None
                 (printed st
                  ++ [OrphanedLine source (PyStr.slice_to 50 line)])
          else st
      end
  end.

Definition parse_lines (base_year : Z) (folder : option string)
    (source : string) (ip : option string)
    (lines : list string) (st : pstate) : pstate :=
  fold_left (step base_year folder source ip) lines st.

(** [LogParser.parse_beacon_log]: what it prints and how it ends. *)
Definition parse_beacon_log (now_year : Z) (text : string)
    (folder : option string) (source : string) (ip : option string)
    : list warning * outcome (list LogEntry) :=
  if negb (PyStr.truthy text) then ([], Returned [])
  else
    match resolve_base_year now_year folder source with
    | (w, Raised e) => (w, Raised e)
    | (w, Returned base_year) =>
        let st := parse_lines base_year folder source ip
                              (PyStr.splitlines text) initial in
        (w ++ printed st, Returned (flush st))
    end.

(** [LogParser.parse_system_log] *)
Definition parse_system_log (now_year : Z) (text : string)
    (folder : option string) (source : string)
    : list warning * outcome (list LogEntry) :=
  parse_beacon_log now_year text folder source None.

End LogParser.

(** ** [dict] and [defaultdict(list)] *)

Module Dict.

Definition dict (K V : Type) : Type := list (K * V).

Definition keys {K V : Type} (d : dict K V) : list K := map fst d.

(** The keys of a dictionary are distinct. *)
Definition dict_wf {K V : Type} (d : dict K V) : Prop := NoDup (keys d).

Section Ops.
Context {K V : Type} (eqb : K -> K -> bool).

(** [d.get(k)] *)
Fixpoint get (k : K) (d : dict K V) : option V :=
  match d with
  | [] => None
  | (k', v) :: d' => if eqb k k' then Some v else get k d'
  end.

(** [d[k].append(v)] on a [defaultdict(list)]: a new key is added
    last, with the one-element list. *)
Fixpoint append_to (k : K) (v : V) (d : dict K (list V))
    : dict K (list V) :=
  match d with
  | [] => [(k, [v])]
  | (k', l) :: d' =>
      if eqb k k' then (k', l ++ [v]) :: d'
      else (k', l) :: append_to k v d'
  end.
End Ops.

Definition map_values {K V W : Type} (f : V -> W) (d : dict K V)
    : dict K W :=
  map (fun kv => (fst kv, f (snd kv))) d.

Definition pair_eqb (a b : string * string) : bool :=
  String.eqb (fst a) (fst b) && String.eqb (snd a) (snd b).

End Dict.

(** ** [class LogAggregator] *)

Module LogAggregator.

Import Dict.

(** [entries.sort(key=lambda e: e.timestamp)].  [list.sort] is stable
    and compares keys with [<] only; the stable insertion sort below is
    its model ([sort_unique]: a stable sort has one possible result). *)
Fixpoint insert (x : LogEntry) (l : list LogEntry) : list LogEntry :=
  match l with
  | [] => [x]
  | y :: l' =>
      if DateTime.ltb (timestamp y) (timestamp x)
      then y :: insert x l'
      else x :: l
  end.

Definition sort_by_timestamp (l : list LogEntry) : list LogEntry :=
  fold_right insert [] l.

(** [LogAggregator.aggregate_by_ip]: the lists are sorted in place and
    the dictionary itself is returned; the result below is its new
    value. *)
Definition aggregate_by_ip (entries_by_ip : dict string (list LogEntry))
    : dict string (list LogEntry) :=
  map_values sort_by_timestamp entries_by_ip.

(** The body of the inner loop of [aggregate_by_ip_and_date]:
    [if entry.date_folder: aggregated[(ip, entry.date_folder)].append(entry)] *)
Definition add_entry (ip : string)
    (aggregated : dict (string * string) (list LogEntry))
    (entry : LogEntry) : dict (string * string) (list LogEntry) :=
  match date_folder entry with
  | Some df =>
      if PyStr.truthy df
      then append_to pair_eqb (ip, df) entry aggregated
      else aggregated
  | None => aggregated
  end.

Definition group_by_ip_and_date
    (entries_by_ip : dict string (list LogEntry))
    : dict (string * string) (list LogEntry) :=
  fold_left
    (fun aggregated kv => fold_left (add_entry (fst kv)) (snd kv) aggregated)
    entries_by_ip [].

(** [LogAggregator.aggregate_by_ip_and_date] *)
Definition aggregate_by_ip_and_date
    (entries_by_ip : dict string (list LogEntry))
    : dict (string * string) (list LogEntry) :=
  map_values sort_by_timestamp (group_by_ip_and_date entries_by_ip).

(** [LogAggregator.aggregate_system_logs] *)
Definition aggregate_system_logs
    (entries_by_type : dict string (list LogEntry))
    : dict string (list LogEntry) :=
  map_values sort_by_timestamp entries_by_type.

End LogAggregator.

(** ** [class LogWriter]

    The file system is a state of an unspecified type [World].  Creating
    the output directory and writing one file are its two operations:
    [mkdir] may refuse, and [write_file] (the [with open(...)] block:
    open for writing, [writelines], close) ends in one of three ways.
    [path_join] is the [/] of [pathlib]. *)

Inductive write_result : Type :=
| Written
| IOFailed (msg : string)         (* caught by [except IOError] *)
| OtherFailed (msg : string).     (* caught by [except Exception] *)

(** The lines the writer prints: the group written, with its number of
    records and its file, or the file that failed, with the error. *)
Inductive report : Type :=
| ReportWritten (group : string) (count : nat) (path : string)
| ReportError (path : string) (msg : string)
| ReportUnexpected (path : string) (msg : string).

Module LogWriter.

Import Dict.

Section Writer.
Context {World : Type}.
Variable path_join : string -> string -> string.
Variable mkdir : World -> string -> option World.
Variable write_file : World -> string -> string -> World * write_result.

(** [f.writelines(entry.format() for entry in entries)] *)
Definition render_all (entries : list LogEntry) : string :=
  String.concat EmptyString (map LogEntryM.format entries).

(** The state of the loop: the world, [files_written] and the lines
    printed so far. *)
Record wstate : Type := mk_wstate {
  world : World;
  files_written : nat;
  reports : list report
}.

(** One iteration of either loop, for the group shown as [label] that
    goes to [output_file]. *)
Definition write_group (label : string) (output_file : string)
    (entries : list LogEntry) (st : wstate) : wstate :=
  match entries with
  | [] => st                                   (* [continue] *)
  | _ =>
      match write_file (world st) output_file (render_all entries) with
      | (w', Written) =>
          mk_wstate w' (S (files_written st))
            (reports st
             ++ [ReportWritten label (List.length entries) output_file])
      | (w', IOFailed msg) =>
          mk_wstate w' (files_written st)
            (reports st ++ [ReportError output_file msg])
      | (w', OtherFailed msg) =>
          mk_wstate w' (files_written st)
            (reports st ++ [ReportUnexpected output_file msg])
      end
  end.

Definition complete_file (complete_dir ip : string) : string :=
  path_join complete_dir (ip +:+ "-Complete.log").

Definition daily_file (daily_dir : string) (key : string * string)
    : string :=
  path_join daily_dir (fst key +:+ "-" +:+ snd key +:+ ".log").

Definition daily_label (key : string * string) : string :=
  fst key +:+ " [" +:+ snd key +:+ "]".

(** [LogWriter.write_complete_logs] *)
Definition write_complete_logs
    (aggregated_entries : dict string (list LogEntry))
    (output_dir : string) (w : World)
    : World * list report * outcome nat :=
  let complete_dir := path_join output_dir "complete" in
  match mkdir w complete_dir with
  | None => (w, [], Raised OSError)
  | Some w0 =>
      let st :=
        fold_left
          (fun st kv =>
             write_group (fst kv) (complete_file complete_dir (fst kv))
                         (snd kv) st)
          aggregated_entries (mk_wstate w0 0 []) in
      (world st, reports st, Returned (files_written st))
  end.

(** [LogWriter.write_daily_logs] *)
Definition write_daily_logs
    (aggregated_entries : dict (string * string) (list LogEntry))
    (output_dir : string) (w : World)
    : World * list report * outcome nat :=
  let daily_dir := path_join output_dir "daily" in
  match mkdir w daily_dir with
  | None => (w, [], Raised OSError)
  | Some w0 =>
      let st :=
        fold_left
          (fun st kv =>
             write_group (daily_label (fst kv))
                         (daily_file daily_dir (fst kv)) (snd kv) st)
          aggregated_entries (mk_wstate w0 0 []) in
      (world st, reports st, Returned (files_written st))
  end.

End Writer.

End LogWriter.

(** ** Vocabulary of the statements *)

Module Vocab.

Import Dict LogParser LogWriter Regex.

(** [a]'s timestamp is not after [b]'s. *)
Definition ts_le (a b : LogEntry) : Prop :=
  DateTime.ltb (timestamp b) (timestamp a) = false.

(** The records stamped [t]. *)
Definition same_ts (t : DateTime.datetime) (e : LogEntry) : bool :=
  DateTime.eqb (timestamp e) t.

(** An occurrence of [a] comes before an occurrence of [b] in [l]. *)
Definition precedes {A : Type} (a b : A) (l : list A) : Prop :=
  exists l1 l2 l3, l = l1 ++ a :: l2 ++ b :: l3.

(** [out] is [inp] sorted ascending by timestamp, stably. *)
Definition stable_sorted (inp out : list LogEntry) : Prop :=
  Permutation inp out
  /\ StronglySorted ts_le out
  /\ (forall t, filter (same_ts t) out = filter (same_ts t) inp)
  /\ (forall a b, timestamp a = timestamp b ->
                  precedes a b inp -> precedes a b out).

(** [entry.date_folder] is the non-empty token [df]: the test
    [if entry.date_folder] passes and the key gets [df]. *)
Definition in_folder (df : string) (e : LogEntry) : bool :=
  match date_folder e with
  | Some f => PyStr.truthy f && String.eqb f df
  | None => false
  end.

(** The record [e] with its entity set to [ip]. *)
Definition with_ip (ip : option string) (e : LogEntry) : LogEntry :=
  mk_LogEntry (timestamp e) (entry_type e) (content e) (source_file e)
              ip (date_folder e).

(** A date-folder token of exactly six ASCII digits. *)
Definition six_ascii_digits (df : string) : bool :=
  (String.length df =? 6)%nat && PyStr.forallb PyStr.isdecimal_char df.

(** Each line followed by a newline. *)
Definition unlines (lines : list string) : string :=
  String.concat EmptyString (map (fun l => l +:+ PyStr.nl) lines).

(** The blob of the specification's example. *)
Definition example_text : string :=
  "08/15 10:00:01 UTC [input] whoami" +:+ PyStr.nl
  +:+ "DOMAIN\user" +:+ PyStr.nl
  +:+ "08/15 10:00:05 UTC [output] " +:+ PyStr.nl
  +:+ "administrator" +:+ PyStr.nl.

Definition malformed_text : string :=
  "13/40 25:00:00 UTC [x] y" +:+ PyStr.nl.

(** Six characters that [isdigit] accepts and [int] does not: two
    superscript twos (U+00B2) followed by 0815. *)
Definition superscript_folder : string :=
  String (ascii_of_N 178) (String (ascii_of_N 178) "0815").

(** *** The header grammar of the specification

    [MM/DD HH:MM:SS UTC [kind] free text], with single blanks, two-digit
    fields and a non-empty kind without a closing bracket. *)

Record stamp : Type := mk_stamp {
  mo1 : ascii; mo2 : ascii; dy1 : ascii; dy2 : ascii;
  hr1 : ascii; hr2 : ascii; mi1 : ascii; mi2 : ascii;
  sc1 : ascii; sc2 : ascii
}.

Definition stamp_chars (s : stamp) : list ascii :=
  [mo1 s; mo2 s; dy1 s; dy2 s; hr1 s; hr2 s; mi1 s; mi2 s; sc1 s; sc2 s].

(** All ten characters are ASCII digits. *)
Definition stamp_ok (s : stamp) : bool :=
  List.forallb PyStr.isdecimal_char (stamp_chars s).

Definition pair_text (a b : ascii) : string := String a (String b "").

Definition date_text (s : stamp) : string :=
  pair_text (mo1 s) (mo2 s) +:+ "/" +:+ pair_text (dy1 s) (dy2 s).

Definition time_text (s : stamp) : string :=
  pair_text (hr1 s) (hr2 s) +:+ ":" +:+ pair_text (mi1 s) (mi2 s) +:+ ":"
  +:+ pair_text (sc1 s) (sc2 s).

Definition header_line (s : stamp) (kind free : string) : string :=
  date_text s +:+ " " +:+ time_text s +:+ " UTC [" +:+ kind +:+ "] "
  +:+ free.

Definition kind_ok (kind : string) : bool :=
  PyStr.truthy kind && PyStr.forallb (Regex.not_chr "]") kind.

Definition digit_value (c : ascii) : Z := Z.of_N (PyStr.code c - 48).

Definition pair_value (a b : ascii) : Z :=
  (10 * digit_value a + digit_value b)%Z.

(** The timestamp the fields denote in a given year, if there is one. *)
Definition stamp_time (base_year : Z) (s : stamp)
    : option DateTime.datetime :=
  DateTime.datetime_new base_year
    (pair_value (mo1 s) (mo2 s)) (pair_value (dy1 s) (dy2 s))
    (pair_value (hr1 s) (hr2 s)) (pair_value (mi1 s) (mi2 s))
    (pair_value (sc1 s) (sc2 s)).

(** The free text begins with a blank. *)
Definition starts_blank (free : string) : bool :=
  match free with
  | String c _ => PyStr.isspace_char c
  | EmptyString => false
  end.

(** 08/15 10:00:01 *)
Definition example_stamp : stamp :=
  mk_stamp "0" "8" "1" "5" "1" "0" "0" "0" "0" "1".

(** A header whose free text is indented by one blank. *)
Definition indented_text : string :=
  "08/15 10:00:01 UTC [input]  whoami" +:+ PyStr.nl.

(** A record is open when a malformed header arrives; one line follows. *)
Definition interrupted_text : string :=
  "08/15 10:00:01 UTC [input] whoami" +:+ PyStr.nl
  +:+ "DOMAIN\user" +:+ PyStr.nl
  +:+ "13/40 25:00:00 UTC [x] y" +:+ PyStr.nl
  +:+ "lost" +:+ PyStr.nl.

Definition is_malformed_warning (w : warning) : bool :=
  match w with MalformedTimestamp _ _ => true | _ => false end.

Definition is_folder_warning (w : warning) : bool :=
  match w with InvalidDateFolder _ _ => true | _ => false end.

(** A record whose [date_folder] is present but empty, filed under an
    entity. *)
Definition undated_record : LogEntry :=
  mk_LogEntry (DateTime.mk_datetime 2023 8 15 10 0 1) "input" ["whoami"%string]
              "beacon_1.log" (Some "10.0.0.5"%string) (Some EmptyString).

Definition undated_input : Dict.dict string (list LogEntry) :=
  [("10.0.0.5"%string, [undated_record])].

(** Two entities; the first has records of two days and one that
    carries no token. *)
Definition sample_record (d H M S : Z) (folder : option string) : LogEntry :=
  mk_LogEntry (DateTime.mk_datetime 2023 8 d H M S) "output" ["ok"%string]
              "beacon_1.log" (Some "10.0.0.5"%string) folder.

Definition sample_input : Dict.dict string (list LogEntry) :=
  [("10.0.0.5"%string,
    [sample_record 16 9 0 0 (Some "230816"%string);
     sample_record 15 10 0 5 (Some "230815"%string);
     sample_record 15 10 0 1 None;
     sample_record 15 10 0 1 (Some "230815"%string)]);
   ("10.0.0.7"%string,
    [sample_record 15 8 30 0 (Some "230815"%string)])].

(** *** Auxiliary notions of the proofs and the examples *)

(** What a group becomes when [l] is appended to it, record by record. *)
Definition extend (o : option (list LogEntry)) (l : list LogEntry)
    : option (list LogEntry) :=
  match l with
  | [] => o
  | _ => Some (match o with Some g => g | None => [] end ++ l)
  end.

(** No group is ever empty. *)
Definition groups_nonempty (d : dict (string * string) (list LogEntry))
    : Prop :=
  Forall (fun kv => snd kv <> []) d.

(** The records of [entries] that [add_entry ip] files under [key]. *)
Definition filed (ip : string) (key : string * string) (e : LogEntry)
    : bool :=
  String.eqb ip (fst key) && in_folder (snd key) e.

(** All records filed under [key], in the order they are met. *)
Definition members (key : string * string)
    (d : dict string (list LogEntry)) : list LogEntry :=
  flat_map (fun kv => filter (filed (fst kv) key) (snd kv)) d.

(** What the open group holds after the characters of [s]. *)
Definition pushall (cur : option string) (s : string) : option string :=
  match cur with
  | Some g => Some (g +:+ s)
  | None => None
  end.

(** The repetition cannot go on into [s]. *)
Definition stops (p : ascii -> bool) (s : string) : bool :=
  match s with
  | String c _ => negb (p c)
  | EmptyString => true
  end.

(** The two records of the specification's example. *)
Definition example_records (source : string) : list LogEntry :=
  [ mk_LogEntry (DateTime.mk_datetime 2023 8 15 10 0 1) "input"
                ["whoami"; "DOMAIN\user"] source
                (Some "10.0.0.5") (Some "230815");
    mk_LogEntry (DateTime.mk_datetime 2023 8 15 10 0 5) "output"
                [""; "administrator"] source
                (Some "10.0.0.5") (Some "230815") ].

(** The record that is open in [interrupted_text] when the malformed
    header arrives. *)
Definition interrupted_record : LogEntry :=
  mk_LogEntry (DateTime.mk_datetime 2023 8 15 10 0 1) "input"
              ["whoami"; "DOMAIN\user"] "beacon_1.log"
              (Some "10.0.0.5") (Some "230815").

(** A loop state with [f] applied to all its records. *)
Definition map_state (f : LogEntry -> LogEntry) (st : pstate) : pstate :=
  mk_pstate (map f (entries st)) (option_map f (current_entry st))
            (printed st).

(** [f] on what a call returned, if it did return. *)
Definition map_returned {A B : Type} (f : A -> B) (o : outcome A)
    : outcome B :=
  match o with
  | Returned a => Returned (f a)
  | Raised e => Raised e
  end.

(** No character of [l] is a line boundary. *)
Definition no_linebreak (l : string) : bool :=
  PyStr.forallb (fun c => negb (PyStr.is_linebreak c)) l.

(** What the parser makes of [indented_text]. *)
Definition indented_record : LogEntry :=
  mk_LogEntry (DateTime.mk_datetime 2023 8 15 10 0 1) "input" ["whoami"]
              "beacon_1.log" (Some "10.0.0.5") (Some "230815").

(** One write the loop attempts: the group as it is shown, its number of
    records, the file and the text. *)
Record job : Type := mk_job {
  job_label : string;
  job_count : nat;
  job_path : string;
  job_text : string
}.

(** The canonical text of a record, written after the render contract
    of the specification and not after the code: two digits for each of
    month, day, hour, minute and second in the form
    MM/DD HH:MM:SS UTC [kind]; then, for an empty body, the marker
    (empty) and a newline; otherwise the first body line on the line of
    the header, and every other body line as a line of its own, each
    line ended by one newline. *)
Definition two_digit (v : Z) : string :=
  String (ascii_of_N (48 + Z.to_N (v / 10)))
         (String (ascii_of_N (48 + Z.to_N (v mod 10))) EmptyString).

Definition canonical_header (e : LogEntry) : string :=
  two_digit (DateTime.month (timestamp e)) +:+ "/"
  +:+ two_digit (DateTime.day (timestamp e)) +:+ " "
  +:+ two_digit (DateTime.hour (timestamp e)) +:+ ":"
  +:+ two_digit (DateTime.minute (timestamp e)) +:+ ":"
  +:+ two_digit (DateTime.second (timestamp e))
  +:+ " UTC [" +:+ entry_type e +:+ "]".

Fixpoint each_line (lines : list string) : string :=
  match lines with
  | [] => EmptyString
  | l :: rest => l +:+ PyStr.nl +:+ each_line rest
  end.

Definition canonical_text (e : LogEntry) : string :=
  match content e with
  | [] => canonical_header e +:+ " (empty)" +:+ PyStr.nl
  | first :: rest =>
      canonical_header e +:+ " " +:+ first +:+ PyStr.nl +:+ each_line rest
  end.

(** The text of a group: the canonical texts of its records, one after
    the other in the order of the group. *)
Fixpoint canonical_group_text (entries : list LogEntry) : string :=
  match entries with
  | [] => EmptyString
  | e :: rest => canonical_text e +:+ canonical_group_text rest
  end.

(** The job of one non-empty group: its file gets the canonical text of
    the group. *)
Definition job_of (label path : string) (entries : list LogEntry) : job :=
  mk_job label (List.length entries) path (canonical_group_text entries).

(** The line printed for a job that ended with [r]. *)
Definition report_of (j : job) (r : write_result) : report :=
  match r with
  | Written => ReportWritten (job_label j) (job_count j) (job_path j)
  | IOFailed msg => ReportError (job_path j) msg
  | OtherFailed msg => ReportUnexpected (job_path j) msg
  end.

(** The number of writes that succeeded. *)
Definition is_written (r : write_result) : bool :=
  match r with Written => true | _ => false end.

Definition count_written (rs : list write_result) : nat :=
  List.length (filter is_written rs).

(** The jobs of a grouping: one per non-empty group, in its order. *)
Definition nonempty {K : Type} (kv : K * list LogEntry) : bool :=
  match snd kv with [] => false | _ => true end.

Definition jobs_of {K : Type} (label path : K -> string)
    (d : dict K (list LogEntry)) : list job :=
  map (fun kv => job_of (label (fst kv)) (path (fst kv)) (snd kv))
      (filter nonempty d).

(** A file system in memory: the files written so far, and one path
    that cannot be written. *)
Definition mem_world : Type := list (string * string).

Definition mem_join (dir name : string) : string := dir +:+ "/" +:+ name.

Definition mem_mkdir (w : mem_world) (dir : string) : option mem_world :=
  Some w.

Definition mem_write (locked : string) (w : mem_world) (path text : string)
    : mem_world * write_result :=
  if String.eqb path locked then (w, IOFailed "Permission denied")
  else (w ++ [(path, text)], Written).

(** Two non-empty groups, per entity and per entity and day. *)
Definition two_groups : dict string (list LogEntry) :=
  [("10.0.0.5", [sample_record 15 10 0 1 (Some "230815")]);
   ("10.0.0.7", [sample_record 15 8 30 0 (Some "230815")])].

Definition two_daily_groups : dict (string * string) (list LogEntry) :=
  [(("10.0.0.5", "230815"), [sample_record 15 10 0 1 (Some "230815")]);
   (("10.0.0.7", "230815"), [sample_record 15 8 30 0 (Some "230815")])].

Section Attempts.
Context {World : Type}.
Variable write_file : World -> string -> string -> World * write_result.

(** Attempt every job in order, whatever becomes of the others. *)
Fixpoint attempt_all (w : World) (jobs : list job)
    : World * list write_result :=
  match jobs with
  | [] => (w, [])
  | j :: js =>
      let wr := write_file w (job_path j) (job_text j) in
      let rest := attempt_all (fst wr) js in
      (fst rest, snd wr :: snd rest)
  end.

End Attempts.

(** The lines printed for the jobs, given how each ended. *)
Definition reports_of (jobs : list job) (rs : list write_result)
    : list report :=
  map (fun jr => report_of (fst jr) (snd jr)) (combine jobs rs).

End Vocab.

(** ** Further notions: whole blobs and the pipeline *)

Module Extra.

Import Dict LogParser LogWriter Regex Vocab.

(** A [datetime] that the constructor accepts. *)
Definition valid_datetime (t : DateTime.datetime) : Prop :=
  DateTime.datetime_new (DateTime.year t) (DateTime.month t) (DateTime.day t)
    (DateTime.hour t) (DateTime.minute t) (DateTime.second t) = Some t.

(** The line is not made of blanks only: [line.strip()] is true. *)
Definition nonblank (line : string) : bool := PyStr.truthy (PyStr.strip line).

(** What a line starts when it is a header whose timestamp can be built
    in [base_year]: the timestamp, the kind and the rest of the line. *)
Definition header_of (base_year : Z) (line : string)
    : option (DateTime.datetime * string * string) :=
  match match_header line with
  | Some (mm_dd, time_str, kind, rest) =>
      match build_timestamp base_year mm_dd time_str with
      | Some ts => Some (ts, kind, rest)
      | None => None
      end
  | None => None
  end.

(** A header line whose timestamp cannot be built in [base_year]. *)
Definition ill_stamped (base_year : Z) (line : string) : bool :=
  match match_header line with
  | Some (mm_dd, time_str, _, _) =>
      match build_timestamp base_year mm_dd time_str with
      | Some _ => false
      | None => true
      end
  | None => false
  end.

(** Timestamp, kind and first body line of a record. *)
Definition opening (e : LogEntry) : DateTime.datetime * string * string :=
  (timestamp e, entry_type e, hd EmptyString (content e)).

Definition option_list {A : Type} (o : option A) : list A :=
  match o with Some a => [a] | None => [] end.

(** One record of a well-formed blob: the ten digits of its header, the
    timestamp they denote, the kind, the free text and the continuation
    lines. *)
Record chunk : Type := mk_chunk {
  c_stamp : stamp;
  c_time : DateTime.datetime;
  c_kind : string;
  c_free : string;
  c_conts : list string
}.

Definition chunk_lines (c : chunk) : list string :=
  header_line (c_stamp c) (c_kind c) (c_free c) :: c_conts c.

(** The header is a line of the grammar with a date and time of
    [base_year], its free text does not begin with a blank, and no
    continuation line is a header. *)
Definition chunk_ok (base_year : Z) (c : chunk) : Prop :=
  stamp_ok (c_stamp c) = true
  /\ stamp_time base_year (c_stamp c) = Some (c_time c)
  /\ kind_ok (c_kind c) = true
  /\ starts_blank (c_free c) = false
  /\ Forall (fun l => match_header l = None) (c_conts c).

Definition chunk_entry (folder : option string) (source : string)
    (ip : option string) (c : chunk) : LogEntry :=
  mk_LogEntry (c_time c) (c_kind c) (c_free c :: c_conts c) source ip folder.

(** The two records of [example_text]. *)
Definition example_chunks : list chunk :=
  [mk_chunk example_stamp (DateTime.mk_datetime 2023 8 15 10 0 1)
            "input" "whoami" ["DOMAIN\user"];
   mk_chunk (mk_stamp "0" "8" "1" "5" "1" "0" "0" "0" "0" "5")
            (DateTime.mk_datetime 2023 8 15 10 0 5)
            "output" "" ["administrator"]].

(** The ten digits that [strftime] prints for a timestamp. *)
Definition stamp_of (t : DateTime.datetime) : stamp :=
  let hi v := PyStr.digit_char (v / 10) in
  let lo v := PyStr.digit_char (v mod 10) in
  mk_stamp (hi (DateTime.month t)) (lo (DateTime.month t))
           (hi (DateTime.day t)) (lo (DateTime.day t))
           (hi (DateTime.hour t)) (lo (DateTime.hour t))
           (hi (DateTime.minute t)) (lo (DateTime.minute t))
           (hi (DateTime.second t)) (lo (DateTime.second t)).

(** The record [e] as a parse with these arguments returns it. *)
Definition restamp (folder : option string) (source : string)
    (ip : option string) (body : list string) (e : LogEntry) : LogEntry :=
  mk_LogEntry (timestamp e) (entry_type e) body source ip folder.

(** [entry.date_folder] passes the test [if entry.date_folder]. *)
Definition has_token (e : LogEntry) : bool :=
  match date_folder e with
  | Some f => PyStr.truthy f
  | None => false
  end.

(** All records of a grouping, group after group. *)
Definition all_records {K : Type} (d : dict K (list LogEntry))
    : list LogEntry :=
  List.concat (map snd d).

(** The group, if it is not empty. *)
Definition group_if_any (g : list LogEntry) : option (list LogEntry) :=
  match g with
  | [] => None
  | _ => Some g
  end.

(** One to three ASCII digits. *)
Definition octet (s : string) : bool :=
  (1 <=? String.length s)%nat && (String.length s <=? 3)%nat
  && PyStr.forallb PyStr.isdecimal_char s.

(** Four such groups separated by dots. *)
Definition dotted_quad (g : string) : Prop :=
  exists a b c d,
    g = a +:+ "." +:+ b +:+ "." +:+ c +:+ "." +:+ d
    /\ octet a = true /\ octet b = true /\ octet c = true
    /\ octet d = true.

(** [s] holds [sub] between two slashes. *)
Definition has_component (sub s : string) : Prop :=
  exists pre post, s = pre +:+ "/" +:+ sub +:+ "/" +:+ post.

Definition is_written_report (r : report) : bool :=
  match r with ReportWritten _ _ _ => true | _ => false end.

(** What a call of the parser stamps on each of its records. *)
Definition stamped (base_year : Z) (folder : option string)
    (source : string) (ip : option string) (e : LogEntry) : Prop :=
  source_file e = source /\ ip_address e = ip /\ date_folder e = folder
  /\ content e <> [] /\ DateTime.year (timestamp e) = base_year
  /\ valid_datetime (timestamp e).

Definition state_stamped (base_year : Z) (folder : option string)
    (source : string) (ip : option string) (st : LogParser.pstate) : Prop :=
  Forall (stamped base_year folder source ip) (LogParser.entries st)
  /\ match LogParser.current_entry st with
     | Some e => stamped base_year folder source ip e
     | None => True
     end.

End Extra.

(** ** The fragment of [re] that the discovery patterns use

    One character of a class, a greedy bounded repetition of a class and
    the brackets of a capture group; [search] is [Pattern.search]: the
    match at the leftmost position where there is one. *)

Module BoundedRegex.

Inductive atom : Type :=
| Cls (p : ascii -> bool)              (* one character of the class *)
| Upto (n : nat) (p : ascii -> bool)   (* class{0,n}, greedy *)
| GOpen
| GClose.

Fixpoint upto {R : Type} (n : nat) (p : ascii -> bool)
    (k : option string -> string -> option R)
    (cur : option string) (s : string) : option R :=
  match n with
  | O => k cur s
  | S n' =>
      match s with
      | String c s' =>
          if p c then
            match upto n' p k (Regex.push cur c) s' with
            | Some r => Some r
            | None => k cur s
            end
          else k cur s
      | EmptyString => k cur s
      end
  end.

Fixpoint run (items : list atom) (caps : list string)
    (cur : option string) (s : string) : option (list string) :=
  match items with
  | [] => Some caps
  | Cls p :: rest =>
      match s with
      | String c s' =>
          if p c then run rest caps (Regex.push cur c) s' else None
      | EmptyString => None
      end
  | Upto n p :: rest => upto n p (run rest caps) cur s
  | GOpen :: rest => run rest caps (Some EmptyString) s
  | GClose :: rest =>
      match cur with
      | Some g => run rest (caps ++ [g]) None s
      | None => run rest caps None s
      end
  end.

(** [pattern.search(s)]: the groups of the leftmost match. *)
Fixpoint search (pattern : list atom) (s : string) : option (list string) :=
  match run pattern [] None s with
  | Some groups => Some groups
  | None =>
      match s with
      | String _ s' => search pattern s'
      | EmptyString => None
      end
  end.

Definition chr (a : ascii) : atom := Cls (Ascii.eqb a).
(** [\d]: on [str], the class of all Unicode decimal digits.  Among the
    code points U+0000 to U+00FF, which are all that a [string] here can
    hold, these are the ASCII digits 0 to 9; a path with decimal digits
    of another script is outside this development. *)
Definition digit : atom := Cls PyStr.isdecimal_char.

(** [\d{1,3}] *)
Definition digits_1_3 : list atom := [digit; Upto 2 PyStr.isdecimal_char].

End BoundedRegex.

(** ** [class LogDiscovery]: the inventory of [scan_structure] *)

(** One beacon log of the inventory: [{'path': ..., 'date_folder': ...}]. *)
Record log_info : Type := mk_log_info {
  li_path : string;
  li_date_folder : string
}.

(** [inventory]: beacon logs by address, system logs by type. *)
Record inventory : Type := mk_inventory {
  beacon_logs : Dict.dict string (list log_info);
  system_logs : Dict.dict string (list string)
}.

(** What [scan_structure] returns: [{}] without a logs path, the
    inventory otherwise. *)
Inductive scan_result : Type :=
| NoInventory
| Inventory (inv : inventory).

(** The lines [scan_structure] prints. *)
Inductive scan_msg : Type :=
| ScanStart
| FoundDateFolders (count : nat) (sorted_folders : list string)
| FoundAddresses (count : nat)
| FoundLogs (beacon system : nat).

Module LogDiscovery.

Import BoundedRegex.

(** [DATE_PATTERN]: a slash, six digits in a group, a slash. *)
Definition DATE_PATTERN : list atom :=
  [chr "/"; GOpen; digit; digit; digit; digit; digit; digit; GClose;
   chr "/"].

(** [IP_PATTERN]: a slash, four groups of one to three digits separated
    by dots in one capture group, a slash. *)
Definition IP_PATTERN : list atom :=
  [chr "/"; GOpen] ++ digits_1_3 ++ [chr "."] ++ digits_1_3 ++ [chr "."]
  ++ digits_1_3 ++ [chr "."] ++ digits_1_3 ++ [GClose; chr "/"].

(** [m.group(1)] of a search, [None] when nothing matches. *)
Definition search_group (pattern : list atom) (s : string) : option string :=
  match search pattern s with
  | Some (g :: _) => Some g
  | _ => None
  end.

Fixpoint prefix (p s : string) : bool :=
  match p, s with
  | EmptyString, _ => true
  | String a p', String b s' => Ascii.eqb a b && prefix p' s'
  | String _ _, EmptyString => false
  end.

(** [sub in s] *)
Fixpoint contains (sub s : string) : bool :=
  prefix sub s
  || match s with
     | String _ s' => contains sub s'
     | EmptyString => false
     end.

(** [os.path.basename] (POSIX): what follows the last slash. *)
Definition basename (p : string) : string :=
  last (PyStr.split "/" p) EmptyString.

(** [set.add] *)
Definition set_add (x : string) (l : list string) : list string :=
  if existsb (String.eqb x) l then l else l ++ [x].

(** [sorted] on a set of strings. *)
Fixpoint insert_sorted (x : string) (l : list string) : list string :=
  match l with
  | [] => [x]
  | y :: l' => if String.ltb y x then y :: insert_sorted x l' else x :: l
  end.

Definition sorted (l : list string) : list string :=
  fold_right insert_sorted [] l.

(** The variables of the loop over the listing. *)
Record sstate : Type := mk_sstate {
  s_beacon : Dict.dict string (list log_info);
  s_system : Dict.dict string (list string);
  date_folders : list string;
  ip_addresses : list string
}.

Definition add_system (log_type log_file : string) (st : sstate) : sstate :=
  mk_sstate (s_beacon st)
            (Dict.append_to String.eqb log_type log_file (s_system st))
            (date_folders st) (ip_addresses st).

(** One iteration of the loop of lines 209-238. *)
Definition scan_file (st : sstate) (log_file : string) : sstate :=
  if negb (PyStr.truthy log_file) then st
  else if contains "beacon_" log_file then
    match search_group DATE_PATTERN log_file,
          search_group IP_PATTERN log_file with
    | Some date_folder, Some ip_address =>
        mk_sstate
          (Dict.append_to String.eqb ip_address
             (mk_log_info log_file date_folder) (s_beacon st))
          (s_system st)
          (set_add date_folder (date_folders st))
          (set_add ip_address (ip_addresses st))
    | _, _ => st
    end
  else
    let filename := basename log_file in
    if String.eqb filename "download.log" then
      add_system "download" log_file st
    else if String.eqb filename "weblog_80.log" then
      add_system "weblog_80" log_file st
    else if String.eqb filename "weblog_443.log" then
      add_system "weblog_443" log_file st
    else if String.eqb filename "events.log" then
      add_system "events" log_file st
    else st.

(** [sum(len(logs) for logs in d.values())] *)
Definition total_logs {V : Type} (d : Dict.dict string (list V)) : nat :=
  list_sum (map (fun kv => List.length (snd kv)) d).

(** Lines 206-248: the inventory of a listing, one file per line. *)
Definition scan_listing (stdout : string) : list scan_msg * inventory :=
  let st := fold_left scan_file
              (PyStr.split PyStr.LF (PyStr.strip stdout))
              (mk_sstate [] [] [] []) in
  ([FoundDateFolders (List.length (date_folders st))
      (sorted (date_folders st));
    FoundAddresses (List.length (ip_addresses st));
    FoundLogs (total_logs (s_beacon st)) (total_logs (s_system st))],
   mk_inventory (s_beacon st) (s_system st)).

Definition dquote : string := String (ascii_of_N 34) EmptyString.

Section Scan.
(** [shlex.quote] and [SSHManager.execute_command], which gives the
    return code, the standard output and the standard error. *)
Variable quote : string -> string.
Variable execute_command : string -> Z * string * string.

(** [LogDiscovery.scan_structure], for the value of [self.logs_path]. *)
Definition scan_structure (logs_path : option string)
    : list scan_msg * scan_result :=
  match logs_path with
  | None | Some EmptyString => ([], NoInventory)
  | Some path =>
      let '(returncode, stdout, _) :=
        execute_command
          ("find " +:+ quote path +:+ " -type f -name " +:+ dquote
           +:+ "*.log" +:+ dquote +:+ " 2>/dev/null") in
      if negb (returncode =? 0)%Z
      then ([ScanStart], Inventory (mk_inventory [] []))
      else let '(msgs, inv) := scan_listing stdout in
           (ScanStart :: msgs, Inventory inv)
  end.
End Scan.

End LogDiscovery.

(** ** [main]: downloading and parsing the beacon logs (lines 467-488) *)

(** What this part of [main] prints: its own two warnings and the
    warnings of the parser. *)
Inductive main_msg : Type :=
| DownloadFailed (path : string)
| EmptyFile (path : string)
| FromParser (w : warning).

(** How the loop ends: with its variables, or with the exception that a
    parse raised and what was printed until then. *)
Inductive collected (A : Type) : Type :=
| Done (a : A)
| Failed (printed : list main_msg) (e : exn).
Arguments Done {A} a.
Arguments Failed {A} printed e.

Module Main.

(** [d[k].extend(l)] on a [defaultdict(list)]: the key is made if it is
    missing, also when [l] is empty. *)
Fixpoint extend_at (k : string) (l : list LogEntry)
    (d : Dict.dict string (list LogEntry)) : Dict.dict string (list LogEntry) :=
  match d with
  | [] => [(k, l)]
  | (k', l0) :: d' =>
      if String.eqb k k' then (k', l0 ++ l) :: d'
      else (k', l0) :: extend_at k l d'
  end.

(** [beacon_entries_by_ip], [total_beacon_entries] and what was printed. *)
Record cstate : Type := mk_cstate {
  beacon_entries_by_ip : Dict.dict string (list LogEntry);
  total_beacon_entries : nat;
  shown : list main_msg
}.

Section Collect.
(** [ssh.read_remote_file]: the content of a remote file, [None] when
    the download fails. *)
Variable read_remote_file : string -> option string.
Variable now_year : Z.

(** The body of the inner loop, for one log of the address [ip]. *)
Definition collect_file (ip : string) (st : cstate) (info : log_info)
    : collected cstate :=
  match read_remote_file (li_path info) with
  | None =>
      Done (mk_cstate (beacon_entries_by_ip st) (total_beacon_entries st)
                      (shown st ++ [DownloadFailed (li_path info)]))
  | Some text =>
      if negb (PyStr.truthy text) then
        Done (mk_cstate (beacon_entries_by_ip st) (total_beacon_entries st)
                        (shown st ++ [EmptyFile (li_path info)]))
      else
        match LogParser.parse_beacon_log now_year text
                (Some (li_date_folder info)) (li_path info) (Some ip) with
        | (ws, Returned entries) =>
            Done (mk_cstate
                    (extend_at ip entries (beacon_entries_by_ip st))
                    (total_beacon_entries st + List.length entries)
                    (shown st ++ map FromParser ws))
        | (ws, Raised e) => Failed (shown st ++ map FromParser ws) e
        end
  end.

Fixpoint collect_files (ip : string) (infos : list log_info) (st : cstate)
    : collected cstate :=
  match infos with
  | [] => Done st
  | info :: rest =>
      match collect_file ip st info with
      | Done st' => collect_files ip rest st'
      | Failed out e => Failed out e
      end
  end.

Fixpoint collect_from (logs : Dict.dict string (list log_info)) (st : cstate)
    : collected cstate :=
  match logs with
  | [] => Done st
  | (ip, infos) :: rest =>
      match collect_files ip infos st with
      | Done st' => collect_from rest st'
      | Failed out e => Failed out e
      end
  end.

(** The two loops over [inventory['beacon_logs']]. *)
Definition collect_beacon_logs (inv : inventory) : collected cstate :=
  collect_from (beacon_logs inv) (mk_cstate [] 0 []).

End Collect.



Section CollectSystem.
Variable read_remote_file : string -> option string.
(** The clock: [now k] is what the call number [k] of [datetime.now()]
    returns, counted from 0 over the whole loop.  The loop calls it for
    each path without a date folder (line 503), the parser when it
    rejects the date folder (line 268). *)
Variable now : nat -> DateTime.datetime.






End CollectSystem.

(** Lines 527-532 of [main]: the two views.  [aggregate_by_ip] sorts the
    lists of [beacon_entries_by_ip] in place and returns that dictionary,
    so the per-day view is built from the sorted lists. *)
Definition aggregate_views
    (beacon_entries_by_ip : Dict.dict string (list LogEntry))
    : Dict.dict string (list LogEntry)
      * Dict.dict (string * string) (list LogEntry) :=
  let aggregated_complete :=
    LogAggregator.aggregate_by_ip beacon_entries_by_ip in
  let aggregated_daily :=
    LogAggregator.aggregate_by_ip_and_date aggregated_complete in
  (aggregated_complete, aggregated_daily).

End Main.

(** ** Notions about the inventory *)

Module DiscoveryVocab.

Import LogDiscovery Extra.

(** The four system logs and the type each is filed under. *)
Definition system_log_types : list string :=
  ["download"; "weblog_80"; "weblog_443"; "events"].

(** A line of the listing that [scan_structure] files as a beacon log:
    its path holds beacon_, a date folder and an address. *)
Definition is_beacon_file (f : string) : bool :=
  PyStr.truthy f && contains "beacon_" f
  && match search_group DATE_PATTERN f,
           search_group IP_PATTERN f with
     | Some _, Some _ => true
     | _, _ => false
     end.

(** A line that it files as a system log: no beacon_ in the path, and
    one of the four file names. *)
Definition is_system_file (f : string) : bool :=
  PyStr.truthy f && negb (contains "beacon_" f)
  && existsb (fun t => String.eqb (basename f) (t +:+ ".log"))
             system_log_types.

(** A listing of six paths: three beacon logs of two addresses, a
    system log, a beacon log outside any date folder and one under an
    address of four digits. *)
Definition example_listing : string :=
  "/opt/logs/230815/10.0.0.5/beacon_123.log" +:+ PyStr.nl
  +:+ "/opt/logs/230815/events.log" +:+ PyStr.nl
  +:+ "/opt/logs/230816/10.0.0.5/beacon_9.log" +:+ PyStr.nl
  +:+ "/x/beacon_1.log" +:+ PyStr.nl
  +:+ "/opt/logs/230815/1234.0.0.5/beacon_7.log" +:+ PyStr.nl
  +:+ "/opt/logs/230814/192.168.100.255/beacon_7.log" +:+ PyStr.nl.

(** What holds of a beacon log filed under [ip]. *)
Definition beacon_filed (ip : string) (info : log_info) : Prop :=
  contains "beacon_" (li_path info) = true
  /\ search_group DATE_PATTERN (li_path info) = Some (li_date_folder info)
  /\ search_group IP_PATTERN (li_path info) = Some ip.

(** What holds of a system log filed under [log_type]. *)
Definition system_filed (log_type path : string) : Prop :=
  In log_type system_log_types
  /\ basename path = log_type +:+ ".log"
  /\ contains "beacon_" path = false.

Definition scan_invariant (lines : list string) (st : sstate) : Prop :=
  Dict.dict_wf (s_beacon st) /\ Dict.dict_wf (s_system st)
  /\ Forall (fun kv => snd kv <> [] /\ Forall (beacon_filed (fst kv)) (snd kv))
            (s_beacon st)
  /\ Forall (fun kv => snd kv <> [] /\ Forall (system_filed (fst kv)) (snd kv))
            (s_system st)
  /\ ip_addresses st = Dict.keys (s_beacon st)
  /\ total_logs (s_beacon st) = List.length (filter is_beacon_file lines)
  /\ total_logs (s_system st) = List.length (filter is_system_file lines).

End DiscoveryVocab.

(** ** Notions about the collection of the beacon logs *)

Module MainVocab.

Import LogDiscovery Main.

(** A record collected for [ip] is a record of a log that the inventory
    lists for [ip]: it carries the address, the path of that log and its
    date folder. *)
Definition collected_from (logs : Dict.dict string (list log_info))
    (ip : string) (e : LogEntry) : Prop :=
  ip_address e = Some ip
  /\ exists infos info,
       In (ip, infos) logs /\ In info infos
       /\ source_file e = li_path info
       /\ date_folder e = Some (li_date_folder info).

(** Every date folder of the inventory is six ASCII digits. *)
Definition dated (logs : Dict.dict string (list log_info)) : Prop :=
  Forall (fun kv =>
            Forall (fun info =>
                      Vocab.six_ascii_digits (li_date_folder info) = true)
                   (snd kv)) logs.

(** A message that is not the warning about the date folder. *)
Definition no_folder_warning (m : main_msg) : Prop :=
  match m with
  | FromParser w => Vocab.is_folder_warning w = false
  | _ => True
  end.

(** What the two loops keep. *)
Definition collect_invariant (logs : Dict.dict string (list log_info))
    (st : cstate) : Prop :=
  total_beacon_entries st
  = List.length (Extra.all_records (beacon_entries_by_ip st))
  /\ Dict.dict_wf (beacon_entries_by_ip st)
  /\ Forall (fun kv => Forall (collected_from logs (fst kv)) (snd kv))
            (beacon_entries_by_ip st)
  /\ forall ip, In ip (Dict.keys (beacon_entries_by_ip st)) ->
                In ip (Dict.keys logs).

(** A host on which one log of the example listing can be read, one is
    empty and the others cannot be downloaded. *)
Definition example_remote (path : string) : option string :=
  if String.eqb path "/opt/logs/230815/10.0.0.5/beacon_123.log"
  then Some Vocab.example_text
  else if String.eqb path "/opt/logs/230816/10.0.0.5/beacon_9.log"
  then Some EmptyString
  else None.

Definition example_inventory : inventory :=
  snd (scan_listing DiscoveryVocab.example_listing).








(** The records of a blob are in the order of their times. *)
Definition chronological (cs : list Extra.chunk) : Prop :=
  StronglySorted
    (fun a b => DateTime.ltb (Extra.c_time b) (Extra.c_time a) = false) cs.

End MainVocab.

(* ===================================================================== *)
(** * Part II: properties *)
(* ===================================================================== *)

(** ** The order of timestamps *)

Module DateTimeFacts.

Import DateTime.

Ltac zcases :=
  repeat match goal with
    | |- context [(?x <? ?y)%Z] => destruct (Z.ltb_spec x y)
    | |- context [(?x =? ?y)%Z] => destruct (Z.eqb_spec x y)
    | H : context [(?x <? ?y)%Z] |- _ => destruct (Z.ltb_spec x y)
    | H : context [(?x =? ?y)%Z] |- _ => destruct (Z.eqb_spec x y)
    end; simpl in *; try discriminate; try lia.

Lemma lex_ltb_irrefl (a : list Z) : lex_ltb a a = false.
Proof.
  induction a as [|x a IH]; simpl; [reflexivity|].
  rewrite IH. zcases; reflexivity.
Qed.

(** [a <= b] read as "not [b < a]" is transitive on tuples of one
    length. *)
Lemma lex_le_trans (a b c : list Z) :
  List.length a = List.length b -> List.length b = List.length c ->
  lex_ltb b a = false -> lex_ltb c b = false -> lex_ltb c a = false.
Proof.
  revert b c.
  induction a as [|x a IH]; intros [|y b] [|z c]; simpl;
    try discriminate; auto.
  intros Hab Hbc H1 H2.
  injection Hab as Hab. injection Hbc as Hbc.
  specialize (IH b c Hab Hbc).
  zcases; subst; auto.
Qed.

Lemma lex_antisym (a b : list Z) :
  List.length a = List.length b ->
  lex_ltb a b = false -> lex_ltb b a = false -> a = b.
Proof.
  revert b.
  induction a as [|x a IH]; intros [|y b]; simpl; try discriminate; auto.
  intros Hab H1 H2. injection Hab as Hab.
  specialize (IH b Hab).
  zcases; subst. f_equal. auto.
Qed.

Lemma fields_inj (a b : datetime) : fields a = fields b -> a = b.
Proof.
  destruct a, b. unfold fields. simpl. intros H.
  injection H as -> -> -> -> -> ->. reflexivity.
Qed.

Lemma fields_length (a : datetime) : List.length (fields a) = 6%nat.
Proof. reflexivity. Qed.

Lemma ltb_irrefl (a : datetime) : ltb a a = false.
Proof. apply lex_ltb_irrefl. Qed.

Lemma le_trans (a b c : datetime) :
  ltb b a = false -> ltb c b = false -> ltb c a = false.
Proof. apply lex_le_trans; reflexivity. Qed.

Lemma le_antisym (a b : datetime) :
  ltb a b = false -> ltb b a = false -> a = b.
Proof.
  intros H1 H2. apply fields_inj. apply lex_antisym; auto.
Qed.

Lemma lex_ltb_asym (a b : list Z) :
  lex_ltb a b = true -> lex_ltb b a = false.
Proof.
  revert b.
  induction a as [|x a IH]; intros [|y b]; simpl; try discriminate; auto.
  intros H. specialize (IH b). zcases; subst; auto.
Qed.

Lemma ltb_asym (a b : datetime) : ltb a b = true -> ltb b a = false.
Proof. apply lex_ltb_asym. Qed.

Lemma eqb_eq (a b : datetime) : eqb a b = true <-> a = b.
Proof.
  split.
  - unfold eqb. rewrite !andb_true_iff, !Z.eqb_eq.
    destruct a, b; simpl. intros [[[[[-> ->] ->] ->] ->] ->]. reflexivity.
  - intros ->. unfold eqb. rewrite !Z.eqb_refl. reflexivity.
Qed.

End DateTimeFacts.

(** ** The stable sort *)

Module SortFacts.

Import LogAggregator Vocab.

Lemma insert_perm (x : LogEntry) (l : list LogEntry) :
  Permutation (x :: l) (insert x l).
Proof.
  induction l as [|y l IH]; simpl; [apply Permutation_refl|].
  destruct (DateTime.ltb (timestamp y) (timestamp x)).
  - eapply perm_trans; [apply perm_swap|]. apply perm_skip, IH.
  - apply Permutation_refl.
Qed.

Lemma sort_perm (l : list LogEntry) : Permutation l (sort_by_timestamp l).
Proof.
  induction l as [|x l IH]; simpl; [constructor|].
  eapply perm_trans; [apply perm_skip, IH|]. apply insert_perm.
Qed.

Lemma ts_le_trans (a b c : LogEntry) : ts_le a b -> ts_le b c -> ts_le a c.
Proof.
  unfold ts_le. intros H1 H2.
  exact (DateTimeFacts.le_trans _ _ _ H1 H2).
Qed.

Lemma insert_sorted (x : LogEntry) (l : list LogEntry) :
  StronglySorted ts_le l -> StronglySorted ts_le (insert x l).
Proof.
  induction l as [|y l IH]; simpl; intros Hs.
  - repeat constructor.
  - apply StronglySorted_inv in Hs. destruct Hs as [Hs Hall].
    destruct (DateTime.ltb (timestamp y) (timestamp x)) eqn:E.
    + constructor; [apply IH, Hs|].
      apply (Permutation_Forall (insert_perm x l)).
      constructor; [|exact Hall].
      unfold ts_le. apply DateTimeFacts.ltb_asym, E.
    + constructor; [constructor; assumption|].
      constructor; [exact E|].
      eapply Forall_impl; [|exact Hall].
      intros z Hz. eapply ts_le_trans; [exact E|exact Hz].
Qed.

Lemma sort_sorted (l : list LogEntry) :
  StronglySorted ts_le (sort_by_timestamp l).
Proof.
  induction l as [|x l IH]; simpl; [constructor|].
  apply insert_sorted, IH.
Qed.

(** Inserting [x] passes only records stamped strictly before it, so
    the records of any one timestamp keep their order. *)
Lemma insert_filter (t : DateTime.datetime) (x : LogEntry)
    (l : list LogEntry) :
  filter (same_ts t) (insert x l) = filter (same_ts t) (x :: l).
Proof.
  induction l as [|y l IH]; simpl; [reflexivity|].
  destruct (DateTime.ltb (timestamp y) (timestamp x)) eqn:E;
    [|reflexivity].
  simpl. rewrite IH. simpl.
  destruct (same_ts t x) eqn:Ex; [|reflexivity].
  destruct (same_ts t y) eqn:Ey; [|reflexivity].
  exfalso. unfold same_ts in *.
  apply DateTimeFacts.eqb_eq in Ex. apply DateTimeFacts.eqb_eq in Ey.
  rewrite Ex, Ey, DateTimeFacts.ltb_irrefl in E. discriminate.
Qed.

Lemma sort_filter (t : DateTime.datetime) (l : list LogEntry) :
  filter (same_ts t) (sort_by_timestamp l) = filter (same_ts t) l.
Proof.
  induction l as [|x l IH]; simpl; [reflexivity|].
  rewrite insert_filter. simpl. rewrite IH. reflexivity.
Qed.

(** Splitting a list along a split of one of its filters. *)
Lemma filter_eq_cons {A : Type} (p : A -> bool) (l : list A) (a : A)
    (v : list A) :
  filter p l = a :: v ->
  exists l1 l2, l = l1 ++ a :: l2 /\ filter p l2 = v.
Proof.
  induction l as [|x l IH]; simpl; [discriminate|].
  destruct (p x) eqn:E.
  - intros H. injection H as Hx Hv. subst x. exists [], l. auto.
  - intros H. destruct (IH H) as (l1 & l2 & -> & Hv).
    exists (x :: l1), l2. auto.
Qed.

Lemma filter_eq_app {A : Type} (p : A -> bool) (l u v : list A) :
  filter p l = u ++ v ->
  exists l1 l2, l = l1 ++ l2 /\ filter p l2 = v.
Proof.
  revert l. induction u as [|a u IH]; intros l H.
  - exists [], l. auto.
  - simpl in H. apply filter_eq_cons in H.
    destruct H as (l1 & l2 & -> & H2).
    destruct (IH _ H2) as (m1 & m2 & -> & Hv).
    exists (l1 ++ a :: m1), m2. split; [|exact Hv].
    rewrite <- app_assoc. reflexivity.
Qed.

Lemma precedes_of_filter {A : Type} (p : A -> bool) (a b : A)
    (l m : list A) :
  p a = true -> p b = true ->
  filter p m = filter p l -> precedes a b l -> precedes a b m.
Proof.
  intros Ha Hb Hf (l1 & l2 & l3 & ->).
  rewrite filter_app in Hf. simpl in Hf. rewrite Ha in Hf.
  rewrite filter_app in Hf. simpl in Hf. rewrite Hb in Hf.
  apply filter_eq_app in Hf. destruct Hf as (m1 & m2 & -> & Hf).
  apply filter_eq_cons in Hf. destruct Hf as (m3 & m4 & -> & Hf).
  apply filter_eq_app in Hf. destruct Hf as (m5 & m6 & -> & Hf).
  apply filter_eq_cons in Hf. destruct Hf as (m7 & m8 & -> & _).
  exists (m1 ++ m3), (m5 ++ m7), m8.
  repeat (rewrite <- app_assoc; simpl). reflexivity.
Qed.

Lemma sort_precedes (a b : LogEntry) (l : list LogEntry) :
  timestamp a = timestamp b ->
  precedes a b l -> precedes a b (sort_by_timestamp l).
Proof.
  intros Hab Hp.
  apply (precedes_of_filter (same_ts (timestamp a)) a b l); auto.
  - apply DateTimeFacts.eqb_eq. reflexivity.
  - apply DateTimeFacts.eqb_eq. auto.
  - apply sort_filter.
Qed.

(** A stable sort has only one possible result: two sorted lists
    that list the records of every timestamp in the same order are
    equal.  So [sort_by_timestamp] is what any stable sort returns. *)
Lemma sorted_filters_eq (l1 l2 : list LogEntry) :
  StronglySorted ts_le l1 -> StronglySorted ts_le l2 ->
  (forall t, filter (same_ts t) l1 = filter (same_ts t) l2) ->
  l1 = l2.
Proof.
  assert (Hself : forall e, same_ts (timestamp e) e = true)
    by (intros e; apply DateTimeFacts.eqb_eq; reflexivity).
  assert (Hhead : forall x l y m,
             StronglySorted ts_le (y :: m) ->
             filter (same_ts (timestamp x)) (x :: l)
             = filter (same_ts (timestamp x)) (y :: m) ->
             same_ts (timestamp x) y = false -> ts_le y x).
  { intros x l y m Hs Hf Hy. simpl in Hf. rewrite Hself, Hy in Hf.
    assert (Hin : In x (filter (same_ts (timestamp x)) m))
      by (rewrite <- Hf; left; reflexivity).
    apply filter_In in Hin. destruct Hin as [Hin _].
    apply StronglySorted_inv in Hs. destruct Hs as [_ Hall].
    rewrite Forall_forall in Hall. apply Hall, Hin. }
  revert l2. induction l1 as [|x l1 IH]; intros [|y l2] H1 H2 Hf.
  - reflexivity.
  - specialize (Hf (timestamp y)). simpl in Hf. rewrite Hself in Hf.
    discriminate.
  - specialize (Hf (timestamp x)). simpl in Hf. rewrite Hself in Hf.
    discriminate.
  - assert (Hxy : same_ts (timestamp x) y = true).
    { destruct (same_ts (timestamp x) y) eqn:E; [reflexivity|].
      exfalso.
      assert (Hyx : ts_le y x) by (eapply Hhead; eauto).
      assert (E' : same_ts (timestamp y) x = false).
      { destruct (same_ts (timestamp y) x) eqn:E2; [|reflexivity].
        apply DateTimeFacts.eqb_eq in E2. unfold same_ts in E.
        rewrite E2 in E.
        assert (DateTime.eqb (timestamp y) (timestamp y) = true)
          by (apply DateTimeFacts.eqb_eq; reflexivity).
        congruence. }
      assert (Hxy : ts_le x y)
        by (eapply Hhead; [exact H1|symmetry; apply Hf|exact E']).
      unfold ts_le in *.
      assert (Heq : timestamp y = timestamp x)
        by (apply DateTimeFacts.le_antisym; assumption).
      unfold same_ts in E. rewrite Heq in E.
      assert (DateTime.eqb (timestamp x) (timestamp x) = true)
        by (apply DateTimeFacts.eqb_eq; reflexivity).
      congruence. }
    assert (Hx : x = y).
    { specialize (Hf (timestamp x)). simpl in Hf.
      rewrite Hself, Hxy in Hf. congruence. }
    subst y. f_equal.
    apply StronglySorted_inv in H1. apply StronglySorted_inv in H2.
    apply IH; try tauto.
    intros t. specialize (Hf t). simpl in Hf.
    destruct (same_ts t x); congruence.
Qed.

Lemma sort_unique (l out : list LogEntry) :
  StronglySorted ts_le out ->
  (forall t, filter (same_ts t) out = filter (same_ts t) l) ->
  out = sort_by_timestamp l.
Proof.
  intros Hs Hf. apply sorted_filters_eq; auto using sort_sorted.
  intros t. rewrite Hf, sort_filter. reflexivity.
Qed.

Lemma sort_stable_sorted (l : list LogEntry) :
  stable_sorted l (sort_by_timestamp l).
Proof.
  repeat split.
  - apply sort_perm.
  - apply sort_sorted.
  - intros t. apply sort_filter.
  - intros a b. apply sort_precedes.
Qed.

End SortFacts.

(** ** Group-and-sort *)

Module AggregateByIp.

Import Dict LogAggregator Vocab.

Lemma map_values_pointwise {K V W : Type} (f : V -> W) (R : V -> W -> Prop)
    (d : dict K V) :
  (forall v, R v (f v)) ->
  Forall2 (fun kv kv' => fst kv' = fst kv /\ R (snd kv) (snd kv'))
          d (map_values f d).
Proof.
  intros HR. induction d as [|[k v] d IH]; simpl; constructor; auto.
Qed.

Lemma get_map_values {K V W : Type} (eqb : K -> K -> bool) (f : V -> W)
    (k : K) (d : dict K V) :
  get eqb k (map_values f d) = option_map f (get eqb k d).
Proof.
  induction d as [|[k' v] d IH]; simpl; [reflexivity|].
  destruct (eqb k k'); auto.
Qed.

Lemma keys_map_values {K V W : Type} (f : V -> W) (d : dict K V) :
  keys (map_values f d) = keys d.
Proof.
  unfold keys, map_values. rewrite map_map. reflexivity.
Qed.

(** C1.  Group-and-sort returns the mapping it was given, entity by
    entity and in the same order of keys, with every entity's sequence
    replaced by its sorted version: a permutation of the input sequence,
    ascending by timestamp, in which records of one timestamp keep
    their input order; in particular, when [a] precedes [b] in an input
    sequence and their timestamps are equal, [a] precedes [b] in the
    output sequence. *)
Theorem aggregate_by_ip_stable (entries_by_ip : dict string (list LogEntry)) :
  keys (aggregate_by_ip entries_by_ip) = keys entries_by_ip
  /\ (forall ip,
        get String.eqb ip (aggregate_by_ip entries_by_ip)
        = option_map sort_by_timestamp (get String.eqb ip entries_by_ip))
  /\ Forall2
       (fun kv kv' =>
          fst kv' = fst kv
          /\ Permutation (snd kv) (snd kv')
          /\ StronglySorted ts_le (snd kv')
          /\ (forall t, filter (same_ts t) (snd kv')
                        = filter (same_ts t) (snd kv))
          /\ (forall a b, timestamp a = timestamp b ->
                          precedes a b (snd kv) -> precedes a b (snd kv')))
       entries_by_ip (aggregate_by_ip entries_by_ip).
Proof.
  split; [apply keys_map_values|].
  split; [intros ip; apply get_map_values|].
  apply (map_values_pointwise sort_by_timestamp stable_sorted).
  apply SortFacts.sort_stable_sorted.
Qed.

End AggregateByIp.

(** ** Composite grouping *)

Module AggregateByIpAndDate.

Import Dict LogAggregator Vocab.

Lemma pair_eqb_eq (a b : string * string) : pair_eqb a b = true <-> a = b.
Proof.
  destruct a as [a1 a2], b as [b1 b2]. unfold pair_eqb. simpl.
  rewrite andb_true_iff, !String.eqb_eq. split.
  - intros [-> ->]. reflexivity.
  - intros H. injection H as -> ->. auto.
Qed.

Lemma pair_eqb_refl (a : string * string) : pair_eqb a a = true.
Proof. apply pair_eqb_eq. reflexivity. Qed.

Lemma extend_app (o : option (list LogEntry)) (l1 l2 : list LogEntry) :
  extend (extend o l1) l2 = extend o (l1 ++ l2).
Proof.
  destruct l1 as [|x l1]; [reflexivity|].
  destruct l2 as [|y l2]; simpl.
  - rewrite app_nil_r. reflexivity.
  - rewrite <- app_assoc. reflexivity.
Qed.

Lemma get_append_to (k k' : string * string) (v : LogEntry)
    (d : dict (string * string) (list LogEntry)) :
  get pair_eqb k' (append_to pair_eqb k v d)
  = if pair_eqb k' k then extend (get pair_eqb k' d) [v]
    else get pair_eqb k' d.
Proof.
  induction d as [|[k0 l] d IH]; simpl.
  - destruct (pair_eqb k' k); reflexivity.
  - destruct (pair_eqb k k0) eqn:E; simpl.
    + apply pair_eqb_eq in E. subst k0.
      destruct (pair_eqb k' k); reflexivity.
    + destruct (pair_eqb k' k0) eqn:E'; [|exact IH].
      apply pair_eqb_eq in E'. subst k0.
      destruct (pair_eqb k' k) eqn:E2; [|reflexivity].
      apply pair_eqb_eq in E2. subst k'.
      rewrite pair_eqb_refl in E. discriminate.
Qed.

Lemma keys_append_to (k : string * string) (v : LogEntry)
    (d : dict (string * string) (list LogEntry)) :
  keys (append_to pair_eqb k v d)
  = if existsb (pair_eqb k) (keys d) then keys d else keys d ++ [k].
Proof.
  induction d as [|[k0 l] d IH]; simpl; [reflexivity|].
  destruct (pair_eqb k k0) eqn:E; simpl; [reflexivity|].
  unfold keys in *. rewrite IH.
  destruct (existsb (pair_eqb k) (map fst d)); reflexivity.
Qed.

Lemma wf_append_to (k : string * string) (v : LogEntry)
    (d : dict (string * string) (list LogEntry)) :
  dict_wf d -> dict_wf (append_to pair_eqb k v d).
Proof.
  unfold dict_wf. rewrite keys_append_to. intros H.
  destruct (existsb (pair_eqb k) (keys d)) eqn:E; [exact H|].
  apply NoDup_rev in H. rewrite <- (rev_involutive (keys d ++ [k])).
  apply NoDup_rev. rewrite rev_app_distr. simpl. constructor; [|exact H].
  rewrite <- in_rev. intros Hin.
  assert (existsb (pair_eqb k) (keys d) = true)
    by (apply existsb_exists; exists k; split;
        [exact Hin|apply pair_eqb_refl]).
  congruence.
Qed.

Lemma nonempty_append_to (k : string * string) (v : LogEntry)
    (d : dict (string * string) (list LogEntry)) :
  groups_nonempty d -> groups_nonempty (append_to pair_eqb k v d).
Proof.
  unfold groups_nonempty.
  induction d as [|[k0 l] d IH]; simpl; intros H.
  - repeat constructor. discriminate.
  - apply Forall_cons_iff in H. destruct H as [H0 H].
    destruct (pair_eqb k k0); constructor; simpl in *; auto.
    destruct l; discriminate.
Qed.

Lemma get_add_entry (ip : string) (key : string * string) (e : LogEntry)
    (agg : dict (string * string) (list LogEntry)) :
  get pair_eqb key (add_entry ip agg e)
  = extend (get pair_eqb key agg) (filter (filed ip key) [e]).
Proof.
  unfold add_entry, filed, in_folder. simpl.
  destruct (date_folder e) as [df|];
    [|rewrite andb_false_r; reflexivity].
  destruct (PyStr.truthy df); simpl;
    [|rewrite andb_false_r; reflexivity].
  rewrite get_append_to. destruct key as [k1 k2]. unfold pair_eqb. simpl.
  rewrite (String.eqb_sym k1 ip), (String.eqb_sym k2 df).
  destruct (String.eqb ip k1 && String.eqb df k2); reflexivity.
Qed.

Lemma get_add_entries (ip : string) (key : string * string)
    (entries : list LogEntry)
    (agg : dict (string * string) (list LogEntry)) :
  get pair_eqb key (fold_left (add_entry ip) entries agg)
  = extend (get pair_eqb key agg) (filter (filed ip key) entries).
Proof.
  revert agg. induction entries as [|e entries IH]; intros agg.
  - reflexivity.
  - change (e :: entries) with ([e] ++ entries).
    rewrite filter_app, <- extend_app, <- get_add_entry. apply IH.
Qed.

Lemma add_entry_inv (ip : string) (e : LogEntry)
    (agg : dict (string * string) (list LogEntry)) :
  dict_wf agg /\ groups_nonempty agg ->
  dict_wf (add_entry ip agg e) /\ groups_nonempty (add_entry ip agg e).
Proof.
  intros [H1 H2]. unfold add_entry.
  destruct (date_folder e) as [df|]; [|auto].
  destruct (PyStr.truthy df); auto using wf_append_to, nonempty_append_to.
Qed.

Lemma add_entries_inv (ip : string) (entries : list LogEntry)
    (agg : dict (string * string) (list LogEntry)) :
  dict_wf agg /\ groups_nonempty agg ->
  dict_wf (fold_left (add_entry ip) entries agg)
  /\ groups_nonempty (fold_left (add_entry ip) entries agg).
Proof.
  revert agg. induction entries as [|e entries IH]; intros agg H; simpl.
  - exact H.
  - apply IH, add_entry_inv, H.
Qed.

Lemma get_group_from (key : string * string)
    (d : dict string (list LogEntry))
    (agg : dict (string * string) (list LogEntry)) :
  get pair_eqb key
    (fold_left (fun a kv => fold_left (add_entry (fst kv)) (snd kv) a) d agg)
  = extend (get pair_eqb key agg) (members key d).
Proof.
  revert agg. induction d as [|[ip l] d IH]; intros agg.
  - reflexivity.
  - unfold members. cbn [fold_left flat_map fst snd].
    rewrite <- extend_app, <- get_add_entries. apply IH.
Qed.

Lemma group_inv (d : dict string (list LogEntry))
    (agg : dict (string * string) (list LogEntry)) :
  dict_wf agg /\ groups_nonempty agg ->
  let r := fold_left
             (fun a kv => fold_left (add_entry (fst kv)) (snd kv) a) d agg in
  dict_wf r /\ groups_nonempty r.
Proof.
  revert agg. induction d as [|[ip l] d IH]; intros agg H; simpl.
  - exact H.
  - apply IH, add_entries_inv, H.
Qed.

Lemma filter_filed_other (ip : string) (key : string * string)
    (l : list LogEntry) :
  String.eqb ip (fst key) = false -> filter (filed ip key) l = [].
Proof.
  intros H. induction l as [|e l IH]; simpl; [reflexivity|].
  unfold filed at 1. rewrite H. simpl. exact IH.
Qed.

Lemma filter_filed_same (key : string * string) (l : list LogEntry) :
  filter (filed (fst key) key) l = filter (in_folder (snd key)) l.
Proof.
  apply filter_ext. intros e. unfold filed.
  rewrite String.eqb_refl. reflexivity.
Qed.

(** With distinct entities, a key draws from one entity only. *)
Lemma members_wf (key : string * string) (d : dict string (list LogEntry)) :
  dict_wf d ->
  members key d
  = match get String.eqb (fst key) d with
    | Some l => filter (in_folder (snd key)) l
    | None => []
    end.
Proof.
  unfold dict_wf, members.
  induction d as [|[ip l] d IH]; simpl; intros Hnd; [reflexivity|].
  apply NoDup_cons_iff in Hnd. destruct Hnd as [Hnotin Hnd].
  rewrite (String.eqb_sym (fst key) ip).
  destruct (String.eqb ip (fst key)) eqn:E.
  - apply String.eqb_eq in E. subst ip.
    rewrite filter_filed_same.
    assert (Hrest : flat_map
              (fun kv => filter (filed (fst kv) key) (snd kv)) d = []).
    { clear IH Hnd. induction d as [|[ip' l'] d IHd]; simpl;
        [reflexivity|].
      simpl in Hnotin.
      rewrite filter_filed_other, IHd; simpl; auto.
      apply String.eqb_neq. intros ->. apply Hnotin. left. reflexivity. }
    rewrite Hrest, app_nil_r. reflexivity.
  - rewrite filter_filed_other by exact E. simpl. apply IH, Hnd.
Qed.

(** The groups, before they are sorted. *)
Lemma get_group (d : dict string (list LogEntry)) (ip df : string) :
  dict_wf d ->
  get pair_eqb (ip, df) (group_by_ip_and_date d)
  = match get String.eqb ip d with
    | Some l => match filter (in_folder df) l with
                | [] => None
                | g => Some g
                end
    | None => None
    end.
Proof.
  intros Hwf. unfold group_by_ip_and_date.
  rewrite get_group_from, members_wf by exact Hwf. simpl.
  destruct (get String.eqb ip d) as [l|]; [|reflexivity].
  destruct (filter (in_folder df) l); reflexivity.
Qed.

Lemma in_folder_spec (df : string) (e : LogEntry) :
  in_folder df e = true <-> date_folder e = Some df /\ df <> EmptyString.
Proof.
  unfold in_folder. destruct (date_folder e) as [f|].
  - rewrite andb_true_iff, String.eqb_eq. split.
    + intros [Ht ->]. split; [reflexivity|]. intros ->. discriminate.
    + intros [H Hne]. injection H as ->. split; [|reflexivity].
      destruct df; [congruence|reflexivity].
  - split; [discriminate|]. intros [H _]. discriminate.
Qed.

Lemma get_in {V : Type} (ip : string) (d : dict string V) (v : V) :
  get String.eqb ip d = Some v -> In (ip, v) d.
Proof.
  induction d as [|[k l] d IH]; simpl; [discriminate|].
  destruct (String.eqb ip k) eqn:E.
  - apply String.eqb_eq in E. intros H. injection H as ->. subst. auto.
  - auto.
Qed.

(** C4 (amended).  For a mapping with distinct entities, composite grouping
    returns a mapping with distinct keys in which the group of
    [(entity, token)] is exactly the stable ascending sort of the entity's
    records that carry the non-empty token, and exists only when there is
    such a record.  Hence: a record is in a group only if its
    [date_folder] is present, non-empty and equal to the key's token and
    it is a record of the key's entity (records without a token, or with
    the empty token, are in no group); every record with a non-empty
    token is in the group of its entity and token; and every group is its
    part of the input sorted ascending by timestamp, stably. *)
Theorem composite_grouping_exact (entries_by_ip : dict string (list LogEntry)) :
  dict_wf entries_by_ip ->
  let out := aggregate_by_ip_and_date entries_by_ip in
  dict_wf out
  /\ (forall ip df,
        get pair_eqb (ip, df) out
        = match get String.eqb ip entries_by_ip with
          | Some l => match filter (in_folder df) l with
                      | [] => None
                      | g => Some (sort_by_timestamp g)
                      end
          | None => None
          end)
  /\ (forall key g e,
        get pair_eqb key out = Some g -> In e g ->
        date_folder e = Some (snd key) /\ snd key <> EmptyString
        /\ exists l, get String.eqb (fst key) entries_by_ip = Some l
                     /\ In e l)
  /\ (forall ip l e df,
        get String.eqb ip entries_by_ip = Some l -> In e l ->
        date_folder e = Some df -> df <> EmptyString ->
        exists g, get pair_eqb (ip, df) out = Some g /\ In e g)
  /\ (forall ip df g,
        get pair_eqb (ip, df) out = Some g ->
        exists l, get String.eqb ip entries_by_ip = Some l
                  /\ stable_sorted (filter (in_folder df) l) g).
Proof.
  intros Hwf out.
  assert (Hget : forall ip df,
             get pair_eqb (ip, df) out
             = match get String.eqb ip entries_by_ip with
               | Some l => match filter (in_folder df) l with
                           | [] => None
                           | g => Some (sort_by_timestamp g)
                           end
               | None => None
               end).
  { intros ip df. unfold out, aggregate_by_ip_and_date.
    rewrite AggregateByIp.get_map_values, get_group by exact Hwf.
    destruct (get String.eqb ip entries_by_ip) as [l|]; [|reflexivity].
    destruct (filter (in_folder df) l); reflexivity. }
  split; [|split; [exact Hget|split; [|split]]].
  - unfold out, aggregate_by_ip_and_date, dict_wf.
    rewrite AggregateByIp.keys_map_values.
    apply (group_inv entries_by_ip []). split; constructor.
  - intros [ip df] g e Hg Hin. rewrite Hget in Hg. simpl.
    destruct (get String.eqb ip entries_by_ip) as [l|]; [|discriminate].
    destruct (filter (in_folder df) l) as [|x f] eqn:Ef; [discriminate|].
    injection Hg as <-.
    change (In e (sort_by_timestamp (x :: f))) in Hin.
    apply (Permutation_in _ (Permutation_sym (SortFacts.sort_perm _))) in Hin.
    rewrite <- Ef in Hin. apply filter_In in Hin. destruct Hin as [Hl Hf].
    apply in_folder_spec in Hf. destruct Hf as [Hd Hne].
    repeat split; auto. exists l. auto.
  - intros ip l e df Hl Hin Hd Hne. rewrite Hget, Hl.
    assert (Hf : In e (filter (in_folder df) l)).
    { apply filter_In. split; [exact Hin|]. apply in_folder_spec. auto. }
    destruct (filter (in_folder df) l) as [|x f] eqn:Ef; [destruct Hf|].
    eexists. split; [reflexivity|].
    apply (Permutation_in _ (SortFacts.sort_perm _)). exact Hf.
  - intros ip df g Hg. rewrite Hget in Hg.
    destruct (get String.eqb ip entries_by_ip) as [l|]; [|discriminate].
    exists l. split; [reflexivity|].
    destruct (filter (in_folder df) l) as [|x f] eqn:Ef; [discriminate|].
    injection Hg as <-. apply SortFacts.sort_stable_sorted.
Qed.

Lemma sample_input_wf : dict_wf sample_input.
Proof.
  unfold dict_wf, sample_input, keys. simpl.
  repeat constructor; simpl; intuition discriminate.
Defined.

Lemma composite_grouping_exact_witness :
  dict_wf sample_input
  /\ get pair_eqb ("10.0.0.5", "230815")%string
         (aggregate_by_ip_and_date sample_input)
     = Some [sample_record 15 10 0 1 (Some "230815"%string);
             sample_record 15 10 0 5 (Some "230815"%string)].
Proof.
  split; [exact sample_input_wf|].
  destruct (composite_grouping_exact sample_input sample_input_wf)
    as (_ & Hget & _).
  rewrite Hget. reflexivity.
Defined.

(** C4 as stated fails: a record whose [date_folder] is present but is
    the empty string is left out of every group. *)
Lemma composite_grouping_drops_empty_token :
  dict_wf undated_input
  /\ get String.eqb "10.0.0.5" undated_input = Some [undated_record]
  /\ date_folder undated_record = Some EmptyString
  /\ aggregate_by_ip_and_date undated_input = [].
Proof.
  repeat split.
  unfold dict_wf, undated_input, keys. simpl.
  repeat constructor. simpl. tauto.
Qed.

End AggregateByIpAndDate.

(** ** The matcher on lines of the header grammar *)

Module RegexFacts.

Import Regex Vocab.

Lemma str_app_assoc (a b c : string) : (a +:+ b) +:+ c = a +:+ (b +:+ c).
Proof. induction a as [|x a IH]; cbn; [reflexivity|]. rewrite IH. reflexivity. Qed.

Lemma str_app_nil_r (a : string) : a +:+ "" = a.
Proof. induction a as [|x a IH]; cbn; [reflexivity|]. rewrite IH. reflexivity. Qed.

Lemma pushall_push (cur : option string) (c : ascii) (s : string) :
  pushall (push cur c) s = pushall cur (String c s).
Proof.
  destruct cur as [g|]; cbn; [|reflexivity].
  rewrite str_app_assoc. reflexivity.
Qed.

Lemma pushall_nil (cur : option string) : pushall cur "" = cur.
Proof. destruct cur as [g|]; cbn; [|reflexivity]. rewrite str_app_nil_r. reflexivity. Qed.

(** A greedy repetition that can take all of [s1], cannot go on into
    [s2] and after which the rest of the pattern matches, takes exactly
    [s1]: the first attempt succeeds and nothing is given back. *)
Lemma star_greedy {R : Type} (p : ascii -> bool)
    (k : option string -> string -> option R) (s1 s2 : string) :
  forall (cur : option string) (r : R),
    PyStr.forallb p s1 = true -> stops p s2 = true ->
    k (pushall cur s1) s2 = Some r ->
    star p k cur (s1 +:+ s2) = Some r.
Proof.
  induction s1 as [|c s1 IH]; intros cur r Hall Hstop Hk.
  - rewrite pushall_nil in Hk. cbn [String.append].
    destruct s2 as [|c s2]; cbn [star]; [exact Hk|].
    cbn [stops] in Hstop. apply negb_true_iff in Hstop. rewrite Hstop.
    exact Hk.
  - cbn [PyStr.forallb] in Hall. apply andb_true_iff in Hall.
    destruct Hall as [Hc Hall].
    cbn [String.append star]. rewrite Hc.
    rewrite (IH (push cur c) r Hall Hstop); [reflexivity|].
    rewrite pushall_push. exact Hk.
Qed.

Lemma star_all {R : Type} (p : ascii -> bool)
    (k : option string -> string -> option R) (s : string)
    (cur : option string) (r : R) :
  PyStr.forallb p s = true ->
  k (pushall cur s) "" = Some r ->
  star p k cur s = Some r.
Proof.
  intros Hall Hk. rewrite <- (str_app_nil_r s).
  apply star_greedy; auto.
Qed.

Section Run.
Variables (rest : list atom) (caps : list string) (cur : option string).

Lemma run_cls (p : ascii -> bool) (c : ascii) (s : string)
    (r : list string) :
  p c = true ->
  run rest caps (push cur c) s = Some r ->
  run (Cls p :: rest) caps cur (String c s) = Some r.
Proof. intros Hp Hr. cbn [run]. rewrite Hp. exact Hr. Qed.

Lemma run_plus (p : ascii -> bool) (c : ascii) (s1 s2 : string)
    (r : list string) :
  p c = true -> PyStr.forallb p s1 = true -> stops p s2 = true ->
  run rest caps (pushall cur (String c s1)) s2 = Some r ->
  run (Plus p :: rest) caps cur (String c (s1 +:+ s2)) = Some r.
Proof.
  intros Hp Hall Hstop Hr. cbn [run]. rewrite Hp.
  apply star_greedy; auto. rewrite pushall_push. exact Hr.
Qed.

Lemma run_plus_one (p : ascii -> bool) (c : ascii) (s : string)
    (r : list string) :
  p c = true -> stops p s = true ->
  run rest caps (push cur c) s = Some r ->
  run (Plus p :: rest) caps cur (String c s) = Some r.
Proof.
  intros Hp Hstop Hr.
  apply (run_plus p c "" s r Hp eq_refl Hstop).
  rewrite <- pushall_push, pushall_nil. exact Hr.
Qed.

Lemma run_star_all (p : ascii -> bool) (s : string) (r : list string) :
  PyStr.forallb p s = true ->
  run rest caps (pushall cur s) "" = Some r ->
  run (Star p :: rest) caps cur s = Some r.
Proof. intros Hall Hr. cbn [run]. apply star_all; auto. Qed.

Lemma run_open (s : string) (r : list string) :
  run rest caps (Some "") s = Some r ->
  run (GOpen :: rest) caps cur s = Some r.
Proof. intros Hr. exact Hr. Qed.

Lemma run_close (g s : string) (r : list string) :
  cur = Some g ->
  run rest (caps ++ [g]) None s = Some r ->
  run (GClose :: rest) caps cur s = Some r.
Proof. intros -> Hr. exact Hr. Qed.

End Run.

Lemma decimal_not_space (c : ascii) :
  PyStr.isdecimal_char c = true -> PyStr.isspace_char c = false.
Proof.
  unfold PyStr.isdecimal_char, PyStr.isspace_char, PyStr.between.
  rewrite andb_true_iff, !N.leb_le. intros [H1 H2].
  repeat match goal with
         | |- context [(?a <=? ?b)%N] => destruct (N.leb_spec a b)
         end; cbn; try reflexivity; lia.
Qed.

Lemma decimal_neq (c sep : ascii) :
  PyStr.isdecimal_char c = true -> PyStr.isdecimal_char sep = false ->
  Ascii.eqb c sep = false.
Proof.
  intros Hc Hs. destruct (Ascii.eqb_spec c sep); [|reflexivity].
  subst. congruence.
Qed.

Lemma stamp_ok_chars (s : stamp) :
  stamp_ok s = true ->
  Forall (fun c => PyStr.isdecimal_char c = true) (stamp_chars s).
Proof.
  unfold stamp_ok. intros H. apply Forall_forall.
  apply (proj1 (List.forallb_forall _ _) H).
Qed.

Lemma header_line_chars (s : stamp) (kind free : string) :
  header_line s kind free
  = String (mo1 s) (String (mo2 s) (String "/" (String (dy1 s) (String
    (dy2 s) (String " " (String (hr1 s) (String (hr2 s) (String ":"
    (String (mi1 s) (String (mi2 s) (String ":" (String (sc1 s) (String
    (sc2 s) (String " " (String "U" (String "T" (String "C" (String " "
    (String "[" (kind +:+ String "]" (String " " free))))))))))))))))))))).
Proof. reflexivity. Qed.

(** On a line of the grammar whose free text does not begin with a
    blank and holds no newline, the pattern matches and its four groups
    are the date, the time, the kind and the free text. *)
Lemma match_header_grammar (s : stamp) (kind free : string) :
  stamp_ok s = true -> kind_ok kind = true ->
  starts_blank free = false ->
  PyStr.forallb dot free = true ->
  LogParser.match_header (header_line s kind free)
  = Some (date_text s, time_text s, kind, free).
Proof.
  intros Hs Hk Hb Hdot.
  apply stamp_ok_chars in Hs. unfold stamp_chars in Hs.
  repeat match goal with
         | H : Forall _ (_ :: _) |- _ =>
             apply Forall_cons_iff in H; destruct H as [? H]
         end.
  unfold kind_ok in Hk. apply andb_true_iff in Hk. destruct Hk as [Hk1 Hk2].
  destruct kind as [|kc kind]; [discriminate|].
  cbn [PyStr.forallb] in Hk2. apply andb_true_iff in Hk2.
  destruct Hk2 as [Hkc Hk2].
  assert (Hfree : stops PyStr.isspace_char free = true).
  { destruct free as [|fc free]; [reflexivity|].
    cbn in Hb |- *. rewrite Hb. reflexivity. }
  assert (Hrun : match_groups LogParser.TIMESTAMP_PATTERN
                   (header_line s (String kc kind) free)
                 = Some [date_text s; time_text s; String kc kind; free]).
  { rewrite header_line_chars.
    unfold match_groups, LogParser.TIMESTAMP_PATTERN, digit, spaces, chr.
    cbn [String.append].
    apply run_open.
    do 2 (apply run_cls; [assumption|]).
    apply run_cls; [reflexivity|].
    do 2 (apply run_cls; [assumption|]).
    eapply run_close; [reflexivity|].
    apply run_plus_one;
      [reflexivity|cbn [stops]; rewrite decimal_not_space by assumption;
                   reflexivity|].
    apply run_open.
    do 2 (apply run_cls; [assumption|]).
    apply run_cls; [reflexivity|].
    do 2 (apply run_cls; [assumption|]).
    apply run_cls; [reflexivity|].
    do 2 (apply run_cls; [assumption|]).
    eapply run_close; [reflexivity|].
    apply run_plus_one; [reflexivity|reflexivity|].
    do 3 (apply run_cls; [reflexivity|]).
    apply run_plus_one; [reflexivity|reflexivity|].
    apply run_cls; [reflexivity|].
    apply run_open.
    apply run_plus; [exact Hkc|exact Hk2|reflexivity|].
    eapply run_close; [reflexivity|].
    apply run_cls; [reflexivity|].
    apply run_plus_one; [reflexivity|exact Hfree|].
    apply run_open.
    apply run_star_all; [exact Hdot|].
    reflexivity. }
  unfold LogParser.match_header. rewrite Hrun. reflexivity.
Qed.

(** *** What a match says about the line *)

Lemma star_inv {R : Type} (p : ascii -> bool)
    (k : option string -> string -> option R) (s : string) :
  forall (cur : option string) (r : R),
    star p k cur s = Some r ->
    exists s1 s2, s = s1 +:+ s2 /\ PyStr.forallb p s1 = true
                  /\ k (pushall cur s1) s2 = Some r.
Proof.
  assert (Hstop : forall cur r s0, k cur s0 = Some r ->
            exists s1 s2, s0 = s1 +:+ s2 /\ PyStr.forallb p s1 = true
                          /\ k (pushall cur s1) s2 = Some r).
  { intros cur r s0 Hk. exists "", s0. rewrite pushall_nil. auto. }
  induction s as [|c s IH]; intros cur r H; cbn [star] in H.
  - apply Hstop, H.
  - destruct (p c) eqn:Ec; [|apply Hstop, H].
    destruct (star p k (push cur c) s) as [r'|] eqn:Es; [|apply Hstop, H].
    injection H as ->.
    destruct (IH _ _ Es) as (s1 & s2 & -> & Hall & Hk).
    exists (String c s1), s2. rewrite <- pushall_push.
    cbn [String.append PyStr.forallb]. rewrite Ec, Hall. auto.
Qed.

Section RunInv.
Variables (rest : list atom) (caps : list string) (cur : option string).

Lemma run_cls_inv (p : ascii -> bool) (s : string) (r : list string) :
  run (Cls p :: rest) caps cur s = Some r ->
  exists c s', s = String c s' /\ p c = true
               /\ run rest caps (push cur c) s' = Some r.
Proof.
  cbn [run]. destruct s as [|c s']; [discriminate|].
  destruct (p c) eqn:E; [|discriminate]. eauto 6.
Qed.

Lemma run_plus_inv (p : ascii -> bool) (s : string) (r : list string) :
  run (Plus p :: rest) caps cur s = Some r ->
  exists c s1 s2, s = String c (s1 +:+ s2) /\ p c = true
                  /\ PyStr.forallb p s1 = true
                  /\ run rest caps (pushall cur (String c s1)) s2 = Some r.
Proof.
  cbn [run]. destruct s as [|c s']; [discriminate|].
  destruct (p c) eqn:E; [|discriminate]. intros H.
  apply star_inv in H. destruct H as (s1 & s2 & -> & Hall & Hk).
  rewrite pushall_push in Hk. eauto 8.
Qed.

Lemma run_star_inv (p : ascii -> bool) (s : string) (r : list string) :
  run (Star p :: rest) caps cur s = Some r ->
  exists s1 s2, s = s1 +:+ s2 /\ PyStr.forallb p s1 = true
                /\ run rest caps (pushall cur s1) s2 = Some r.
Proof. cbn [run]. apply star_inv. Qed.

Lemma run_open_eq (s : string) :
  run (GOpen :: rest) caps cur s = run rest caps (Some "") s.
Proof. reflexivity. Qed.

Lemma run_close_eq (g s : string) :
  run (GClose :: rest) caps (Some g) s = run rest (caps ++ [g]) None s.
Proof. reflexivity. Qed.

End RunInv.

Ltac run_inv H :=
  first
    [ rewrite run_open_eq in H
    | rewrite run_close_eq in H
    | apply run_cls_inv in H;
      let c := fresh "c" in
      let s := fresh "s" in
      let Hc := fresh "Hc" in
      destruct H as (c & s & -> & Hc & H)
    | apply run_plus_inv in H;
      let c := fresh "c" in
      let s1 := fresh "ws" in
      let s2 := fresh "s" in
      let Hc := fresh "Hc" in
      let Hs := fresh "Hws" in
      destruct H as (c & s1 & s2 & -> & Hc & Hs & H)
    | apply run_star_inv in H;
      let s1 := fresh "ws" in
      let s2 := fresh "s" in
      let Hs := fresh "Hws" in
      destruct H as (s1 & s2 & -> & Hs & H) ];
  cbn [push pushall String.append app] in H.

(** Whenever the pattern matches, the date and time groups are two-digit
    fields of ASCII digits with their separators, the kind is non-empty
    without a closing bracket and the last group holds no newline.  So
    [int] only ever gets pairs of decimal digits, and building the
    timestamp fails exactly when [datetime] refuses the numbers. *)
Lemma match_header_shape (line mm_dd time_str kind rest : string) :
  LogParser.match_header line = Some (mm_dd, time_str, kind, rest) ->
  exists s : stamp,
    stamp_ok s = true /\ mm_dd = date_text s /\ time_str = time_text s
    /\ kind_ok kind = true /\ PyStr.forallb dot rest = true.
Proof.
  unfold LogParser.match_header.
  destruct (match_groups LogParser.TIMESTAMP_PATTERN line)
    as [[|g1 [|g2 [|g3 [|g4 [|g5 gs]]]]]|] eqn:H; try discriminate.
  intros E. injection E as -> -> -> ->.
  unfold match_groups, LogParser.TIMESTAMP_PATTERN, digit, spaces, chr in H.
  do 32 run_inv H.
  cbn [run] in H.
  match type of H with
  | context [match ?s0 with EmptyString => _ | String _ _ => _ end] =>
      destruct s0 as [|x [|y s0]]; try discriminate;
      try (destruct (Ascii.eqb x PyStr.LF); [|discriminate])
  end;
  injection H as <- <- <- <-;
  repeat match goal with
         | H : Ascii.eqb _ _ = true |- _ => apply Ascii.eqb_eq in H; subst
         end;
  (eexists (mk_stamp _ _ _ _ _ _ _ _ _ _);
   split; [|split; [reflexivity|split; [reflexivity|split]]];
   [ unfold stamp_ok, stamp_chars;
     cbn [List.forallb mo1 mo2 dy1 dy2 hr1 hr2 mi1 mi2 sc1 sc2]
   | unfold kind_ok; cbn [PyStr.truthy PyStr.forallb]
   | ];
   repeat match goal with
          | H : _ = true |- _ => rewrite H
          end; reflexivity).
Qed.

End RegexFacts.

(** ** The parser's loop *)

Module ParserFacts.

Import LogParser Vocab.

Arguments match_header : simpl never.
Arguments build_timestamp : simpl never.
Arguments PyStr.strip : simpl never.
Arguments PyStr.slice_to : simpl never.

Section Loop.
Variables (base_year : Z) (folder : option string) (source : string)
          (ip : option string).

Local Abbreviation step := (step base_year folder source ip).
Local Abbreviation parse_lines := (parse_lines base_year folder source ip).

Lemma fold_left_cons {A B : Type} (g : A -> B -> A) (b : B) (bs : list B)
    (a : A) :
  fold_left g (b :: bs) a = fold_left g bs (g a b).
Proof. reflexivity. Qed.

Lemma fold_left_nil {A B : Type} (g : A -> B -> A) (a : A) :
  fold_left g [] a = a.
Proof. reflexivity. Qed.

Lemma parse_lines_app (l1 l2 : list string) (st : pstate) :
  parse_lines (l1 ++ l2) st = parse_lines l2 (parse_lines l1 st).
Proof. apply fold_left_app. Qed.

Lemma parse_lines_cons (l : string) (ls : list string) (st : pstate) :
  parse_lines (l :: ls) st = parse_lines ls (step st l).
Proof. apply fold_left_cons. Qed.

Lemma parse_lines_nil (st : pstate) : parse_lines [] st = st.
Proof. apply fold_left_nil. Qed.

Lemma step_header (st : pstate) (line mm_dd time_str kind rest : string)
    (ts : DateTime.datetime) :
  match_header line = Some (mm_dd, time_str, kind, rest) ->
  build_timestamp base_year mm_dd time_str = Some ts ->
  step st line
  = mk_pstate (flush st)
      (Some (mk_LogEntry ts kind [rest] source ip folder)) (printed st).
Proof. intros Hm Hb. unfold LogParser.step. rewrite Hm, Hb. reflexivity. Qed.

Lemma step_malformed (st : pstate) (line mm_dd time_str kind rest : string) :
  match_header line = Some (mm_dd, time_str, kind, rest) ->
  build_timestamp base_year mm_dd time_str = None ->
  step st line
  = mk_pstate (flush st) None
      (printed st ++ [MalformedTimestamp source (PyStr.slice_to 80 line)]).
Proof. intros Hm Hb. unfold LogParser.step. rewrite Hm, Hb. reflexivity. Qed.

Lemma step_continuation (st : pstate) (e : LogEntry) (line : string) :
  match_header line = None -> current_entry st = Some e ->
  step st line
  = mk_pstate (entries st) (Some (append_line e line)) (printed st).
Proof. intros Hm Hc. unfold LogParser.step. rewrite Hm, Hc. reflexivity. Qed.

(** With no record open, a line that is no header adds no record and
    opens none. *)
Lemma step_orphan (st : pstate) (line : string) :
  match_header line = None -> current_entry st = None ->
  entries (step st line) = entries st /\ current_entry (step st line) = None.
Proof.
  intros Hm Hc. unfold LogParser.step. rewrite Hm, Hc.
  destruct (PyStr.truthy (PyStr.strip line)); simpl; auto.
Qed.

(** Continuation lines gather in the open record. *)
Lemma parse_continuations (conts : list string) (st : pstate) (e : LogEntry) :
  Forall (fun l => match_header l = None) conts ->
  current_entry st = Some e ->
  parse_lines conts st
  = mk_pstate (entries st)
      (Some (mk_LogEntry (timestamp e) (entry_type e) (content e ++ conts)
                         (source_file e) (ip_address e) (date_folder e)))
      (printed st).
Proof.
  revert st e. induction conts as [|c conts IH]; intros st e Hall Hc.
  - rewrite parse_lines_nil, app_nil_r. destruct st as [es cur pr].
    simpl in Hc. subst cur. destruct e. reflexivity.
  - apply Forall_cons_iff in Hall. destruct Hall as [Hh Hall].
    rewrite parse_lines_cons, (step_continuation st e c Hh Hc).
    rewrite (IH (mk_pstate (entries st) (Some (append_line e c)) (printed st))
                (append_line e c) Hall eq_refl).
    unfold append_line. cbn [entries printed timestamp entry_type content
                             source_file ip_address date_folder].
    rewrite <- app_assoc. reflexivity.
Qed.

(** With no record open, lines that are no headers leave no trace in
    the records. *)
Lemma parse_orphans (conts : list string) (st : pstate) :
  Forall (fun l => match_header l = None) conts ->
  current_entry st = None ->
  entries (parse_lines conts st) = entries st
  /\ current_entry (parse_lines conts st) = None.
Proof.
  revert st. induction conts as [|c conts IH]; intros st Hall Hc.
  - auto.
  - apply Forall_cons_iff in Hall. destruct Hall as [Hh Hall].
    destruct (step_orphan st c Hh Hc) as [He Hn].
    destruct (IH (step st c) Hall Hn) as [He' Hn'].
    rewrite parse_lines_cons, He', He. auto.
Qed.

(** Records already emitted and lines already printed stay where they
    are: a run from a later state is the run from the state without them,
    behind them. *)
Lemma step_frame (st : pstate) (line : string) (pre : list LogEntry)
    (ppre : list warning) :
  step (mk_pstate (pre ++ entries st) (current_entry st) (ppre ++ printed st))
       line
  = let st' := step st line in
    mk_pstate (pre ++ entries st') (current_entry st') (ppre ++ printed st').
Proof.
  destruct st as [es cur pr].
  unfold LogParser.step, flush.
  cbn [entries current_entry printed].
  destruct (match_header line) as [[[[a b] k] r]|].
  - destruct (build_timestamp base_year a b);
      destruct cur;
      cbn [entries current_entry printed]; rewrite ?app_assoc; reflexivity.
  - destruct cur; cbn [entries current_entry printed];
      [reflexivity|].
    destruct (PyStr.truthy (PyStr.strip line));
      cbn [entries current_entry printed]; rewrite ?app_assoc; reflexivity.
Qed.

Lemma parse_frame (lines : list string) (st : pstate) (pre : list LogEntry)
    (ppre : list warning) :
  parse_lines lines
    (mk_pstate (pre ++ entries st) (current_entry st) (ppre ++ printed st))
  = let st' := parse_lines lines st in
    mk_pstate (pre ++ entries st') (current_entry st') (ppre ++ printed st').
Proof.
  revert st. induction lines as [|l lines IH]; intros st.
  - reflexivity.
  - rewrite !parse_lines_cons, step_frame. cbv zeta. apply IH.
Qed.

(** A run that starts with no record open. *)
Lemma parse_from_closed (lines : list string) (es : list LogEntry)
    (ws : list warning) :
  parse_lines lines (mk_pstate es None ws)
  = let st' := parse_lines lines initial in
    mk_pstate (es ++ entries st') (current_entry st') (ws ++ printed st').
Proof.
  rewrite <- (parse_frame lines initial es ws).
  unfold initial. cbn [entries current_entry printed].
  rewrite !app_nil_r. reflexivity.
Qed.

Lemma flush_mk (es : list LogEntry) (c : option LogEntry) (ws : list warning) :
  flush (mk_pstate es c ws)
  = es ++ match c with Some e => [e] | None => [] end.
Proof. unfold flush. destruct c; cbn; rewrite ?app_nil_r; reflexivity. Qed.

(** A header with a good timestamp closes what was open and opens its
    own record, which then takes the continuation lines. *)
Lemma parse_record (pre : list string) (hdr : string) (conts : list string)
    (mm_dd time_str kind rest : string) (ts : DateTime.datetime) :
  match_header hdr = Some (mm_dd, time_str, kind, rest) ->
  build_timestamp base_year mm_dd time_str = Some ts ->
  Forall (fun l => match_header l = None) conts ->
  parse_lines (pre ++ hdr :: conts) initial
  = mk_pstate (flush (parse_lines pre initial))
      (Some (mk_LogEntry ts kind (rest :: conts) source ip folder))
      (printed (parse_lines pre initial)).
Proof.
  intros Hm Hb Hc.
  rewrite parse_lines_app, parse_lines_cons.
  rewrite (step_header _ _ _ _ _ _ _ Hm Hb).
  rewrite (parse_continuations conts
             (mk_pstate (flush (parse_lines pre initial))
                (Some (mk_LogEntry ts kind [rest] source ip folder))
                (printed (parse_lines pre initial)))
             (mk_LogEntry ts kind [rest] source ip folder) Hc eq_refl).
  reflexivity.
Qed.

End Loop.

(** *** The year *)

Lemma decimal_is_digit (c : ascii) :
  PyStr.isdecimal_char c = true -> PyStr.isdigit_char c = true.
Proof. unfold PyStr.isdigit_char. intros ->. reflexivity. Qed.

Lemma forallb_impl (p q : ascii -> bool) (s : string) :
  (forall c, p c = true -> q c = true) ->
  PyStr.forallb p s = true -> PyStr.forallb q s = true.
Proof.
  intros Hpq. induction s as [|c s IH]; cbn; [reflexivity|].
  rewrite !andb_true_iff. intros [H1 H2]. auto.
Qed.

Lemma six_digits_accepted (df : string) :
  six_ascii_digits df = true -> date_folder_rejected (Some df) = false.
Proof.
  unfold six_ascii_digits, date_folder_rejected.
  rewrite andb_true_iff. intros [Hlen Hall]. rewrite Hlen.
  assert (Hd : PyStr.forallb PyStr.isdigit_char df = true)
    by (eapply forallb_impl; [apply decimal_is_digit|exact Hall]).
  destruct df as [|c df]; [discriminate|].
  unfold PyStr.isdigit. rewrite Hd. reflexivity.
Qed.

Lemma decimal_value_range (c : ascii) :
  PyStr.isdecimal_char c = true ->
  (0 <= Z.of_N (PyStr.code c - 48) <= 9)%Z.
Proof.
  unfold PyStr.isdecimal_char, PyStr.between.
  rewrite andb_true_iff, !N.leb_le. lia.
Qed.

(** A token of six ASCII digits gives the year 2000 + its first two
    digits, and prints nothing. *)
Lemma resolve_valid (now_year : Z) (df source : string) :
  six_ascii_digits df = true ->
  exists yy, PyStr.int (PyStr.slice_to 2 df) = Some yy
             /\ (0 <= yy <= 99)%Z
             /\ resolve_base_year now_year (Some df) source
                = ([], Returned (2000 + yy)%Z).
Proof.
  intros H. unfold resolve_base_year.
  rewrite (six_digits_accepted df H).
  unfold six_ascii_digits in H. apply andb_true_iff in H.
  destruct H as [Hlen Hall].
  destruct df as [|a [|b df]]; try discriminate.
  cbn in Hall. apply andb_true_iff in Hall. destruct Hall as [Ha Hall].
  apply andb_true_iff in Hall. destruct Hall as [Hb _].
  exists (10 * Z.of_N (PyStr.code a - 48) + Z.of_N (PyStr.code b - 48))%Z.
  assert (Hi : PyStr.int (PyStr.slice_to 2 (String a (String b df)))
               = Some (10 * Z.of_N (PyStr.code a - 48)
                       + Z.of_N (PyStr.code b - 48))%Z).
  { change (PyStr.slice_to 2 (String a (String b df)))
      with (String a (String b "")).
    unfold PyStr.int. cbn [PyStr.digits_value]. rewrite Ha, Hb.
    reflexivity. }
  rewrite Hi.
  pose proof (decimal_value_range a Ha). pose proof (decimal_value_range b Hb).
  repeat split; lia.
Qed.

(** A token that the test rejects gives the current year and one
    warning that names the source and the token. *)
Lemma resolve_rejected (now_year : Z) (folder : option string)
    (source : string) :
  date_folder_rejected folder = true ->
  resolve_base_year now_year folder source
  = ([InvalidDateFolder folder source], Returned now_year).
Proof. intros H. unfold resolve_base_year. rewrite H. reflexivity. Qed.

Lemma resolve_clock_free (now1 now2 : Z) (folder : option string)
    (source : string) :
  date_folder_rejected folder = false ->
  resolve_base_year now1 folder source = resolve_base_year now2 folder source.
Proof. intros H. unfold resolve_base_year. rewrite H. reflexivity. Qed.

(** The outcome of the year resolution never carries a malformed-
    timestamp warning. *)
Lemma resolve_warnings (now_year : Z) (folder : option string)
    (source : string) :
  filter is_malformed_warning (fst (resolve_base_year now_year folder source))
  = [].
Proof.
  unfold resolve_base_year. destruct (date_folder_rejected folder);
    [reflexivity|].
  destruct (PyStr.int _); reflexivity.
Qed.

Lemma truthy_false (s : string) : PyStr.truthy s = false -> s = EmptyString.
Proof. destruct s; [reflexivity|discriminate]. Qed.

End ParserFacts.

(** ** What the parser returns *)

Module ParserClaims.

Import LogParser Vocab ParserFacts.

(** C3.  The example blob, parsed with date folder 230815 and entity
    10.0.0.5, gives exactly two records in this order: 2023-08-15 10:00:01
    of kind input with body whoami, DOMAIN\user, and 2023-08-15 10:00:05 of
    kind output with body (empty), administrator; nothing is printed,
    whatever the clock and the source name. *)
Theorem parse_example (now_year : Z) (source : string) :
  parse_beacon_log now_year example_text (Some "230815") source
                   (Some "10.0.0.5")
  = ([], Returned (example_records source)).
Proof.
  unfold example_records. vm_compute. reflexivity.
Qed.

Lemma malformed_example_header :
  match_header "13/40 25:00:00 UTC [x] y"
  = Some ("13/40", "25:00:00", "x", "y").
Proof. vm_compute. reflexivity. Qed.

Lemma month_13_refused (base_year : Z) :
  build_timestamp base_year "13/40" "25:00:00" = None.
Proof.
  unfold build_timestamp. cbn [map PyStr.split].
  change (map PyStr.int (PyStr.split "/" "13/40")) with [Some 13%Z; Some 40%Z].
  change (map PyStr.int (PyStr.split ":" "25:00:00"))
    with [Some 25%Z; Some 0%Z; Some 0%Z].
  unfold DateTime.datetime_new.
  destruct (DateTime.in_range 1 9999 base_year); reflexivity.
Qed.

(** C5.  A line that matches the header pattern and whose timestamp
    cannot be built makes one step of the loop that (1) first emits the
    record that was open, if any, (2) prints one malformed-timestamp
    warning with the first 80 characters of the line, (3) emits no record
    for the line and (4) leaves no record open.  So the blob that is just
    the malformed header 13/40 25:00:00 gives no record and, besides what
    the year resolution printed, exactly that one warning. *)
Theorem malformed_header_step (now_year base_year : Z)
    (folder : option string) (source : string) (ip : option string)
    (st : pstate) (line mm_dd time_str kind rest : string)
    (w : list warning) :
  match_header line = Some (mm_dd, time_str, kind, rest) ->
  build_timestamp base_year mm_dd time_str = None ->
  resolve_base_year now_year folder source = (w, Returned base_year) ->
  let st' := step base_year folder source ip st line in
  entries st' = match current_entry st with
                | Some e => entries st ++ [e]
                | None => entries st
                end
  /\ current_entry st' = None
  /\ printed st'
     = printed st ++ [MalformedTimestamp source (PyStr.slice_to 80 line)]
  /\ parse_beacon_log now_year malformed_text folder source ip
     = (w ++ [MalformedTimestamp source "13/40 25:00:00 UTC [x] y"],
        Returned [])
  /\ List.length
       (filter is_malformed_warning
          (fst (parse_beacon_log now_year malformed_text folder source ip)))
     = 1%nat.
Proof.
  intros Hm Hb Hres st'.
  assert (Hst : st' = mk_pstate (flush st) None
                        (printed st
                         ++ [MalformedTimestamp source
                               (PyStr.slice_to 80 line)])).
  { unfold st'. apply (step_malformed _ _ _ _ _ _ _ _ _ _ Hm Hb). }
  assert (Hp : parse_beacon_log now_year malformed_text folder source ip
               = (w ++ [MalformedTimestamp source "13/40 25:00:00 UTC [x] y"],
                  Returned [])).
  { unfold parse_beacon_log. rewrite Hres.
    change (negb (PyStr.truthy malformed_text)) with false.
    change (PyStr.splitlines malformed_text)
      with ["13/40 25:00:00 UTC [x] y"].
    cbv iota. rewrite parse_lines_cons, parse_lines_nil.
    rewrite (step_malformed _ _ _ _ _ _ _ _ _ _
               malformed_example_header (month_13_refused base_year)).
    reflexivity. }
  rewrite Hst. cbn [entries current_entry printed].
  repeat split; try assumption.
  rewrite Hp. cbn [fst]. rewrite filter_app.
  pose proof (resolve_warnings now_year folder source) as Hw.
  rewrite Hres in Hw. cbn [fst] in Hw. rewrite Hw. reflexivity.
Qed.

Lemma malformed_header_step_witness :
  parse_beacon_log 2026 malformed_text (Some "230815") "beacon_1.log"
                   (Some "10.0.0.5")
  = ([MalformedTimestamp "beacon_1.log" "13/40 25:00:00 UTC [x] y"],
     Returned []).
Proof.
  exact (proj1 (proj2 (proj2 (proj2
    (malformed_header_step 2026 2023 (Some "230815") "beacon_1.log"
       (Some "10.0.0.5") initial
       "13/40 25:00:00 UTC [x] y" "13/40" "25:00:00" "x" "y" []
       malformed_example_header (month_13_refused 2023) eq_refl))))).
Defined.

(** C6, at the input on which the code leaves it: six characters that
    [isdigit] accepts pass the test, no warning is printed, and [int]
    raises a [ValueError] that nothing catches. *)
Theorem superscript_folder_raises (now_year : Z) (c : ascii) (text : string)
    (source : string) (ip : option string) :
  six_ascii_digits superscript_folder = false
  /\ date_folder_rejected (Some superscript_folder) = false
  /\ parse_beacon_log now_year (String c text) (Some superscript_folder)
                      source ip
     = ([], Raised ValueError).
Proof.
  repeat split.
Qed.

(** C10.  With a date folder of six ASCII digits the result of a parse
    (records and what is printed) is the same whatever the clock says;
    and for any date folder at all, two parses of the same arguments under
    two clocks can differ only when the date folder is one the test
    rejects, that is, only through the current-year fallback. *)
Theorem parse_clock_independent (now1 now2 : Z) (text df source : string)
    (ip : option string) :
  six_ascii_digits df = true ->
  parse_beacon_log now1 text (Some df) source ip
  = parse_beacon_log now2 text (Some df) source ip
  /\ (forall folder,
        parse_beacon_log now1 text folder source ip
        = parse_beacon_log now2 text folder source ip
        \/ date_folder_rejected folder = true).
Proof.
  intros Hdf.
  assert (Hgen : forall folder, date_folder_rejected folder = false ->
            parse_beacon_log now1 text folder source ip
            = parse_beacon_log now2 text folder source ip).
  { intros folder Hacc. unfold parse_beacon_log.
    rewrite (resolve_clock_free now1 now2 folder source Hacc). reflexivity. }
  split.
  - apply Hgen, six_digits_accepted, Hdf.
  - intros folder. destruct (date_folder_rejected folder) eqn:E; auto.
Qed.

Lemma parse_clock_independent_witness :
  parse_beacon_log 1999 example_text (Some "230815") "beacon_1.log"
                   (Some "10.0.0.5")
  = parse_beacon_log 2026 example_text (Some "230815") "beacon_1.log"
                     (Some "10.0.0.5").
Proof.
  exact (proj1 (parse_clock_independent 1999 2026 example_text "230815"
                  "beacon_1.log" (Some "10.0.0.5") eq_refl)).
Defined.

(** The fallback does let the clock in: without a token the year of the
    records is the clock's. *)
Lemma fallback_follows_clock :
  parse_beacon_log 1999 example_text None "beacon_1.log" None
  <> parse_beacon_log 2026 example_text None "beacon_1.log" None.
Proof. vm_compute. discriminate. Qed.

(** C8 as stated fails: the record that is open when the malformed
    header arrives is in the output, with the body lines it had gathered;
    what is lost is the malformed header and the line after it. *)
Lemma interrupted_record_is_kept :
  PyStr.splitlines interrupted_text
  = ["08/15 10:00:01 UTC [input] whoami"; "DOMAIN\user";
     "13/40 25:00:00 UTC [x] y"; "lost"]
  /\ parse_beacon_log 2026 interrupted_text (Some "230815") "beacon_1.log"
                      (Some "10.0.0.5")
     = ([MalformedTimestamp "beacon_1.log" "13/40 25:00:00 UTC [x] y";
         OrphanedLine "beacon_1.log" "lost"],
        Returned [interrupted_record])
  /\ content interrupted_record = ["whoami"; "DOMAIN\user"].
Proof. vm_compute. repeat split. Qed.

(** C8 (amended).  When a header with a malformed timestamp arrives
    while a record is open, that record is emitted with every body line
    it has gathered; the malformed header gives no record, and the lines
    after it are read with no record open.  If the lines of the blob are
    [before], a good header [hdr], its continuation lines [conts], the
    malformed header [bad] and then [after], the records returned are
    those of [before] alone, then the record of [hdr] with body
    [rest :: conts], then those of [after] alone. *)
Theorem malformed_header_keeps_open_record (now_year base_year : Z)
    (text : string) (folder : option string) (source : string)
    (ip : option string) (w : list warning)
    (before conts after : list string) (hdr bad : string)
    (mm_dd time_str kind rest : string) (ts : DateTime.datetime)
    (mm_dd' time_str' kind' rest' : string) :
  resolve_base_year now_year folder source = (w, Returned base_year) ->
  PyStr.splitlines text = before ++ (hdr :: conts) ++ bad :: after ->
  match_header hdr = Some (mm_dd, time_str, kind, rest) ->
  build_timestamp base_year mm_dd time_str = Some ts ->
  Forall (fun l => match_header l = None) conts ->
  match_header bad = Some (mm_dd', time_str', kind', rest') ->
  build_timestamp base_year mm_dd' time_str' = None ->
  let run := parse_lines base_year folder source ip in
  parse_beacon_log now_year text folder source ip
  = (w ++ printed (run before initial)
       ++ MalformedTimestamp source (PyStr.slice_to 80 bad)
       :: printed (run after initial),
     Returned (flush (run before initial)
               ++ mk_LogEntry ts kind (rest :: conts) source ip folder
               :: flush (run after initial))).
Proof.
  intros Hres Hlines Hm Hb Hc Hm' Hb' run.
  unfold parse_beacon_log.
  destruct (PyStr.truthy text) eqn:Et.
  2:{ apply truthy_false in Et. subst text. cbn in Hlines.
      destruct before; discriminate. }
  cbn [negb]. rewrite Hres, Hlines.
  rewrite app_assoc, parse_lines_app.
  rewrite (parse_record base_year folder source ip before hdr conts
             _ _ _ _ _ Hm Hb Hc).
  rewrite parse_lines_cons.
  rewrite (step_malformed base_year folder source ip _ _ _ _ _ _ Hm' Hb').
  rewrite flush_mk. cbn [printed].
  rewrite parse_from_closed. cbv zeta.
  fold run. rewrite flush_mk.
  f_equal.
  - rewrite <- !app_assoc. reflexivity.
  - f_equal. rewrite <- !app_assoc. cbn [app].
    unfold flush. destruct (current_entry (run after initial));
      rewrite ?app_nil_r; reflexivity.
Qed.

Lemma malformed_header_keeps_open_record_witness :
  parse_beacon_log 2026 interrupted_text (Some "230815") "beacon_1.log"
                   (Some "10.0.0.5")
  = ([] ++ [] ++ [MalformedTimestamp "beacon_1.log"
                    (PyStr.slice_to 80 "13/40 25:00:00 UTC [x] y");
                  OrphanedLine "beacon_1.log" "lost"],
     Returned ([] ++ [interrupted_record])).
Proof.
  assert (Hc : Forall (fun l => match_header l = None) ["DOMAIN\user"])
    by (repeat constructor).
  exact (malformed_header_keeps_open_record 2026 2023 interrupted_text
           (Some "230815") "beacon_1.log" (Some "10.0.0.5") []
           [] ["DOMAIN\user"] ["lost"]
           "08/15 10:00:01 UTC [input] whoami" "13/40 25:00:00 UTC [x] y"
           "08/15" "10:00:01" "input" "whoami"
           (DateTime.mk_datetime 2023 8 15 10 0 1)
           "13/40" "25:00:00" "x" "y"
           eq_refl eq_refl eq_refl eq_refl Hc eq_refl eq_refl).
Defined.

(** *** System logs *)

Lemma step_with_ip (base_year : Z) (folder : option string) (source : string)
    (ip : option string) (st : pstate) (line : string) :
  step base_year folder source ip (map_state (with_ip ip) st) line
  = map_state (with_ip ip) (step base_year folder source None st line).
Proof.
  destruct st as [es cur pr].
  unfold LogParser.step, map_state, flush.
  cbn [entries current_entry printed].
  destruct (match_header line) as [[[[a b] k] r]|].
  - destruct (build_timestamp base_year a b); destruct cur;
      cbn [entries current_entry printed option_map];
      rewrite ?map_app; reflexivity.
  - destruct cur; cbn [entries current_entry printed option_map];
      [reflexivity|].
    destruct (PyStr.truthy (PyStr.strip line)); reflexivity.
Qed.

Lemma parse_lines_with_ip (base_year : Z) (folder : option string)
    (source : string) (ip : option string) (lines : list string)
    (st : pstate) :
  parse_lines base_year folder source ip lines (map_state (with_ip ip) st)
  = map_state (with_ip ip)
      (parse_lines base_year folder source None lines st).
Proof.
  revert st. induction lines as [|l lines IH]; intros st.
  - rewrite !parse_lines_nil. reflexivity.
  - rewrite !parse_lines_cons, step_with_ip. apply IH.
Qed.

Lemma flush_map_state (f : LogEntry -> LogEntry) (st : pstate) :
  flush (map_state f st) = map f (flush st).
Proof.
  destruct st as [es [e|] pr]; unfold flush, map_state;
    cbn [entries current_entry option_map]; rewrite ?map_app; reflexivity.
Qed.

Lemma parse_with_ip (now_year : Z) (text : string) (folder : option string)
    (source : string) (ip : option string) :
  parse_beacon_log now_year text folder source ip
  = (fst (parse_beacon_log now_year text folder source None),
     map_returned (map (with_ip ip))
       (snd (parse_beacon_log now_year text folder source None))).
Proof.
  unfold parse_beacon_log.
  destruct (negb (PyStr.truthy text)); [reflexivity|].
  destruct (resolve_base_year now_year folder source) as [w [y|e]];
    [|reflexivity].
  cbn [fst snd map_returned].
  change initial with (map_state (with_ip ip) initial) at 1 2.
  rewrite parse_lines_with_ip, flush_map_state. reflexivity.
Qed.

(** C9.  Parsing as a system log is parsing as an entity log with the
    entity absent: the two calls print the same and end the same; every
    record returned has no entity; and an entity-log parse of the same
    text under any entity returns the same records but for the entity
    field, and prints the same. *)
Theorem parse_system_log_no_entity (now_year : Z) (text : string)
    (folder : option string) (source : string) :
  parse_system_log now_year text folder source
  = parse_beacon_log now_year text folder source None
  /\ match snd (parse_system_log now_year text folder source) with
     | Returned es => Forall (fun e => ip_address e = None) es
     | Raised _ => True
     end
  /\ (forall ip,
        parse_beacon_log now_year text folder source ip
        = (fst (parse_system_log now_year text folder source),
           map_returned (map (with_ip ip))
             (snd (parse_system_log now_year text folder source)))).
Proof.
  unfold parse_system_log.
  split; [reflexivity|]. split; [|intros ip; apply parse_with_ip].
  rewrite (parse_with_ip now_year text folder source None). cbn [snd].
  destruct (snd (parse_beacon_log now_year text folder source None))
    as [es|e]; cbn [map_returned]; [|exact I].
  apply Forall_forall. intros e He. apply in_map_iff in He.
  destruct He as (e0 & <- & _). reflexivity.
Qed.

End ParserClaims.

(** ** Rendering what was parsed *)

Module RoundTrip.

Import LogParser Vocab ParserFacts RegexFacts.

(** No line of [splitlines] holds a line boundary. *)
Lemma splitlines_no_linebreak (s : string) :
  Forall (fun l => no_linebreak l = true) (PyStr.splitlines s).
Proof.
  assert (H : forall n s, (String.length s <= n)%nat ->
                Forall (fun l => no_linebreak l = true) (PyStr.splitlines s)).
  { clear s. induction n as [|n IH]; intros s Hn.
    - destruct s; [constructor|cbn in Hn; lia].
    - destruct s as [|c s']; [constructor|].
      cbn [String.length] in Hn. cbn [PyStr.splitlines].
      destruct (PyStr.is_linebreak c) eqn:Ec.
      + destruct s' as [|c' s'']; [repeat constructor|].
        cbn [String.length] in Hn.
        destruct (Ascii.eqb c PyStr.CR && Ascii.eqb c' PyStr.LF);
          constructor; try reflexivity; apply IH; cbn [String.length]; lia.
      + assert (Hs : Forall (fun l => no_linebreak l = true)
                       (PyStr.splitlines s')) by (apply IH; lia).
        destruct (PyStr.splitlines s') as [|h t].
        * repeat constructor. unfold no_linebreak. cbn. rewrite Ec.
          reflexivity.
        * apply Forall_cons_iff in Hs. destruct Hs as [Hh Ht].
          constructor; [|exact Ht].
          unfold no_linebreak in *. cbn [PyStr.forallb]. rewrite Ec, Hh.
          reflexivity. }
  apply (H (String.length s)). lia.
Qed.

Lemma unlines_cons (l : string) (ls : list string) :
  unlines (l :: ls) = l +:+ PyStr.nl +:+ unlines ls.
Proof.
  destruct ls as [|l' ls']; unfold unlines; cbn [map String.concat];
    rewrite ?str_app_assoc, ?str_app_nil_r; reflexivity.
Qed.

(** A text of newline-terminated lines splits into these lines. *)
Lemma splitlines_unlines (lines : list string) :
  Forall (fun l => no_linebreak l = true) lines ->
  PyStr.splitlines (unlines lines) = lines.
Proof.
  assert (Hone : forall l rest, no_linebreak l = true ->
            PyStr.splitlines (l +:+ PyStr.nl +:+ rest)
            = l :: PyStr.splitlines rest).
  { induction l as [|c l IH]; intros rest Hl.
    - cbn [String.append PyStr.nl]. destruct rest; reflexivity.
    - unfold no_linebreak in Hl. cbn [PyStr.forallb] in Hl.
      apply andb_true_iff in Hl. destruct Hl as [Hc Hl].
      apply negb_true_iff in Hc.
      cbn [String.append PyStr.splitlines]. rewrite Hc.
      rewrite (IH rest Hl). reflexivity. }
  induction lines as [|l lines IH]; intros Hall; [reflexivity|].
  apply Forall_cons_iff in Hall. destruct Hall as [Hl Hall].
  rewrite unlines_cons, (Hone l _ Hl), (IH Hall). reflexivity.
Qed.

Lemma forallb_app_r (p : ascii -> bool) (a b : string) :
  PyStr.forallb p (a +:+ b) = true -> PyStr.forallb p b = true.
Proof.
  induction a as [|c a IH]; cbn; [auto|].
  rewrite andb_true_iff. intros [_ H]. auto.
Qed.

Lemma no_linebreak_dot (l : string) :
  no_linebreak l = true -> PyStr.forallb Regex.dot l = true.
Proof.
  unfold no_linebreak. apply forallb_impl. intros c Hc.
  unfold Regex.dot. destruct (Ascii.eqb_spec c PyStr.LF); [|reflexivity].
  subst c. discriminate.
Qed.

Lemma header_free_dot (s : stamp) (kind free : string) :
  no_linebreak (header_line s kind free) = true ->
  PyStr.forallb Regex.dot free = true.
Proof.
  intros H. apply no_linebreak_dot in H. unfold header_line in H.
  do 6 apply forallb_app_r in H. exact H.
Qed.

(** *** Two-digit fields *)

Lemma digit_char_value (c : ascii) :
  PyStr.isdecimal_char c = true -> PyStr.digit_char (digit_value c) = c.
Proof.
  unfold PyStr.isdecimal_char, PyStr.between, PyStr.digit_char, digit_value,
    PyStr.code.
  rewrite andb_true_iff, !N.leb_le. intros [H1 H2].
  rewrite N2Z.id.
  replace (48 + (N_of_ascii c - 48))%N with (N_of_ascii c) by lia.
  apply ascii_N_embedding.
Qed.

Lemma fmt2_pair (a b : ascii) :
  PyStr.isdecimal_char a = true -> PyStr.isdecimal_char b = true ->
  PyStr.fmt2 (pair_value a b) = pair_text a b.
Proof.
  intros Ha Hb. unfold PyStr.fmt2, pair_value, pair_text.
  pose proof (decimal_value_range a Ha) as Ra.
  pose proof (decimal_value_range b Hb) as Rb.
  fold (digit_value a) in Ra. fold (digit_value b) in Rb.
  replace ((10 * digit_value a + digit_value b) / 10)%Z with (digit_value a)
    by (apply (Z.div_unique _ 10 _ (digit_value b)); lia).
  replace ((10 * digit_value a + digit_value b) mod 10)%Z
    with (digit_value b)
    by (apply (Z.mod_unique _ 10 (digit_value a)); lia).
  rewrite !digit_char_value by assumption. reflexivity.
Qed.

Lemma int_pair (a b : ascii) :
  PyStr.isdecimal_char a = true -> PyStr.isdecimal_char b = true ->
  PyStr.int (pair_text a b) = Some (pair_value a b).
Proof.
  intros Ha Hb. unfold PyStr.int, pair_text. cbn [PyStr.digits_value].
  rewrite Ha, Hb. reflexivity.
Qed.

Lemma slash_not_decimal : PyStr.isdecimal_char "/" = false.
Proof. reflexivity. Qed.

Lemma colon_not_decimal : PyStr.isdecimal_char ":" = false.
Proof. reflexivity. Qed.

Lemma split_pair_end (sep a b : ascii) :
  Ascii.eqb a sep = false -> Ascii.eqb b sep = false ->
  PyStr.split sep (pair_text a b) = [pair_text a b].
Proof.
  intros Ha Hb. unfold pair_text. cbn [PyStr.split]. rewrite Ha, Hb.
  reflexivity.
Qed.

Lemma split_pair_more (sep a b : ascii) (s : string) :
  Ascii.eqb a sep = false -> Ascii.eqb b sep = false ->
  PyStr.split sep (pair_text a b +:+ String sep s)
  = pair_text a b :: PyStr.split sep s.
Proof.
  intros Ha Hb. unfold pair_text. cbn [String.append PyStr.split].
  rewrite Ha, Hb, Ascii.eqb_refl. reflexivity.
Qed.

(** The date and time groups of a grammar line denote the fields. *)
Lemma build_timestamp_stamp (base_year : Z) (s : stamp) :
  stamp_ok s = true ->
  build_timestamp base_year (date_text s) (time_text s)
  = stamp_time base_year s.
Proof.
  intros Hs. apply stamp_ok_chars in Hs. unfold stamp_chars in Hs.
  repeat match goal with
         | H : Forall _ (_ :: _) |- _ =>
             apply Forall_cons_iff in H; destruct H as [? H]
         end.
  unfold build_timestamp, date_text, time_text, stamp_time.
  change (String.append "/") with (String.append (String "/" "")).
  cbn [String.append].
  rewrite split_pair_more, split_pair_end
    by (apply decimal_neq; [assumption|apply slash_not_decimal]).
  rewrite !split_pair_more, split_pair_end
    by (apply decimal_neq; [assumption|apply colon_not_decimal]).
  cbn [map]. rewrite !int_pair by assumption. reflexivity.
Qed.

(** For a line that matches the pattern, the timestamp cannot be built
    exactly when [datetime] refuses the numbers of its two-digit fields
    in the resolved year: a component is out of range. *)
Lemma malformed_is_out_of_range (base_year : Z)
    (line mm_dd time_str kind rest : string) :
  match_header line = Some (mm_dd, time_str, kind, rest) ->
  exists s : stamp,
    stamp_ok s = true /\ mm_dd = date_text s /\ time_str = time_text s
    /\ build_timestamp base_year mm_dd time_str = stamp_time base_year s.
Proof.
  intros H. apply match_header_shape in H.
  destruct H as (s & Hs & -> & -> & _). exists s.
  repeat split; auto. apply build_timestamp_stamp, Hs.
Qed.

Lemma datetime_new_fields (y m d H M S : Z) (t : DateTime.datetime) :
  DateTime.datetime_new y m d H M S = Some t ->
  t = DateTime.mk_datetime y m d H M S.
Proof.
  unfold DateTime.datetime_new.
  destruct (_ && _); [|discriminate]. intros E. injection E as <-.
  reflexivity.
Qed.

Lemma strftime_stamp (base_year : Z) (s : stamp) (t : DateTime.datetime) :
  stamp_ok s = true -> stamp_time base_year s = Some t ->
  DateTime.strftime_md_hms t = date_text s +:+ " " +:+ time_text s.
Proof.
  intros Hs Ht. apply datetime_new_fields in Ht. subst t.
  apply stamp_ok_chars in Hs. unfold stamp_chars in Hs.
  repeat match goal with
         | H : Forall _ (_ :: _) |- _ =>
             apply Forall_cons_iff in H; destruct H as [? H]
         end.
  unfold DateTime.strftime_md_hms, date_text, time_text.
  cbn [DateTime.month DateTime.day DateTime.hour DateTime.minute
       DateTime.second].
  rewrite !fmt2_pair by assumption.
  rewrite !str_app_assoc. reflexivity.
Qed.

(** *** Rendering *)

Lemma join_unlines (x : string) (l : list string) :
  PyStr.join PyStr.nl (x :: l) +:+ PyStr.nl = unlines (x :: l).
Proof.
  revert x. induction l as [|y l IH]; intros x.
  - unfold unlines. cbn [PyStr.join map String.concat]. reflexivity.
  - change (PyStr.join PyStr.nl (x :: y :: l))
      with (x +:+ PyStr.nl +:+ PyStr.join PyStr.nl (y :: l)).
    rewrite !str_app_assoc, IH, !unlines_cons. reflexivity.
Qed.

Lemma format_grammar_record (base_year : Z) (s : stamp)
    (kind free : string) (conts : list string) (t : DateTime.datetime)
    (source : string) (ip folder : option string) :
  stamp_ok s = true -> stamp_time base_year s = Some t ->
  LogEntryM.format (mk_LogEntry t kind (free :: conts) source ip folder)
  = unlines (header_line s kind free :: conts).
Proof.
  intros Hs Ht. unfold LogEntryM.format, LogEntryM.header.
  cbn [content timestamp entry_type].
  rewrite (strftime_stamp base_year s t Hs Ht).
  rewrite join_unlines. f_equal. f_equal.
  unfold header_line. rewrite !str_app_assoc. reflexivity.
Qed.

Lemma parse_from_state (base_year : Z) (folder : option string)
    (source : string) (ip : option string) (lines : list string)
    (es : list LogEntry) (c : option LogEntry) (ws : list warning) :
  parse_lines base_year folder source ip lines (mk_pstate es c ws)
  = let st' := parse_lines base_year folder source ip lines
                           (mk_pstate [] c []) in
    mk_pstate (es ++ entries st') (current_entry st') (ws ++ printed st').
Proof.
  rewrite <- (parse_frame base_year folder source ip lines
                (mk_pstate [] c []) es ws).
  cbn [entries current_entry printed]. rewrite !app_nil_r. reflexivity.
Qed.

(** Once a record is first in the output, it stays first. *)
Lemma first_record_stays (base_year : Z) (folder : option string)
    (source : string) (ip : option string) (lines : list string)
    (e : LogEntry) (c : option LogEntry) (ws : list warning) :
  exists es,
    flush (parse_lines base_year folder source ip lines
             (mk_pstate [e] c ws)) = e :: es.
Proof.
  rewrite parse_from_state. cbv zeta. rewrite flush_mk.
  cbn [app]. eexists. reflexivity.
Qed.

(** C2 (amended).  Let the lines of the text begin with a header line of
    the grammar (two-digit fields that form a date and time of the
    resolved year, a non-empty kind without a closing bracket, single
    blanks) whose free text does not begin with a blank, followed by its
    continuation lines, that is, lines that are no headers, up to the end
    or to the next header.  Then the parse returns at least one record,
    and rendering the first one gives back exactly the header line and
    the continuation lines, each ended by one newline. *)
Theorem render_parse_first_record (now_year base_year : Z) (text : string)
    (folder : option string) (source : string) (ip : option string)
    (w : list warning) (s : stamp) (kind free : string)
    (conts rest : list string) :
  resolve_base_year now_year folder source = (w, Returned base_year) ->
  PyStr.splitlines text = header_line s kind free :: conts ++ rest ->
  stamp_ok s = true ->
  kind_ok kind = true ->
  stamp_time base_year s <> None ->
  starts_blank free = false ->
  Forall (fun l => match_header l = None) conts ->
  match rest with [] => True | h :: _ => match_header h <> None end ->
  exists e es ws,
    parse_beacon_log now_year text folder source ip
    = (ws, Returned (e :: es))
    /\ LogEntryM.format e = unlines (header_line s kind free :: conts).
Proof.
  intros Hres Hlines Hs Hk Ht Hb Hc Hrest.
  destruct (stamp_time base_year s) as [t|] eqn:Et; [clear Ht|congruence].
  assert (Hnl : no_linebreak (header_line s kind free) = true).
  { pose proof (splitlines_no_linebreak text) as H. rewrite Hlines in H.
    apply Forall_cons_iff in H. tauto. }
  pose proof (match_header_grammar s kind free Hs Hk Hb
                (header_free_dot s kind free Hnl)) as Hm.
  assert (Hbt : build_timestamp base_year (date_text s) (time_text s)
                = Some t)
    by (rewrite build_timestamp_stamp; assumption).
  set (e := mk_LogEntry t kind (free :: conts) source ip folder).
  assert (Hfmt : LogEntryM.format e
                 = unlines (header_line s kind free :: conts))
    by (apply (format_grammar_record base_year); assumption).
  assert (Hopen : parse_lines base_year folder source ip
                    (header_line s kind free :: conts) initial
                  = mk_pstate [] (Some e) []).
  { apply (parse_record base_year folder source ip [] _ conts
             _ _ _ _ _ Hm Hbt Hc). }
  unfold parse_beacon_log.
  destruct (PyStr.truthy text) eqn:Ett.
  2:{ apply truthy_false in Ett. subst text. discriminate. }
  cbn [negb]. rewrite Hres, Hlines.
  change (header_line s kind free :: conts ++ rest)
    with ((header_line s kind free :: conts) ++ rest).
  rewrite parse_lines_app, Hopen.
  destruct rest as [|h rest'].
  - rewrite parse_lines_nil, flush_mk. cbn [app].
    exists e, [], (w ++ []). auto.
  - rewrite parse_lines_cons.
    destruct (match_header h) as [[[[a b] k] r]|] eqn:Eh; [|congruence].
    destruct (build_timestamp base_year a b) as [t'|] eqn:Eb.
    + rewrite (step_header base_year folder source ip _ _ _ _ _ _ _ Eh Eb).
      rewrite flush_mk. cbn [app printed].
      destruct (first_record_stays base_year folder source ip rest' e
                  (Some (mk_LogEntry t' k [r] source ip folder)) [])
        as [es Hes].
      rewrite Hes. eexists e, es, _. auto.
    + rewrite (step_malformed base_year folder source ip _ _ _ _ _ _ Eh Eb).
      rewrite flush_mk. cbn [app printed].
      destruct (first_record_stays base_year folder source ip rest' e None
                  [MalformedTimestamp source (PyStr.slice_to 80 h)])
        as [es Hes].
      rewrite Hes. eexists e, es, _. auto.
Qed.

Lemma render_parse_first_record_witness :
  exists e es ws,
    parse_beacon_log 2026 example_text (Some "230815") "beacon_1.log"
                     (Some "10.0.0.5")
    = (ws, Returned (e :: es))
    /\ LogEntryM.format e
       = unlines [header_line example_stamp "input" "whoami"; "DOMAIN\user"].
Proof.
  apply (render_parse_first_record 2026 2023 example_text (Some "230815")
           "beacon_1.log" (Some "10.0.0.5") [] example_stamp
           "input" "whoami" ["DOMAIN\user"]
           ["08/15 10:00:05 UTC [output] "; "administrator"]).
  - reflexivity.
  - reflexivity.
  - reflexivity.
  - reflexivity.
  - vm_compute. discriminate.
  - reflexivity.
  - repeat constructor.
  - vm_compute. discriminate.
Defined.

(** C2 as stated fails: a header line of the grammar whose free text
    begins with a blank is rendered without that blank. *)
Lemma indented_free_text_not_reproduced :
  indented_text = unlines [header_line example_stamp "input" " whoami"]
  /\ stamp_ok example_stamp = true
  /\ kind_ok "input" = true
  /\ stamp_time 2023 example_stamp
     = Some (DateTime.mk_datetime 2023 8 15 10 0 1)
  /\ parse_beacon_log 2026 indented_text (Some "230815") "beacon_1.log"
                      (Some "10.0.0.5")
     = ([], Returned [indented_record])
  /\ LogEntryM.format indented_record
     = "08/15 10:00:01 UTC [input] whoami" +:+ PyStr.nl
  /\ LogEntryM.format indented_record <> indented_text.
Proof.
  vm_compute. repeat split. discriminate.
Qed.

Lemma concat_nil_cons (x : string) (l : list string) :
  String.concat "" (x :: l) = x +:+ String.concat "" l.
Proof.
  destruct l as [|y l]; cbn [String.concat];
    [rewrite str_app_nil_r|]; reflexivity.
Qed.

End RoundTrip.

(** ** Writing the groups *)

Module WriterFacts.

Import Dict LogWriter Vocab RegexFacts RoundTrip.

(** *** What is written is the canonical text *)

Lemma each_line_unlines (lines : list string) :
  each_line lines = unlines lines.
Proof.
  induction lines as [|l lines IH]; [reflexivity|].
  cbn [each_line]. rewrite unlines_cons, IH. reflexivity.
Qed.

(** [format] writes the canonical text of the record. *)
Lemma format_canonical (e : LogEntry) :
  LogEntryM.format e = canonical_text e.
Proof.
  assert (Hh : forall tail,
            LogEntryM.header e +:+ tail
            = canonical_header e +:+ " " +:+ tail).
  { intros tail. unfold LogEntryM.header, canonical_header,
      DateTime.strftime_md_hms.
    change PyStr.fmt2 with two_digit.
    rewrite !str_app_assoc. reflexivity. }
  unfold LogEntryM.format, canonical_text.
  destruct (content e) as [|first rest].
  - rewrite Hh. reflexivity.
  - rewrite join_unlines, unlines_cons, each_line_unlines.
    rewrite str_app_assoc, Hh. reflexivity.
Qed.

(** [writelines] of the formatted records writes the canonical text of
    the group. *)
Lemma render_all_canonical (entries : list LogEntry) :
  render_all entries = canonical_group_text entries.
Proof.
  unfold render_all.
  induction entries as [|e entries IH]; [reflexivity|].
  cbn [map canonical_group_text].
  rewrite concat_nil_cons, IH, format_canonical. reflexivity.
Qed.

Section Spec.
Context {World : Type}.
Variable path_join : string -> string -> string.
Variable mkdir : World -> string -> option World.
Variable write_file : World -> string -> string -> World * write_result.

Lemma write_group_job (label path : string) (entries : list LogEntry)
    (st : wstate) :
  entries <> [] ->
  write_group write_file label path entries st
  = let wr := write_file (world st) path (canonical_group_text entries) in
    mk_wstate (fst wr)
      (files_written st + count_written [snd wr])
      (reports st ++ [report_of (job_of label path entries) (snd wr)]).
Proof.
  intros Hne. unfold write_group.
  destruct entries as [|e entries]; [congruence|].
  cbv zeta. rewrite render_all_canonical.
  destruct (write_file (world st) path (canonical_group_text (e :: entries)))
    as [w' [| msg | msg]]; cbn [fst snd count_written filter is_written
                                 List.length report_of job_of job_label
                                 job_count job_path];
    rewrite ?Nat.add_0_r, ?Nat.add_1_r; reflexivity.
Qed.

(** Either loop attempts the jobs of all non-empty groups, in order;
    every attempt is counted or reported, and none ends the loop. *)
Lemma write_loop {K : Type} (label path : K -> string)
    (d : dict K (list LogEntry)) (st : wstate) :
  fold_left
    (fun st kv => write_group write_file (label (fst kv)) (path (fst kv))
                              (snd kv) st)
    d st
  = let res := attempt_all write_file (world st) (jobs_of label path d) in
    mk_wstate (fst res)
      (files_written st + count_written (snd res))
      (reports st ++ reports_of (jobs_of label path d) (snd res)).
Proof.
  revert st. induction d as [|[k entries] d IH]; intros st.
  - cbn. rewrite Nat.add_0_r, app_nil_r. destruct st; reflexivity.
  - cbn [fold_left fst snd]. destruct entries as [|e entries].
    + change (jobs_of label path ((k, []) :: d))
        with (jobs_of label path d).
      change (write_group write_file (label k) (path k) [] st) with st.
      apply IH.
    + change (jobs_of label path ((k, e :: entries) :: d))
        with (job_of (label k) (path k) (e :: entries)
              :: jobs_of label path d).
      rewrite IH, write_group_job by discriminate.
      cbv zeta.
      cbn [attempt_all job_of job_path job_text world files_written
           reports].
      destruct (write_file (world st) (path k)
                  (canonical_group_text (e :: entries))) as [w' r].
      cbn [fst snd].
      unfold reports_of, count_written. cbn [combine map filter fst snd].
      rewrite <- app_assoc. cbn [app].
      destruct (is_written r); cbn [List.length]; f_equal; lia.
Qed.

(** C7.  Either write operation, once its own output directory can be
    made, attempts one write for every non-empty group, in the order of
    the grouping and each in the world the attempts before it left,
    whether those succeeded or failed.  The text of each write is the
    canonical text of the group: the records in the order of the group,
    each as its header line MM/DD HH:MM:SS UTC [kind] with the first
    body line, then its other body lines, every line ended by one
    newline.  It prints one line per attempt (the group written, or the
    error and its file) and returns the number of attempts that
    succeeded.  In particular, of two non-empty groups of which exactly
    one cannot be written, the other one is written with its canonical
    text and the call returns 1. *)
Theorem write_failures_are_isolated
    (by_ip : dict string (list LogEntry))
    (by_day : dict (string * string) (list LogEntry))
    (output_dir : string) (w : World) :
  let cfile := complete_file path_join (path_join output_dir "complete") in
  let dfile := daily_file path_join (path_join output_dir "daily") in
  let cjobs :=
    map (fun kv => mk_job (fst kv) (List.length (snd kv)) (cfile (fst kv))
                          (canonical_group_text (snd kv)))
        (filter nonempty by_ip) in
  let djobs :=
    map (fun kv => mk_job (daily_label (fst kv)) (List.length (snd kv))
                          (dfile (fst kv)) (canonical_group_text (snd kv)))
        (filter nonempty by_day) in
  (forall wc,
     mkdir w (path_join output_dir "complete") = Some wc ->
     write_complete_logs path_join mkdir write_file by_ip output_dir w
     = (fst (attempt_all write_file wc cjobs),
        reports_of cjobs (snd (attempt_all write_file wc cjobs)),
        Returned (count_written (snd (attempt_all write_file wc cjobs))))
     /\ (forall ip1 ip2 e1 e2,
           e1 <> [] -> e2 <> [] ->
           let first :=
             write_file wc (cfile ip1) (canonical_group_text e1) in
           let second :=
             write_file (fst first) (cfile ip2) (canonical_group_text e2) in
           is_written (snd first) = negb (is_written (snd second)) ->
           write_complete_logs path_join mkdir write_file
             [(ip1, e1); (ip2, e2)] output_dir w
           = (fst second,
              [report_of (mk_job ip1 (List.length e1) (cfile ip1)
                                 (canonical_group_text e1)) (snd first);
               report_of (mk_job ip2 (List.length e2) (cfile ip2)
                                 (canonical_group_text e2)) (snd second)],
              Returned 1%nat)))
  /\ (forall wd,
        mkdir w (path_join output_dir "daily") = Some wd ->
        write_daily_logs path_join mkdir write_file by_day output_dir w
        = (fst (attempt_all write_file wd djobs),
           reports_of djobs (snd (attempt_all write_file wd djobs)),
           Returned (count_written (snd (attempt_all write_file wd djobs))))).
Proof.
  intros cfile dfile cjobs djobs.
  change cjobs with (jobs_of (fun ip => ip) cfile by_ip).
  change djobs with (jobs_of daily_label dfile by_day).
  clear cjobs djobs. split.
  - intros wc Hc.
    assert (Hcomplete : forall d,
              write_complete_logs path_join mkdir write_file d output_dir w
              = (fst (attempt_all write_file wc
                        (jobs_of (fun ip => ip) cfile d)),
                 reports_of (jobs_of (fun ip => ip) cfile d)
                   (snd (attempt_all write_file wc
                           (jobs_of (fun ip => ip) cfile d))),
                 Returned (count_written
                   (snd (attempt_all write_file wc
                           (jobs_of (fun ip => ip) cfile d)))))).
    { intros d. unfold write_complete_logs. cbv zeta. rewrite Hc.
      fold cfile.
      rewrite (write_loop (fun ip => ip) cfile d (mk_wstate wc 0 [])).
      reflexivity. }
    split; [apply Hcomplete|].
    intros ip1 ip2 e1 e2 H1 H2 first second Hx.
    rewrite Hcomplete.
    destruct e1 as [|x1 e1]; [congruence|].
    destruct e2 as [|x2 e2]; [congruence|].
    change (jobs_of (fun ip => ip) cfile
              [(ip1, x1 :: e1); (ip2, x2 :: e2)])
      with [job_of ip1 (cfile ip1) (x1 :: e1);
            job_of ip2 (cfile ip2) (x2 :: e2)].
    cbn [attempt_all job_of job_path job_text fst snd].
    fold first. fold second.
    unfold reports_of, count_written. cbn [combine map filter fst snd].
    rewrite Hx. destruct (is_written (snd second)); reflexivity.
  - intros wd Hd.
    unfold write_daily_logs. cbv zeta. rewrite Hd. fold dfile.
    rewrite (write_loop daily_label dfile by_day (mk_wstate wd 0 [])).
    reflexivity.
Qed.

End Spec.

Lemma write_failures_are_isolated_witness :
  write_complete_logs mem_join mem_mkdir
    (mem_write "out/complete/10.0.0.5-Complete.log") two_groups "out" []
  = ([("out/complete/10.0.0.7-Complete.log",
       "08/15 08:30:00 UTC [output] ok" +:+ PyStr.nl)],
     [ReportError "out/complete/10.0.0.5-Complete.log" "Permission denied";
      ReportWritten "10.0.0.7" 1 "out/complete/10.0.0.7-Complete.log"],
     Returned 1%nat)
  /\ write_daily_logs mem_join mem_mkdir
       (mem_write "out/daily/10.0.0.7-230815.log") two_daily_groups "out" []
     = ([("out/daily/10.0.0.5-230815.log",
          "08/15 10:00:01 UTC [output] ok" +:+ PyStr.nl)],
        [ReportWritten "10.0.0.5 [230815]" 1 "out/daily/10.0.0.5-230815.log";
         ReportError "out/daily/10.0.0.7-230815.log" "Permission denied"],
        Returned 1%nat).
Proof.
  split.
  - exact (proj1 (proj1 (write_failures_are_isolated mem_join mem_mkdir
             (mem_write "out/complete/10.0.0.5-Complete.log")
             two_groups two_daily_groups "out" []) [] eq_refl)).
  - exact (proj2 (write_failures_are_isolated mem_join mem_mkdir
             (mem_write "out/daily/10.0.0.7-230815.log")
             two_groups two_daily_groups "out" []) [] eq_refl).
Defined.

End WriterFacts.

(** ** More on the parser: what every result satisfies *)

Module ParserExtras.

Import LogParser Vocab Extra ParserFacts RegexFacts RoundTrip.

(** A timestamp that could be built is a valid date and time of the
    resolved year. *)
Lemma build_timestamp_valid (base_year : Z) (line mm_dd time_str kind rest
    : string) (ts : DateTime.datetime) :
  match_header line = Some (mm_dd, time_str, kind, rest) ->
  build_timestamp base_year mm_dd time_str = Some ts ->
  DateTime.year ts = base_year /\ valid_datetime ts.
Proof.
  intros Hm Hb.
  destruct (malformed_is_out_of_range base_year _ _ _ _ _ Hm)
    as (s & _ & _ & _ & Hs).
  rewrite Hs in Hb. unfold stamp_time in Hb.
  pose proof (datetime_new_fields _ _ _ _ _ _ _ Hb) as Ht. subst ts.
  split; [reflexivity|]. unfold valid_datetime. exact Hb.
Qed.

Section Invariant.
Variables (base_year : Z) (folder : option string) (source : string)
          (ip : option string).

Lemma flush_stamped (st : pstate) :
  state_stamped base_year folder source ip st ->
  Forall (stamped base_year folder source ip) (flush st).
Proof.
  intros [He Hc]. unfold flush. destruct (current_entry st); [|exact He].
  apply Forall_app. split; [exact He|]. constructor; [exact Hc|constructor].
Qed.

Lemma step_stamped (st : pstate) (line : string) :
  state_stamped base_year folder source ip st ->
  state_stamped base_year folder source ip
                (step base_year folder source ip st line).
Proof.
  intros Hst.
  destruct (match_header line) as [[[[a b] k] r]|] eqn:Hm.
  - destruct (build_timestamp base_year a b) as [ts|] eqn:Hb.
    + rewrite (step_header _ _ _ _ _ _ _ _ _ _ _ Hm Hb).
      split; cbn [entries current_entry]; [apply flush_stamped, Hst|].
      destruct (build_timestamp_valid _ _ _ _ _ _ _ Hm Hb) as [Hy Hv].
      unfold stamped. cbn. repeat split; auto. discriminate.
    + rewrite (step_malformed _ _ _ _ _ _ _ _ _ _ Hm Hb).
      split; cbn [entries current_entry]; [apply flush_stamped, Hst|exact I].
  - destruct Hst as [He Hc].
    destruct (current_entry st) as [e|] eqn:Ec.
    + rewrite (step_continuation _ _ _ _ _ _ _ Hm Ec).
      split; cbn [entries current_entry]; [exact He|].
      destruct Hc as (H1 & H2 & H3 & H4 & H5 & H6).
      unfold stamped, append_line. cbn. repeat split; auto.
      destruct (content e); discriminate.
    + destruct (step_orphan base_year folder source ip st line Hm Ec)
        as [H1 H2].
      split; [rewrite H1; exact He|rewrite H2; exact I].
Qed.

Lemma parse_lines_stamped (lines : list string) (st : pstate) :
  state_stamped base_year folder source ip st ->
  state_stamped base_year folder source ip
                (parse_lines base_year folder source ip lines st).
Proof.
  revert st. induction lines as [|l lines IH]; intros st Hst.
  - rewrite parse_lines_nil. exact Hst.
  - rewrite parse_lines_cons. apply IH, step_stamped, Hst.
Qed.

End Invariant.

(** X1.  Whenever the year can be resolved, the parse returns, and every
    record it returns carries the source, the entity and the date folder
    of the call, has a body that is not empty, and has a timestamp that
    is a valid date and time of the resolved year. *)
Theorem parse_records_stamped (now_year base_year : Z) (text : string)
    (folder : option string) (source : string) (ip : option string)
    (w : list warning) :
  resolve_base_year now_year folder source = (w, Returned base_year) ->
  exists ws es,
    parse_beacon_log now_year text folder source ip = (ws, Returned es)
    /\ Forall (fun e =>
                 source_file e = source /\ ip_address e = ip
                 /\ date_folder e = folder /\ content e <> []
                 /\ DateTime.year (timestamp e) = base_year
                 /\ valid_datetime (timestamp e)) es.
Proof.
  intros Hres. unfold parse_beacon_log.
  destruct (negb (PyStr.truthy text)).
  - exists [], []. split; [reflexivity|constructor].
  - rewrite Hres. eexists _, _. split; [reflexivity|].
    apply (flush_stamped base_year folder source ip).
    apply parse_lines_stamped. split; [constructor|exact I].
Qed.

Lemma parse_records_stamped_witness :
  exists ws es,
    parse_beacon_log 2026 example_text (Some "230815") "beacon_1.log"
                     (Some "10.0.0.5") = (ws, Returned es)
    /\ Forall (fun e =>
                 source_file e = "beacon_1.log"
                 /\ ip_address e = Some "10.0.0.5"
                 /\ date_folder e = Some "230815" /\ content e <> []
                 /\ DateTime.year (timestamp e) = 2023%Z
                 /\ valid_datetime (timestamp e)) es.
Proof.
  exact (parse_records_stamped 2026 2023 example_text (Some "230815")
           "beacon_1.log" (Some "10.0.0.5") [] eq_refl).
Defined.

(** *** Blobs without a header *)

Lemma step_orphan_eq (base_year : Z) (folder : option string)
    (source : string) (ip : option string) (es : list LogEntry)
    (ws : list warning) (line : string) :
  match_header line = None ->
  step base_year folder source ip (mk_pstate es None ws) line
  = mk_pstate es None
      (ws ++ if nonblank line
             then [OrphanedLine source (PyStr.slice_to 50 line)] else []).
Proof.
  intros Hm. unfold LogParser.step, nonblank. rewrite Hm.
  cbn [current_entry entries printed].
  destruct (PyStr.truthy (PyStr.strip line)); [reflexivity|].
  rewrite app_nil_r. reflexivity.
Qed.

Lemma parse_orphans_eq (base_year : Z) (folder : option string)
    (source : string) (ip : option string) (lines : list string) :
  Forall (fun l => match_header l = None) lines ->
  forall es ws,
    parse_lines base_year folder source ip lines (mk_pstate es None ws)
    = mk_pstate es None
        (ws ++ map (fun l => OrphanedLine source (PyStr.slice_to 50 l))
                   (filter nonblank lines)).
Proof.
  induction 1 as [|l lines Hl Hall IH]; intros es ws.
  - rewrite parse_lines_nil. cbn. rewrite app_nil_r. reflexivity.
  - rewrite parse_lines_cons, (step_orphan_eq _ _ _ _ _ _ _ Hl), IH.
    cbn [filter]. destruct (nonblank l); cbn [map];
      rewrite <- app_assoc; reflexivity.
Qed.

(** X2.  A non-empty blob in which no line matches the header pattern
    gives no record, and, after what the year resolution printed, one
    orphaned-line warning for each line that is not blank, in the order
    of the lines and with the first 50 characters of the line; blank
    lines are dropped in silence. *)
Theorem headerless_blob_is_all_orphans (now_year base_year : Z)
    (text : string) (folder : option string) (source : string)
    (ip : option string) (w : list warning) :
  text <> EmptyString ->
  resolve_base_year now_year folder source = (w, Returned base_year) ->
  Forall (fun l => match_header l = None) (PyStr.splitlines text) ->
  parse_beacon_log now_year text folder source ip
  = (w ++ map (fun l => OrphanedLine source (PyStr.slice_to 50 l))
              (filter nonblank (PyStr.splitlines text)),
     Returned []).
Proof.
  intros Hne Hres Hall. unfold parse_beacon_log.
  destruct text as [|c text]; [congruence|].
  cbn [PyStr.truthy negb]. rewrite Hres.
  unfold initial. rewrite (parse_orphans_eq _ _ _ _ _ Hall).
  reflexivity.
Qed.

Lemma headerless_blob_is_all_orphans_witness :
  parse_beacon_log 2026
    ("not a header" +:+ PyStr.nl +:+ "   " +:+ PyStr.nl +:+ "nor this"
     +:+ PyStr.nl)
    (Some "230815") "beacon_1.log" None
  = ([] ++ [OrphanedLine "beacon_1.log" (PyStr.slice_to 50 "not a header");
            OrphanedLine "beacon_1.log" (PyStr.slice_to 50 "nor this")],
     Returned []).
Proof.
  apply (headerless_blob_is_all_orphans 2026 2023
           ("not a header" +:+ PyStr.nl +:+ "   " +:+ PyStr.nl +:+ "nor this"
            +:+ PyStr.nl)
           (Some "230815") "beacon_1.log" None []).
  - discriminate.
  - reflexivity.
  - repeat constructor.
Defined.

(** *** One record per good header, in the order of the lines *)

Section Order.
Variables (base_year : Z) (folder : option string) (source : string)
          (ip : option string).

Lemma opening_append_line (e : LogEntry) (line : string) :
  content e <> [] -> opening (append_line e line) = opening e.
Proof.
  intros H. unfold opening, append_line. cbn.
  destruct (content e); [congruence|reflexivity].
Qed.

Lemma step_openings (st : pstate) (line : string) :
  match current_entry st with Some e => content e <> [] | None => True end ->
  let st' := step base_year folder source ip st line in
  map opening (flush st')
  = map opening (flush st) ++ option_list (header_of base_year line)
  /\ filter is_malformed_warning (printed st')
     = filter is_malformed_warning (printed st)
       ++ (if ill_stamped base_year line
           then [MalformedTimestamp source (PyStr.slice_to 80 line)]
           else [])
  /\ match current_entry st' with
     | Some e => content e <> []
     | None => True
     end.
Proof.
  intros Hc st'. unfold st', header_of, ill_stamped.
  destruct (match_header line) as [[[[a b] k] r]|] eqn:Hm.
  - destruct (build_timestamp base_year a b) as [ts|] eqn:Hb.
    + rewrite (step_header _ _ _ _ _ _ _ _ _ _ _ Hm Hb).
      rewrite flush_mk. cbn [printed current_entry option_list].
      rewrite map_app, app_nil_r. repeat split. discriminate.
    + rewrite (step_malformed _ _ _ _ _ _ _ _ _ _ Hm Hb).
      rewrite flush_mk. cbn [printed current_entry option_list].
      rewrite !app_nil_r, filter_app. repeat split.
  - destruct st as [es [e|] ws]; cbn [current_entry] in Hc.
    + rewrite (step_continuation base_year folder source ip
                 (mk_pstate es (Some e) ws) e line Hm eq_refl).
      rewrite !flush_mk. cbn [printed current_entry option_list entries].
      rewrite !map_app, !app_nil_r. cbn [map].
      rewrite opening_append_line by exact Hc.
      repeat split. unfold append_line. cbn.
      destruct (content e); discriminate.
    + rewrite (step_orphan_eq _ _ _ _ _ _ _ Hm).
      rewrite !flush_mk. cbn [printed current_entry option_list].
      rewrite !app_nil_r, filter_app.
      destruct (nonblank line); cbn [filter is_malformed_warning];
        rewrite ?app_nil_r; repeat split.
Qed.

Lemma parse_lines_openings (lines : list string) (st : pstate) :
  match current_entry st with Some e => content e <> [] | None => True end ->
  let st' := parse_lines base_year folder source ip lines st in
  map opening (flush st')
  = map opening (flush st)
    ++ flat_map (fun l => option_list (header_of base_year l)) lines
  /\ filter is_malformed_warning (printed st')
     = filter is_malformed_warning (printed st)
       ++ map (fun l => MalformedTimestamp source (PyStr.slice_to 80 l))
              (filter (ill_stamped base_year) lines).
Proof.
  revert st. induction lines as [|l lines IH]; intros st Hc; cbv zeta.
  - rewrite parse_lines_nil. cbn. rewrite !app_nil_r. auto.
  - rewrite parse_lines_cons.
    destruct (step_openings st l Hc) as (H1 & H2 & H3).
    destruct (IH _ H3) as [H4 H5].
    rewrite H4, H5, H1, H2. cbn [flat_map filter].
    rewrite <- !app_assoc.
    destruct (ill_stamped base_year l); cbn [map app]; auto.
Qed.

End Order.

(** X3.  The records of a parse are, in the order of the lines, exactly
    the header lines whose timestamp can be built: the k-th record has
    the timestamp, the kind and, as first body line, the rest of the k-th
    such line.  The malformed-timestamp warnings are, in order, exactly
    the header lines whose timestamp cannot be built, each with the first
    80 characters of its line. *)
Theorem records_follow_headers (now_year base_year : Z) (text : string)
    (folder : option string) (source : string) (ip : option string)
    (w : list warning) :
  resolve_base_year now_year folder source = (w, Returned base_year) ->
  exists ws es,
    parse_beacon_log now_year text folder source ip = (ws, Returned es)
    /\ map opening es
       = flat_map (fun l => option_list (header_of base_year l))
                  (PyStr.splitlines text)
    /\ filter is_malformed_warning ws
       = map (fun l => MalformedTimestamp source (PyStr.slice_to 80 l))
             (filter (ill_stamped base_year) (PyStr.splitlines text)).
Proof.
  intros Hres. unfold parse_beacon_log.
  destruct text as [|c text].
  - exists [], []. repeat split.
  - cbn [PyStr.truthy negb]. rewrite Hres. eexists _, _.
    split; [reflexivity|].
    destruct (parse_lines_openings base_year folder source ip
                (PyStr.splitlines (String c text)) initial I) as [H1 H2].
    split; [exact H1|].
    rewrite filter_app, H2.
    pose proof (resolve_warnings now_year folder source) as Hw.
    rewrite Hres in Hw. cbn [fst] in Hw. rewrite Hw. reflexivity.
Qed.

Lemma records_follow_headers_witness :
  exists ws es,
    parse_beacon_log 2026 interrupted_text (Some "230815") "beacon_1.log"
                     None = (ws, Returned es)
    /\ map opening es
       = flat_map (fun l => option_list (header_of 2023 l))
                  (PyStr.splitlines interrupted_text)
    /\ filter is_malformed_warning ws
       = map (fun l => MalformedTimestamp "beacon_1.log"
                         (PyStr.slice_to 80 l))
             (filter (ill_stamped 2023) (PyStr.splitlines interrupted_text)).
Proof.
  exact (records_follow_headers 2026 2023 interrupted_text (Some "230815")
           "beacon_1.log" None [] eq_refl).
Defined.

(** *** Well-formed blobs *)

Section Chunks.
Variables (base_year : Z) (folder : option string) (source : string)
          (ip : option string).

Lemma parse_chunks (cs : list chunk) :
  Forall (chunk_ok base_year) cs ->
  Forall (fun l => no_linebreak l = true) (flat_map chunk_lines cs) ->
  let st := parse_lines base_year folder source ip
                        (flat_map chunk_lines cs) initial in
  flush st = map (chunk_entry folder source ip) cs /\ printed st = [].
Proof.
  induction cs as [|c cs IH] using rev_ind; intros Hok Hnl; cbv zeta.
  - rewrite parse_lines_nil. split; reflexivity.
  - rewrite flat_map_app in *. cbn [flat_map] in *.
    rewrite app_nil_r in *.
    apply Forall_app in Hok. destruct Hok as [Hcs Hc].
    apply Forall_app in Hnl. destruct Hnl as [Hnl1 Hnl2].
    apply Forall_cons_iff in Hc. destruct Hc as [Hc _].
    destruct Hc as (Hs & Ht & Hk & Hb & Hconts).
    apply Forall_cons_iff in Hnl2. destruct Hnl2 as [Hh _].
    destruct (IH Hcs Hnl1) as [IH1 IH2].
    pose proof (match_header_grammar _ _ _ Hs Hk Hb
                  (header_free_dot _ _ _ Hh)) as Hm.
    assert (Hbt : build_timestamp base_year (date_text (c_stamp c))
                    (time_text (c_stamp c)) = Some (c_time c))
      by (rewrite build_timestamp_stamp; assumption).
    change (chunk_lines c)
      with (header_line (c_stamp c) (c_kind c) (c_free c) :: c_conts c).
    rewrite (parse_record base_year folder source ip _ _ _ _ _ _ _ _
               Hm Hbt Hconts).
    rewrite flush_mk. cbn [printed]. rewrite IH1, IH2, map_app.
    split; reflexivity.
Qed.

Lemma unlines_app (a b : list string) :
  unlines (a ++ b) = unlines a +:+ unlines b.
Proof.
  induction a as [|x a IH]; [reflexivity|].
  cbn [app]. rewrite !unlines_cons, IH, !str_app_assoc. reflexivity.
Qed.

Lemma render_chunks (cs : list chunk) :
  Forall (chunk_ok base_year) cs ->
  LogWriter.render_all (map (chunk_entry folder source ip) cs)
  = unlines (flat_map chunk_lines cs).
Proof.
  unfold LogWriter.render_all.
  induction cs as [|c cs IH]; intros Hok; [reflexivity|].
  apply Forall_cons_iff in Hok. destruct Hok as [Hc Hok].
  destruct Hc as (Hs & Ht & _).
  cbn [map flat_map]. rewrite concat_nil_cons, unlines_app, (IH Hok).
  f_equal. apply (format_grammar_record base_year); assumption.
Qed.

Lemma parse_chunks_text (now_year : Z) (text : string) (w : list warning)
    (cs : list chunk) :
  cs <> [] ->
  resolve_base_year now_year folder source = (w, Returned base_year) ->
  PyStr.splitlines text = flat_map chunk_lines cs ->
  Forall (chunk_ok base_year) cs ->
  parse_beacon_log now_year text folder source ip
  = (w, Returned (map (chunk_entry folder source ip) cs)).
Proof.
  intros Hne Hres Hlines Hok. unfold parse_beacon_log.
  destruct text as [|ch text].
  - destruct cs; [congruence|discriminate].
  - cbn [PyStr.truthy negb]. rewrite Hres, Hlines.
    assert (Hnl : Forall (fun l => no_linebreak l = true)
                    (flat_map chunk_lines cs))
      by (rewrite <- Hlines; apply splitlines_no_linebreak).
    destruct (parse_chunks cs Hok Hnl) as [H1 H2].
    rewrite H1, H2, app_nil_r. reflexivity.
Qed.

End Chunks.

(** X4.  A blob made only of well-formed records (each a header line of
    the grammar with a date and time of the resolved year and a free text
    that does not begin with a blank, followed by lines that are no
    headers) parses to exactly one record per header, in order, each with
    its free text and continuation lines as body, and nothing is printed
    besides what the year resolution printed.  Writing all records out
    again gives the lines of the blob, each ended by one newline. *)
Theorem well_formed_blob_round_trip (now_year base_year : Z) (text : string)
    (folder : option string) (source : string) (ip : option string)
    (w : list warning) (cs : list chunk) :
  cs <> [] ->
  resolve_base_year now_year folder source = (w, Returned base_year) ->
  PyStr.splitlines text = flat_map chunk_lines cs ->
  Forall (chunk_ok base_year) cs ->
  parse_beacon_log now_year text folder source ip
  = (w, Returned (map (chunk_entry folder source ip) cs))
  /\ LogWriter.render_all (map (chunk_entry folder source ip) cs)
     = unlines (PyStr.splitlines text).
Proof.
  intros Hne Hres Hlines Hok. split.
  - apply (parse_chunks_text base_year); assumption.
  - rewrite Hlines. apply (render_chunks base_year). exact Hok.
Qed.

Lemma well_formed_blob_round_trip_witness :
  parse_beacon_log 2026 example_text (Some "230815") "beacon_1.log"
                   (Some "10.0.0.5")
  = ([], Returned (example_records "beacon_1.log"))
  /\ LogWriter.render_all (example_records "beacon_1.log") = example_text.
Proof.
  assert (Hok : Forall (chunk_ok 2023) example_chunks)
    by (repeat constructor).
  assert (Hne : example_chunks <> []) by discriminate.
  exact (well_formed_blob_round_trip 2026 2023 example_text (Some "230815")
           "beacon_1.log" (Some "10.0.0.5") [] example_chunks
           Hne eq_refl eq_refl Hok).
Defined.

(** *** Parsing what was rendered *)

Lemma digit_char_facts (d : Z) :
  (0 <= d <= 9)%Z ->
  PyStr.isdecimal_char (PyStr.digit_char d) = true
  /\ digit_value (PyStr.digit_char d) = d.
Proof.
  intros H.
  assert (Hd : (d = 0 \/ d = 1 \/ d = 2 \/ d = 3 \/ d = 4 \/ d = 5
                \/ d = 6 \/ d = 7 \/ d = 8 \/ d = 9)%Z) by lia.
  repeat (destruct Hd as [Hd|Hd]; [subst d; split; reflexivity|]).
  subst d. split; reflexivity.
Qed.

Lemma two_digits (v : Z) :
  (0 <= v <= 99)%Z ->
  PyStr.isdecimal_char (PyStr.digit_char (v / 10)) = true
  /\ PyStr.isdecimal_char (PyStr.digit_char (v mod 10)) = true
  /\ pair_value (PyStr.digit_char (v / 10)) (PyStr.digit_char (v mod 10))
     = v.
Proof.
  intros H.
  assert (H1 : (0 <= v / 10 <= 9)%Z) by (Z.div_mod_to_equations; lia).
  assert (H2 : (0 <= v mod 10 <= 9)%Z) by (Z.div_mod_to_equations; lia).
  destruct (digit_char_facts _ H1) as [Ha Hb].
  destruct (digit_char_facts _ H2) as [Hc Hd].
  repeat split; auto. unfold pair_value. rewrite Hb, Hd.
  pose proof (Z.div_mod v 10). lia.
Qed.

Lemma days_in_month_le (y m : Z) : (DateTime.days_in_month y m <= 31)%Z.
Proof.
  unfold DateTime.days_in_month.
  repeat match goal with |- context [if ?b then _ else _] => destruct b end;
    lia.
Qed.

Lemma valid_datetime_ranges (t : DateTime.datetime) :
  valid_datetime t ->
  (0 <= DateTime.month t <= 99 /\ 0 <= DateTime.day t <= 99
   /\ 0 <= DateTime.hour t <= 99 /\ 0 <= DateTime.minute t <= 99
   /\ 0 <= DateTime.second t <= 99)%Z.
Proof.
  unfold valid_datetime, DateTime.datetime_new, DateTime.in_range.
  destruct (_ && _) eqn:E; [|discriminate]. intros _.
  rewrite !andb_true_iff, !Z.leb_le in E.
  pose proof (days_in_month_le (DateTime.year t) (DateTime.month t)). lia.
Qed.

(** The digits that [strftime] prints denote the timestamp again. *)
Lemma stamp_of_valid (t : DateTime.datetime) :
  valid_datetime t ->
  stamp_ok (stamp_of t) = true
  /\ stamp_time (DateTime.year t) (stamp_of t) = Some t.
Proof.
  intros Hv. pose proof (valid_datetime_ranges t Hv) as (R1 & R2 & R3 & R4 & R5).
  destruct (two_digits _ R1) as (A1 & A2 & A3).
  destruct (two_digits _ R2) as (B1 & B2 & B3).
  destruct (two_digits _ R3) as (C1 & C2 & C3).
  destruct (two_digits _ R4) as (D1 & D2 & D3).
  destruct (two_digits _ R5) as (E1 & E2 & E3).
  split.
  - unfold stamp_ok, stamp_chars, stamp_of.
    cbn [List.forallb mo1 mo2 dy1 dy2 hr1 hr2 mi1 mi2 sc1 sc2].
    rewrite A1, A2, B1, B2, C1, C2, D1, D2, E1, E2. reflexivity.
  - unfold stamp_time, stamp_of.
    cbn [mo1 mo2 dy1 dy2 hr1 hr2 mi1 mi2 sc1 sc2].
    rewrite A3, B3, C3, D3, E3. exact Hv.
Qed.

Lemma decimal_not_linebreak (c : ascii) :
  PyStr.isdecimal_char c = true -> PyStr.is_linebreak c = false.
Proof.
  unfold PyStr.isdecimal_char, PyStr.is_linebreak, PyStr.between.
  rewrite andb_true_iff, !N.leb_le. intros [H1 H2].
  repeat match goal with
         | |- context [(?a <=? ?b)%N] => destruct (N.leb_spec a b)
         end; cbn; try reflexivity; lia.
Qed.

Lemma forallb_app (p : ascii -> bool) (a b : string) :
  PyStr.forallb p (a +:+ b) = PyStr.forallb p a && PyStr.forallb p b.
Proof.
  induction a as [|c a IH]; cbn; [reflexivity|].
  rewrite IH, andb_assoc. reflexivity.
Qed.

Lemma no_linebreak_header (s : stamp) (kind free : string) :
  stamp_ok s = true -> no_linebreak kind = true ->
  no_linebreak free = true ->
  no_linebreak (header_line s kind free) = true.
Proof.
  intros Hs Hk Hf.
  apply stamp_ok_chars in Hs. unfold stamp_chars in Hs.
  repeat match goal with
         | H : Forall _ (_ :: _) |- _ =>
             apply Forall_cons_iff in H; destruct H as [? H]
         end.
  rewrite header_line_chars. unfold no_linebreak in *.
  cbn [PyStr.forallb]. rewrite forallb_app. cbn [PyStr.forallb].
  rewrite Hk, Hf.
  repeat match goal with
         | Hd : PyStr.isdecimal_char ?c = true |- _ =>
             rewrite (decimal_not_linebreak c Hd); clear Hd
         end.
  reflexivity.
Qed.

Lemma parse_format (now_year : Z) (e : LogEntry) (c0 : string)
    (rest : list string) (folder : option string) (source : string)
    (ip : option string) (w : list warning) :
  resolve_base_year now_year folder source
  = (w, Returned (DateTime.year (timestamp e))) ->
  valid_datetime (timestamp e) ->
  kind_ok (entry_type e) = true ->
  no_linebreak (entry_type e) = true ->
  starts_blank c0 = false ->
  Forall (fun l => no_linebreak l = true) (c0 :: rest) ->
  Forall (fun l => match_header l = None) rest ->
  let text := unlines (header_line (stamp_of (timestamp e)) (entry_type e) c0
                       :: rest) in
  LogEntryM.format (restamp (date_folder e) (source_file e) (ip_address e)
                            (c0 :: rest) e) = text
  /\ parse_beacon_log now_year text folder source ip
     = (w, Returned [restamp folder source ip (c0 :: rest) e]).
Proof.
  intros Hres Hv Hk Hkn Hb Hnl Hnh text.
  destruct (stamp_of_valid _ Hv) as [Hs Ht].
  apply Forall_cons_iff in Hnl. destruct Hnl as [Hn0 Hnr].
  split.
  - apply (format_grammar_record (DateTime.year (timestamp e)));
      assumption.
  - set (c := mk_chunk (stamp_of (timestamp e)) (timestamp e)
                       (entry_type e) c0 rest).
    apply (parse_chunks_text (DateTime.year (timestamp e)) folder source ip
             now_year text w [c]).
    + discriminate.
    + exact Hres.
    + unfold text. rewrite splitlines_unlines; [cbn; rewrite app_nil_r;
                                                 reflexivity|].
      constructor; [|exact Hnr].
      apply no_linebreak_header; assumption.
    + constructor; [|constructor].
      unfold chunk_ok, c. cbn. auto.
Qed.

(** X5.  Rendering a record and parsing the text gives the record back.
    For a record with a valid timestamp, a non-empty kind without a
    closing bracket, a body whose first line does not begin with a blank
    and whose other lines are no headers, and no line boundary inside the
    kind or a body line: parsing [format] of the record, with a date
    folder that resolves to the record's year, returns exactly that one
    record (with the source, entity and date folder of the call) and
    prints nothing more. *)
Theorem parse_format_round_trip (now_year : Z) (e : LogEntry) (c0 : string)
    (rest : list string) (w : list warning) :
  content e = c0 :: rest ->
  resolve_base_year now_year (date_folder e) (source_file e)
  = (w, Returned (DateTime.year (timestamp e))) ->
  valid_datetime (timestamp e) ->
  kind_ok (entry_type e) = true ->
  no_linebreak (entry_type e) = true ->
  starts_blank c0 = false ->
  Forall (fun l => no_linebreak l = true) (c0 :: rest) ->
  Forall (fun l => match_header l = None) rest ->
  parse_beacon_log now_year (LogEntryM.format e) (date_folder e)
                   (source_file e) (ip_address e)
  = (w, Returned [e]).
Proof.
  intros Hc Hres Hv Hk Hkn Hb Hnl Hnh.
  destruct (parse_format now_year e c0 rest (date_folder e) (source_file e)
              (ip_address e) w Hres Hv Hk Hkn Hb Hnl Hnh) as [Hf Hp].
  assert (He : restamp (date_folder e) (source_file e) (ip_address e)
                       (c0 :: rest) e = e)
    by (destruct e; cbn in *; subst; reflexivity).
  rewrite He in Hf, Hp. rewrite Hf. exact Hp.
Qed.

Lemma parse_format_round_trip_witness :
  parse_beacon_log 2026 (LogEntryM.format interrupted_record)
                   (Some "230815") "beacon_1.log" (Some "10.0.0.5")
  = ([], Returned [interrupted_record]).
Proof.
  apply (parse_format_round_trip 2026 interrupted_record "whoami"
           ["DOMAIN\user"] []).
  - reflexivity.
  - reflexivity.
  - reflexivity.
  - reflexivity.
  - reflexivity.
  - reflexivity.
  - repeat constructor.
  - repeat constructor.
Defined.

(** X6.  A record with an empty body is rendered as its header followed
    by the placeholder (empty), so it does not come back from a parse of
    its rendering: what comes back is the record with the one-line body
    (empty). *)
Theorem empty_body_placeholder (now_year : Z) (e : LogEntry)
    (w : list warning) :
  content e = [] ->
  resolve_base_year now_year (date_folder e) (source_file e)
  = (w, Returned (DateTime.year (timestamp e))) ->
  valid_datetime (timestamp e) ->
  kind_ok (entry_type e) = true ->
  no_linebreak (entry_type e) = true ->
  LogEntryM.format e
  = LogEntryM.header e +:+ "(empty)" +:+ PyStr.nl
  /\ parse_beacon_log now_year (LogEntryM.format e) (date_folder e)
                      (source_file e) (ip_address e)
     = (w, Returned [restamp (date_folder e) (source_file e) (ip_address e)
                             ["(empty)"] e]).
Proof.
  intros Hc Hres Hv Hk Hkn.
  assert (Hf : LogEntryM.format e
               = LogEntryM.header e +:+ "(empty)" +:+ PyStr.nl)
    by (unfold LogEntryM.format; rewrite Hc; reflexivity).
  split; [exact Hf|].
  destruct (parse_format now_year e "(empty)" [] (date_folder e)
              (source_file e) (ip_address e) w Hres Hv Hk Hkn eq_refl)
    as [Hf' Hp]; [repeat constructor|constructor|].
  rewrite <- Hf' in Hp.
  replace (LogEntryM.format e)
    with (LogEntryM.format
            (restamp (date_folder e) (source_file e) (ip_address e)
                     ["(empty)"] e)); [exact Hp|].
  rewrite Hf. unfold LogEntryM.format, LogEntryM.header, restamp.
  cbn [content timestamp entry_type PyStr.join].
  rewrite !str_app_assoc. reflexivity.
Qed.

Lemma empty_body_placeholder_witness :
  LogEntryM.format (restamp (Some "230815") "beacon_1.log" None []
                            interrupted_record)
  = "08/15 10:00:01 UTC [input] (empty)" +:+ PyStr.nl
  /\ parse_beacon_log 2026
       (LogEntryM.format (restamp (Some "230815") "beacon_1.log" None []
                                  interrupted_record))
       (Some "230815") "beacon_1.log" None
     = ([], Returned [restamp (Some "230815") "beacon_1.log" None
                              ["(empty)"] interrupted_record]).
Proof.
  exact (empty_body_placeholder 2026
           (restamp (Some "230815") "beacon_1.log" None []
                    interrupted_record) []
           eq_refl eq_refl eq_refl eq_refl eq_refl).
Defined.

End ParserExtras.

(** ** More on the aggregator *)

Module AggregatorExtras.

Import Dict LogAggregator Vocab Extra SortFacts AggregateByIp
       AggregateByIpAndDate.

(** X7.  Typed grouping returns the mapping it was given, category by
    category and in the same order of keys, with every category's
    sequence sorted ascending by timestamp, stably: a permutation in
    which records of one timestamp keep their input order. *)
Theorem aggregate_system_logs_stable
    (entries_by_type : dict string (list LogEntry)) :
  keys (aggregate_system_logs entries_by_type) = keys entries_by_type
  /\ (forall log_type,
        get String.eqb log_type (aggregate_system_logs entries_by_type)
        = option_map sort_by_timestamp
            (get String.eqb log_type entries_by_type))
  /\ Forall2
       (fun kv kv' =>
          fst kv' = fst kv
          /\ Permutation (snd kv) (snd kv')
          /\ StronglySorted ts_le (snd kv')
          /\ (forall a b, timestamp a = timestamp b ->
                          precedes a b (snd kv) -> precedes a b (snd kv')))
       entries_by_type (aggregate_system_logs entries_by_type).
Proof.
  unfold aggregate_system_logs.
  split; [apply keys_map_values|].
  split; [intros t; apply get_map_values|].
  apply (map_values_pointwise sort_by_timestamp
           (fun l l' => Permutation l l' /\ StronglySorted ts_le l'
                        /\ (forall a b, timestamp a = timestamp b ->
                              precedes a b l -> precedes a b l'))).
  intros l. split; [apply sort_perm|].
  split; [apply sort_sorted|]. intros a b. apply sort_precedes.
Qed.

Lemma sort_sorted_id (l : list LogEntry) :
  StronglySorted ts_le l -> sort_by_timestamp l = l.
Proof. intros H. symmetry. apply sort_unique; auto. Qed.

(** X8.  A grouping whose sequences are already in ascending order of
    timestamp is returned unchanged by group-and-sort: no record moves,
    also among records of equal timestamp. *)
Theorem aggregate_by_ip_fixes_sorted
    (entries_by_ip : dict string (list LogEntry)) :
  Forall (fun kv => StronglySorted ts_le (snd kv)) entries_by_ip ->
  aggregate_by_ip entries_by_ip = entries_by_ip.
Proof.
  unfold aggregate_by_ip, map_values.
  induction 1 as [|[k l] d Hl Hd IH]; [reflexivity|].
  cbn [map fst snd] in *. rewrite IH, (sort_sorted_id l Hl). reflexivity.
Qed.

Lemma aggregate_by_ip_fixes_sorted_witness :
  aggregate_by_ip (aggregate_by_ip sample_input)
  = aggregate_by_ip sample_input.
Proof.
  apply aggregate_by_ip_fixes_sorted.
  unfold aggregate_by_ip, map_values.
  apply Forall_forall. intros kv Hin. apply in_map_iff in Hin.
  destruct Hin as (kv0 & <- & _). apply sort_sorted.
Defined.

Lemma sorted_filter (p : LogEntry -> bool) (l : list LogEntry) :
  StronglySorted ts_le l -> StronglySorted ts_le (filter p l).
Proof.
  induction 1 as [|x l Hs IH Hall]; cbn [filter]; [constructor|].
  destruct (p x); [|exact IH].
  constructor; [exact IH|].
  apply Forall_forall. intros y Hy. apply filter_In in Hy.
  rewrite Forall_forall in Hall. apply Hall. tauto.
Qed.

Lemma filter_comm {A : Type} (p q : A -> bool) (l : list A) :
  filter p (filter q l) = filter q (filter p l).
Proof.
  induction l as [|x l IH]; [reflexivity|]. cbn [filter].
  destruct (p x) eqn:Ep, (q x) eqn:Eq; cbn [filter];
    rewrite ?Ep, ?Eq, IH; reflexivity.
Qed.

(** Filtering a sorted sequence is sorting the filtered one. *)
Lemma filter_sort (p : LogEntry -> bool) (l : list LogEntry) :
  filter p (sort_by_timestamp l) = sort_by_timestamp (filter p l).
Proof.
  apply sort_unique; [apply sorted_filter, sort_sorted|].
  intros t. rewrite filter_comm, sort_filter, filter_comm. reflexivity.
Qed.

Lemma group_if_any_sort (g : list LogEntry) :
  match g with [] => None | _ => Some (sort_by_timestamp g) end
  = option_map sort_by_timestamp (group_if_any g).
Proof. destruct g; reflexivity. Qed.

Lemma get_daily (d : dict string (list LogEntry)) (ip df : string) :
  dict_wf d ->
  get pair_eqb (ip, df) (aggregate_by_ip_and_date d)
  = match get String.eqb ip d with
    | Some l => group_if_any (sort_by_timestamp (filter (in_folder df) l))
    | None => None
    end.
Proof.
  intros Hwf. unfold aggregate_by_ip_and_date.
  rewrite get_map_values, get_group by exact Hwf.
  destruct (get String.eqb ip d) as [l|]; [|reflexivity].
  pose proof (sort_perm (filter (in_folder df) l)) as Hp.
  destruct (filter (in_folder df) l) as [|x f] eqn:Ef; [reflexivity|].
  cbn [option_map].
  destruct (sort_by_timestamp (x :: f)) as [|y g] eqn:Es; [|reflexivity].
  apply Permutation_length in Hp. discriminate.
Qed.

(** X9.  With distinct entities, the per-day view is cut out of the
    all-time view: the group of (entity, token) is the sub-sequence of
    the entity's sorted sequence made of the records that carry the
    token, and exists when that is not empty.  And it does not matter
    that the lists were sorted in place before the per-day view is
    built: built from the sorted grouping it has the same groups as built
    from the unsorted one. *)
Theorem daily_view_of_complete_view
    (entries_by_ip : dict string (list LogEntry)) (ip df : string) :
  dict_wf entries_by_ip ->
  get pair_eqb (ip, df) (aggregate_by_ip_and_date entries_by_ip)
  = match get String.eqb ip (aggregate_by_ip entries_by_ip) with
    | Some sorted => group_if_any (filter (in_folder df) sorted)
    | None => None
    end
  /\ get pair_eqb (ip, df)
         (aggregate_by_ip_and_date (aggregate_by_ip entries_by_ip))
     = get pair_eqb (ip, df) (aggregate_by_ip_and_date entries_by_ip).
Proof.
  intros Hwf.
  assert (Hwf' : dict_wf (aggregate_by_ip entries_by_ip))
    by (unfold dict_wf, aggregate_by_ip; rewrite keys_map_values;
        exact Hwf).
  rewrite !get_daily by assumption.
  unfold aggregate_by_ip. rewrite get_map_values.
  destruct (get String.eqb ip entries_by_ip) as [l|]; cbn [option_map];
    [|split; reflexivity].
  rewrite filter_sort. split; [reflexivity|].
  rewrite (sort_sorted_id _ (sort_sorted _)). reflexivity.
Qed.

Lemma daily_view_of_complete_view_witness :
  get pair_eqb ("10.0.0.5", "230815") (aggregate_by_ip_and_date sample_input)
  = match get String.eqb "10.0.0.5" (aggregate_by_ip sample_input) with
    | Some sorted => group_if_any (filter (in_folder "230815") sorted)
    | None => None
    end.
Proof.
  exact (proj1 (daily_view_of_complete_view sample_input "10.0.0.5" "230815"
                  sample_input_wf)).
Defined.

(** *** Nothing is lost or doubled *)

Lemma all_records_append_to (k : string * string) (v : LogEntry)
    (d : dict (string * string) (list LogEntry)) :
  List.length (all_records (append_to pair_eqb k v d))
  = S (List.length (all_records d)).
Proof.
  unfold all_records.
  induction d as [|[k0 l] d IH]; cbn [append_to map List.concat snd];
    [reflexivity|].
  destruct (pair_eqb k k0); cbn [map List.concat snd];
    rewrite ?length_app; cbn [List.length]; rewrite ?IH; lia.
Qed.

Lemma all_records_add_entries (ip : string) (entries : list LogEntry)
    (agg : dict (string * string) (list LogEntry)) :
  List.length (all_records (fold_left (add_entry ip) entries agg))
  = (List.length (all_records agg)
     + List.length (filter has_token entries))%nat.
Proof.
  revert agg. induction entries as [|e entries IH]; intros agg.
  - cbn [fold_left filter List.length]. lia.
  - cbn [fold_left filter]. rewrite IH. unfold add_entry, has_token.
    destruct (date_folder e) as [f|]; [|lia].
    destruct (PyStr.truthy f); [|lia].
    rewrite all_records_append_to. cbn [List.length]. lia.
Qed.

Lemma all_records_map_sort {K : Type} (d : dict K (list LogEntry)) :
  List.length (all_records (map_values sort_by_timestamp d))
  = List.length (all_records d).
Proof.
  unfold all_records, map_values.
  induction d as [|[k l] d IH]; [reflexivity|].
  cbn [map List.concat snd fst]. rewrite !length_app, IH.
  rewrite <- (Permutation_length (sort_perm l)). reflexivity.
Qed.

Lemma all_records_group (d : dict string (list LogEntry))
    (agg : dict (string * string) (list LogEntry)) :
  List.length (all_records
    (fold_left (fun a kv => fold_left (add_entry (fst kv)) (snd kv) a)
               d agg))
  = (List.length (all_records agg)
     + List.length (filter has_token (all_records d)))%nat.
Proof.
  revert agg. induction d as [|[ip l] d IH]; intros agg.
  - cbn [fold_left]. unfold all_records at 3.
    cbn [map List.concat filter List.length]. lia.
  - cbn [fold_left fst snd]. rewrite IH, all_records_add_entries.
    unfold all_records at 4. cbn [map List.concat snd].
    rewrite filter_app, length_app. unfold all_records. lia.
Qed.

(** X10.  The per-day view holds as many records as the grouping has
    records with a non-empty date folder: none is lost and none is
    doubled, whatever the keys of the input. *)
Theorem daily_view_conserves_records
    (entries_by_ip : dict string (list LogEntry)) :
  List.length (all_records (aggregate_by_ip_and_date entries_by_ip))
  = List.length (filter has_token (all_records entries_by_ip)).
Proof.
  unfold aggregate_by_ip_and_date. rewrite all_records_map_sort.
  unfold group_by_ip_and_date. rewrite all_records_group. reflexivity.
Qed.

End AggregatorExtras.

(** ** More on the writer *)

Module WriterExtras.

Import Dict LogParser LogAggregator LogWriter Vocab Extra WriterFacts.

Section Accounting.
Context {World : Type}.
Variable path_join : string -> string -> string.
Variable mkdir : World -> string -> option World.
Variable write_file : World -> string -> string -> World * write_result.

Lemma attempt_all_length (jobs : list job) (w : World) :
  List.length (snd (attempt_all write_file w jobs)) = List.length jobs.
Proof.
  revert w. induction jobs as [|j jobs IH]; intros w; [reflexivity|].
  cbn [attempt_all snd List.length]. rewrite IH. reflexivity.
Qed.

Lemma reports_of_counts (jobs : list job) (rs : list write_result) :
  List.length rs = List.length jobs ->
  List.length (reports_of jobs rs) = List.length jobs
  /\ List.length (filter is_written_report (reports_of jobs rs))
     = count_written rs.
Proof.
  unfold reports_of, count_written.
  revert rs. induction jobs as [|j jobs IH]; intros [|r rs] Hlen;
    try discriminate; [split; reflexivity|].
  injection Hlen as Hlen. destruct (IH rs Hlen) as [H1 H2].
  cbn [combine map filter fst snd List.length]. rewrite H1.
  split; [reflexivity|].
  destruct r; cbn [report_of is_written_report is_written List.length];
    rewrite H2; reflexivity.
Qed.

Lemma loop_accounting {K : Type} (label path : K -> string)
    (d : dict K (list LogEntry)) (w0 : World) :
  let st := fold_left
              (fun st kv => write_group write_file (label (fst kv))
                                        (path (fst kv)) (snd kv) st)
              d (mk_wstate w0 0 []) in
  List.length (reports st) = List.length (filter nonempty d)
  /\ files_written st
     = List.length (filter is_written_report (reports st))
  /\ (files_written st <= List.length (filter nonempty d))%nat.
Proof.
  cbv zeta. rewrite write_loop. cbv zeta.
  cbn [reports files_written world app Nat.add].
  pose proof (attempt_all_length (jobs_of label path d) w0) as Hlen.
  destruct (reports_of_counts _ _ Hlen) as [H1 H2].
  assert (Hj : List.length (jobs_of label path d)
               = List.length (filter nonempty d))
    by (unfold jobs_of; apply length_map).
  rewrite H1, H2, Hj. repeat split.
  unfold count_written. rewrite <- Hj, <- Hlen. apply filter_length_le.
Qed.

(** X11.  When the output directory can be made, a write operation
    returns, and it accounts for every group: it prints exactly one line
    per non-empty group and none for an empty group, the number it
    returns is the number of lines that report a written file, and so
    the groups written and the groups that failed add up to the
    non-empty groups. *)
Theorem write_accounts_for_every_group
    (by_ip : dict string (list LogEntry))
    (by_day : dict (string * string) (list LogEntry))
    (output_dir : string) (w wc wd : World) :
  mkdir w (path_join output_dir "complete") = Some wc ->
  mkdir w (path_join output_dir "daily") = Some wd ->
  (exists w' reps n,
      write_complete_logs path_join mkdir write_file by_ip output_dir w
      = (w', reps, Returned n)
      /\ List.length reps = List.length (filter nonempty by_ip)
      /\ n = List.length (filter is_written_report reps)
      /\ (n <= List.length (filter nonempty by_ip))%nat)
  /\ (exists w' reps n,
        write_daily_logs path_join mkdir write_file by_day output_dir w
        = (w', reps, Returned n)
        /\ List.length reps = List.length (filter nonempty by_day)
        /\ n = List.length (filter is_written_report reps)
        /\ (n <= List.length (filter nonempty by_day))%nat).
Proof.
  intros Hc Hd. split.
  - unfold write_complete_logs. cbv zeta. rewrite Hc.
    eexists _, _, _. split; [reflexivity|].
    apply (loop_accounting (fun ip => ip)
             (complete_file path_join (path_join output_dir "complete"))).
  - unfold write_daily_logs. cbv zeta. rewrite Hd.
    eexists _, _, _. split; [reflexivity|].
    apply (loop_accounting daily_label
             (daily_file path_join (path_join output_dir "daily"))).
Qed.

End Accounting.

Lemma write_accounts_for_every_group_witness :
  exists w' reps n,
    write_complete_logs mem_join mem_mkdir
      (mem_write "out/complete/10.0.0.5-Complete.log")
      (("10.0.0.9", []) :: two_groups) "out" []
    = (w', reps, Returned n)
    /\ List.length reps = 2%nat
    /\ n = List.length (filter is_written_report reps)
    /\ (n <= 2)%nat.
Proof.
  exact (proj1 (write_accounts_for_every_group mem_join mem_mkdir
                  (mem_write "out/complete/10.0.0.5-Complete.log")
                  (("10.0.0.9", []) :: two_groups) two_daily_groups
                  "out" [] [] [] eq_refl eq_refl)).
Defined.

End WriterExtras.

(** ** What the discovery patterns find *)

Module DiscoveryFacts.

Import BoundedRegex LogDiscovery Vocab Extra DiscoveryVocab RegexFacts.

Lemma upto_inv {R : Type} (p : ascii -> bool)
    (k : option string -> string -> option R) (n : nat) :
  forall (s : string) (cur : option string) (r : R),
    upto n p k cur s = Some r ->
    exists s1 s2, s = s1 +:+ s2 /\ PyStr.forallb p s1 = true
                  /\ (String.length s1 <= n)%nat
                  /\ k (pushall cur s1) s2 = Some r.
Proof.
  assert (Hstop : forall m cur r s0, k cur s0 = Some r ->
            exists s1 s2, s0 = s1 +:+ s2 /\ PyStr.forallb p s1 = true
                          /\ (String.length s1 <= m)%nat
                          /\ k (pushall cur s1) s2 = Some r).
  { intros m cur r s0 Hk. exists "", s0. rewrite pushall_nil.
    repeat split; auto. cbn. lia. }
  induction n as [|n IH]; intros s cur r H; cbn [upto] in H.
  - apply Hstop, H.
  - destruct s as [|c s]; [apply Hstop, H|].
    destruct (p c) eqn:Ec; [|apply Hstop, H].
    destruct (upto n p k (Regex.push cur c) s) as [r'|] eqn:Es;
      [|apply Hstop, H].
    injection H as ->.
    destruct (IH _ _ _ Es) as (s1 & s2 & -> & Hall & Hlen & Hk).
    exists (String c s1), s2. rewrite <- pushall_push.
    cbn [String.append PyStr.forallb String.length]. rewrite Ec, Hall.
    repeat split; auto. lia.
Qed.

Section RunInv.
Variables (rest : list atom) (caps : list string) (cur : option string).

Lemma brun_cls_inv (p : ascii -> bool) (s : string) (r : list string) :
  run (Cls p :: rest) caps cur s = Some r ->
  exists c s', s = String c s' /\ p c = true
               /\ run rest caps (Regex.push cur c) s' = Some r.
Proof.
  cbn [run]. destruct s as [|c s']; [discriminate|].
  destruct (p c) eqn:E; [|discriminate]. eauto 6.
Qed.

Lemma brun_upto_inv (n : nat) (p : ascii -> bool) (s : string)
    (r : list string) :
  run (Upto n p :: rest) caps cur s = Some r ->
  exists s1 s2, s = s1 +:+ s2 /\ PyStr.forallb p s1 = true
                /\ (String.length s1 <= n)%nat
                /\ run rest caps (pushall cur s1) s2 = Some r.
Proof. cbn [run]. apply upto_inv. Qed.

Lemma brun_open_eq (s : string) :
  run (GOpen :: rest) caps cur s = run rest caps (Some "") s.
Proof. reflexivity. Qed.

Lemma brun_close_eq (g s : string) :
  run (GClose :: rest) caps (Some g) s = run rest (caps ++ [g]) None s.
Proof. reflexivity. Qed.

End RunInv.

Lemma brun_chr_inv (rest : list atom) (caps : list string)
    (cur : option string) (a : ascii) (s : string) (r : list string) :
  run (chr a :: rest) caps cur s = Some r ->
  exists s', s = String a s' /\ run rest caps (Regex.push cur a) s' = Some r.
Proof.
  intros H. apply brun_cls_inv in H. destruct H as (c & s' & -> & Hc & H).
  apply Ascii.eqb_eq in Hc. subst c. eauto.
Qed.

Lemma brun_digit_inv (rest : list atom) (caps : list string) (g s : string)
    (r : list string) :
  run (digit :: rest) caps (Some g) s = Some r ->
  exists c s', s = String c s' /\ PyStr.isdecimal_char c = true
               /\ run rest caps (Some (g +:+ String c "")) s' = Some r.
Proof. intros H. apply brun_cls_inv in H. exact H. Qed.

Lemma octet_cons (c : ascii) (ds : string) :
  PyStr.isdecimal_char c = true ->
  PyStr.forallb PyStr.isdecimal_char ds = true ->
  (String.length ds <= 2)%nat -> octet (String c ds) = true.
Proof.
  intros Hc Hds Hlen. unfold octet.
  cbn [String.length PyStr.forallb]. rewrite Hc, Hds.
  destruct (String.length ds) as [|[|[|n]]]; try reflexivity; lia.
Qed.

(** [\d{1,3}] inside a group takes one to three digits. *)
Lemma brun_octet_inv (rest : list atom) (caps : list string) (g s : string)
    (r : list string) :
  run (digits_1_3 ++ rest) caps (Some g) s = Some r ->
  exists o s', s = o +:+ s' /\ octet o = true
               /\ run rest caps (Some (g +:+ o)) s' = Some r.
Proof.
  unfold digits_1_3. cbn [app]. intros H.
  apply brun_digit_inv in H. destruct H as (c & s1 & -> & Hc & H).
  apply brun_upto_inv in H. destruct H as (ds & s2 & -> & Hds & Hlen & H).
  exists (String c ds), s2. cbn [pushall] in H.
  rewrite str_app_assoc in H. cbn [String.append] in H.
  auto using octet_cons.
Qed.

(** A search that succeeds matched at the start of some suffix. *)
Lemma search_inv (pattern : list atom) (s : string) (r : list string) :
  search pattern s = Some r ->
  exists pre post, s = pre +:+ post /\ run pattern [] None post = Some r.
Proof.
  induction s as [|c s IH]; cbn [search].
  - destruct (run pattern [] None "") eqn:E; [|discriminate].
    intros H. injection H as ->. exists "", "". auto.
  - destruct (run pattern [] None (String c s)) eqn:E.
    + intros H. injection H as ->. exists "", (String c s). auto.
    + intros H. destruct (IH H) as (pre & post & -> & Hr).
      exists (String c pre), post. auto.
Qed.

(** The date pattern finds six ASCII digits that stand between two
    slashes of the path. *)
Lemma date_pattern_finds (path g : string) :
  search_group DATE_PATTERN path = Some g ->
  six_ascii_digits g = true /\ has_component g path.
Proof.
  unfold search_group.
  destruct (search DATE_PATTERN path) as [[|g0 gs]|] eqn:Hs;
    try discriminate.
  intros E. injection E as ->.
  apply search_inv in Hs. destruct Hs as (pre & post & -> & H).
  unfold DATE_PATTERN in H.
  apply brun_chr_inv in H. destruct H as (s0 & -> & H).
  rewrite brun_open_eq in H.
  apply brun_digit_inv in H. destruct H as (d1 & s1 & -> & H1 & H).
  apply brun_digit_inv in H. destruct H as (d2 & s2 & -> & H2 & H).
  apply brun_digit_inv in H. destruct H as (d3 & s3 & -> & H3 & H).
  apply brun_digit_inv in H. destruct H as (d4 & s4 & -> & H4 & H).
  apply brun_digit_inv in H. destruct H as (d5 & s5 & -> & H5 & H).
  apply brun_digit_inv in H. destruct H as (d6 & s6 & -> & H6 & H).
  cbn [String.append] in H. rewrite brun_close_eq in H.
  apply brun_chr_inv in H. destruct H as (s7 & -> & H).
  cbn [run app] in H. injection H as <- <-.
  split.
  - unfold six_ascii_digits. cbn [String.length Nat.eqb PyStr.forallb].
    rewrite H1, H2, H3, H4, H5, H6. reflexivity.
  - exists pre, s7. reflexivity.
Qed.

(** The address pattern finds a dotted quad that stands between two
    slashes of the path. *)
Lemma ip_pattern_finds (path g : string) :
  search_group IP_PATTERN path = Some g ->
  dotted_quad g /\ has_component g path.
Proof.
  unfold search_group.
  destruct (search IP_PATTERN path) as [[|g0 gs]|] eqn:Hs;
    try discriminate.
  intros E. injection E as ->.
  apply search_inv in Hs. destruct Hs as (pre & post & -> & H).
  unfold IP_PATTERN in H. cbn [app] in H.
  apply brun_chr_inv in H. destruct H as (s0 & -> & H).
  rewrite brun_open_eq in H.
  apply brun_octet_inv in H. destruct H as (a & s1 & -> & Ha & H).
  cbn [app] in H.
  apply brun_chr_inv in H. destruct H as (s2 & -> & H).
  cbn [Regex.push] in H.
  apply brun_octet_inv in H. destruct H as (b & s3 & -> & Hb & H).
  cbn [app] in H.
  apply brun_chr_inv in H. destruct H as (s4 & -> & H).
  cbn [Regex.push] in H.
  apply brun_octet_inv in H. destruct H as (c & s5 & -> & Hc & H).
  cbn [app] in H.
  apply brun_chr_inv in H. destruct H as (s6 & -> & H).
  cbn [Regex.push] in H.
  apply brun_octet_inv in H. destruct H as (d & s7 & -> & Hd & H).
  rewrite brun_close_eq in H.
  apply brun_chr_inv in H. destruct H as (s8 & -> & H).
  cbn [run app] in H. injection H as <- <-.
  split.
  - exists a, b, c, d. split; [|auto].
    cbn [String.append]. rewrite !str_app_assoc. reflexivity.
  - exists pre, s8. cbn [String.append]. rewrite !str_app_assoc.
    reflexivity.
Qed.

(** *** The patterns find what is there *)










(** *** The inventory *)

Lemma in_keys_append_to {V : Type} (k x : string) (v : V)
    (d : Dict.dict string (list V)) :
  In x (Dict.keys (Dict.append_to String.eqb k v d)) ->
  x = k \/ In x (Dict.keys d).
Proof.
  unfold Dict.keys.
  induction d as [|[k0 l] d IH]; cbn [Dict.append_to map fst In].
  - intros [H|[]]. auto.
  - destruct (String.eqb k k0); cbn [map fst In]; intuition.
Qed.

Lemma wf_append_to_str {V : Type} (k : string) (v : V)
    (d : Dict.dict string (list V)) :
  Dict.dict_wf d -> Dict.dict_wf (Dict.append_to String.eqb k v d).
Proof.
  unfold Dict.dict_wf.
  induction d as [|[k0 l] d IH]; cbn [Dict.append_to]; intros Hnd.
  - repeat constructor. intros [].
  - destruct (String.eqb k k0) eqn:E; [exact Hnd|].
    unfold Dict.keys in *. cbn [map fst] in *.
    apply NoDup_cons_iff in Hnd. destruct Hnd as [Hnotin Hnd].
    constructor; [|apply IH, Hnd].
    intros Hin. apply in_keys_append_to in Hin. destruct Hin as [->|Hin].
    + rewrite String.eqb_refl in E. discriminate.
    + contradiction.
Qed.

Lemma keys_append_to_str {V : Type} (k : string) (v : V)
    (d : Dict.dict string (list V)) :
  Dict.keys (Dict.append_to String.eqb k v d)
  = set_add k (Dict.keys d).
Proof.
  unfold set_add, Dict.keys.
  induction d as [|[k0 l] d IH]; cbn [Dict.append_to map fst existsb];
    [reflexivity|].
  destruct (String.eqb k k0); cbn [map fst orb]; [reflexivity|].
  rewrite IH. destruct (existsb (String.eqb k) (map fst d)); reflexivity.
Qed.

Lemma forall_append_to {V : Type} (Q : string -> V -> Prop) (k : string)
    (v : V) (d : Dict.dict string (list V)) :
  Q k v ->
  Forall (fun kv => snd kv <> [] /\ Forall (Q (fst kv)) (snd kv)) d ->
  Forall (fun kv => snd kv <> [] /\ Forall (Q (fst kv)) (snd kv))
         (Dict.append_to String.eqb k v d).
Proof.
  intros Hq. induction 1 as [|[k0 l] d [Hne Hl] Hd IH];
    cbn [Dict.append_to].
  - repeat constructor; [discriminate|exact Hq].
  - destruct (String.eqb k k0) eqn:E.
    + apply String.eqb_eq in E. subst k0.
      constructor; [|exact Hd]. cbn [fst snd] in *. split.
      * destruct l; discriminate.
      * apply Forall_app. split; [exact Hl|]. repeat constructor. exact Hq.
    + constructor; [split; assumption|exact IH].
Qed.

Lemma total_logs_append_to {V : Type} (k : string) (v : V)
    (d : Dict.dict string (list V)) :
  total_logs (Dict.append_to String.eqb k v d) = S (total_logs d).
Proof.
  unfold total_logs.
  induction d as [|[k0 l] d IH]; simpl; [reflexivity|].
  destruct (String.eqb k k0); simpl.
  - rewrite length_app. simpl. lia.
  - unfold total_logs in IH. rewrite IH. lia.
Qed.

Lemma filter_snoc {A : Type} (p : A -> bool) (l : list A) (x : A) :
  filter p (l ++ [x]) = filter p l ++ (if p x then [x] else []).
Proof. rewrite filter_app. reflexivity. Qed.

Lemma scan_file_invariant (lines : list string) (st : sstate) (f : string) :
  scan_invariant lines st -> scan_invariant (lines ++ [f]) (scan_file st f).
Proof.
  intros (W1 & W2 & B & S & K & C1 & C2).
  unfold scan_invariant. rewrite !filter_snoc, !length_app.
  unfold scan_file, is_beacon_file, is_system_file in *.
  destruct (PyStr.truthy f) eqn:Et; cbn [negb andb].
  2:{ cbn [List.length]. rewrite !Nat.add_0_r. repeat split; assumption. }
  destruct (contains "beacon_" f) eqn:Eb; cbn [negb andb].
  - destruct (search_group DATE_PATTERN f) as [df|] eqn:Ed;
      [destruct (search_group IP_PATTERN f) as [ipa|] eqn:Ei|];
      cbn [s_beacon s_system ip_addresses List.length];
      rewrite ?Nat.add_0_r; try (repeat split; assumption).
    split; [apply wf_append_to_str, W1|]. split; [exact W2|].
    split; [apply forall_append_to; [|exact B]; unfold beacon_filed;
            cbn [li_path li_date_folder]; auto|].
    split; [exact S|].
    split; [rewrite keys_append_to_str, K; reflexivity|].
    split; [rewrite total_logs_append_to, C1; lia|lia].
  - assert (Hsys : forall t,
              In t system_log_types -> basename f = t +:+ ".log" ->
              Dict.dict_wf (s_beacon (add_system t f st))
              /\ Dict.dict_wf (s_system (add_system t f st))
              /\ Forall (fun kv => snd kv <> []
                                   /\ Forall (beacon_filed (fst kv)) (snd kv))
                        (s_beacon (add_system t f st))
              /\ Forall (fun kv => snd kv <> []
                                   /\ Forall (system_filed (fst kv)) (snd kv))
                        (s_system (add_system t f st))
              /\ ip_addresses (add_system t f st)
                 = Dict.keys (s_beacon (add_system t f st))
              /\ total_logs (s_beacon (add_system t f st))
                 = (List.length (filter is_beacon_file lines) + 0)%nat
              /\ total_logs (s_system (add_system t f st))
                 = (List.length (filter is_system_file lines) + 1)%nat).
    { intros t Ht Hbase. unfold add_system, is_beacon_file, is_system_file.
      cbn [s_beacon s_system ip_addresses].
      split; [exact W1|]. split; [apply wf_append_to_str, W2|].
      split; [exact B|].
      split; [apply forall_append_to; [|exact S]; unfold system_filed; auto|].
      split; [exact K|]. split; [lia|].
      rewrite total_logs_append_to, C2. lia. }
    unfold system_log_types in *. cbn [existsb String.append].
    destruct (String.eqb_spec (basename f) "download.log") as [E1|E1].
    { cbn [orb List.length]. apply (Hsys "download"); cbn; auto. }
    destruct (String.eqb_spec (basename f) "weblog_80.log") as [E2|E2].
    { cbn [orb List.length]. apply (Hsys "weblog_80"); cbn; auto. }
    destruct (String.eqb_spec (basename f) "weblog_443.log") as [E3|E3].
    { cbn [orb List.length]. apply (Hsys "weblog_443"); cbn; auto. }
    destruct (String.eqb_spec (basename f) "events.log") as [E4|E4].
    { cbn [orb List.length]. apply (Hsys "events"); cbn; auto. }
    cbn [orb List.length]. rewrite !Nat.add_0_r.
    repeat split; assumption.
Qed.

Lemma scan_lines_invariant (lines done : list string) (st : sstate) :
  scan_invariant done st ->
  scan_invariant (done ++ lines) (fold_left scan_file lines st).
Proof.
  revert done st. induction lines as [|f lines IH]; intros done st H.
  - rewrite app_nil_r. exact H.
  - cbn [fold_left].
    replace (done ++ f :: lines) with ((done ++ [f]) ++ lines)
      by (rewrite <- app_assoc; reflexivity).
    apply IH, scan_file_invariant, H.
Qed.

Lemma scan_listing_invariant (stdout : string) :
  scan_invariant (PyStr.split PyStr.LF (PyStr.strip stdout))
    (fold_left scan_file (PyStr.split PyStr.LF (PyStr.strip stdout))
               (mk_sstate [] [] [] [])).
Proof.
  apply (scan_lines_invariant _ []).
  unfold scan_invariant. cbn. repeat split; constructor.
Qed.

End DiscoveryFacts.

(** ** The inventory of [scan_structure] *)

Module DiscoveryExtras.

Import BoundedRegex LogDiscovery Vocab Extra DiscoveryVocab DiscoveryFacts.

Section Scan.
Variable quote : string -> string.
Variable execute_command : string -> Z * string * string.

(** Whatever the command gave, an inventory that is returned is the
    empty one or the inventory of a listing. *)
Lemma scan_structure_cases (logs_path : option string)
    (msgs : list scan_msg) (inv : inventory) :
  scan_structure quote execute_command logs_path = (msgs, Inventory inv) ->
  inv = mk_inventory [] []
  \/ exists stdout, inv = snd (scan_listing stdout).
Proof.
  unfold scan_structure.
  destruct logs_path as [[|c path]|]; try discriminate.
  destruct (execute_command _) as [[rc stdout] err].
  destruct (negb (rc =? 0)%Z).
  - intros H. injection H as _ <-. auto.
  - destruct (scan_listing stdout) as [m i] eqn:E.
    intros H. injection H as _ <-. right. exists stdout.
    rewrite E. reflexivity.
Qed.

(** X12.  In an inventory that [scan_structure] returns, the addresses
    are distinct, no address has an empty list, and every beacon log is
    filed under the address and with the date folder that the patterns
    find in its own path: the path holds beacon_, the date folder is six
    ASCII digits and the address four dot-separated groups of one to
    three digits, and each stands between two slashes of the path. *)
Theorem scan_files_beacon_logs_by_their_path (logs_path : option string)
    (msgs : list scan_msg) (inv : inventory) :
  scan_structure quote execute_command logs_path = (msgs, Inventory inv) ->
  Dict.dict_wf (beacon_logs inv)
  /\ Forall
       (fun kv =>
          snd kv <> [] /\ dotted_quad (fst kv)
          /\ Forall
               (fun info =>
                  contains "beacon_" (li_path info) = true
                  /\ search_group DATE_PATTERN (li_path info)
                     = Some (li_date_folder info)
                  /\ search_group IP_PATTERN (li_path info) = Some (fst kv)
                  /\ six_ascii_digits (li_date_folder info) = true
                  /\ has_component (li_date_folder info) (li_path info)
                  /\ has_component (fst kv) (li_path info))
               (snd kv))
       (beacon_logs inv).
Proof.
  intros H. apply scan_structure_cases in H.
  destruct H as [->|[stdout ->]].
  - split; constructor.
  - destruct (scan_listing_invariant stdout) as (W1 & _ & B & _).
    unfold scan_listing. cbn [snd beacon_logs].
    split; [exact W1|].
    eapply Forall_impl; [|exact B].
    intros [ip infos] [Hne Hall]. cbn [fst snd] in *.
    assert (Hinfo : Forall
              (fun info =>
                 contains "beacon_" (li_path info) = true
                 /\ search_group DATE_PATTERN (li_path info)
                    = Some (li_date_folder info)
                 /\ search_group IP_PATTERN (li_path info) = Some ip
                 /\ six_ascii_digits (li_date_folder info) = true
                 /\ has_component (li_date_folder info) (li_path info)
                 /\ has_component ip (li_path info)) infos).
    { eapply Forall_impl; [|exact Hall].
      intros info (Hb & Hd & Hi).
      destruct (date_pattern_finds _ _ Hd) as [H1 H2].
      destruct (ip_pattern_finds _ _ Hi) as [H3 H4]. auto 10. }
    split; [exact Hne|]. split; [|exact Hinfo].
    destruct infos as [|info infos]; [congruence|].
    apply Forall_cons_iff in Hall. destruct Hall as [(_ & _ & Hi) _].
    apply (ip_pattern_finds _ _ Hi).
Qed.

(** X13.  In an inventory that [scan_structure] returns, the system logs
    are filed under at most four distinct types, download, weblog_80,
    weblog_443 and events; every path filed under a type has the file
    name of that type followed by .log and does not hold beacon_, and no
    type has an empty list. *)
Theorem scan_files_system_logs_by_name (logs_path : option string)
    (msgs : list scan_msg) (inv : inventory) :
  scan_structure quote execute_command logs_path = (msgs, Inventory inv) ->
  Dict.dict_wf (system_logs inv)
  /\ Forall
       (fun kv =>
          snd kv <> []
          /\ Forall
               (fun path =>
                  In (fst kv) system_log_types
                  /\ basename path = fst kv +:+ ".log"
                  /\ contains "beacon_" path = false)
               (snd kv))
       (system_logs inv).
Proof.
  intros H. apply scan_structure_cases in H.
  destruct H as [->|[stdout ->]].
  - split; constructor.
  - destruct (scan_listing_invariant stdout) as (_ & W2 & _ & S & _).
    unfold scan_listing. cbn [snd system_logs]. split; [exact W2|exact S].
Qed.

(** X14.  When the listing command succeeds, [scan_structure] files
    every line of the listing at most once: the beacon logs of the
    inventory are as many as the lines that hold beacon_, a date folder
    and an address, the system logs as many as the other lines with one
    of the four file names; all other lines are dropped in silence.  The
    summary it prints shows these two numbers and the number of
    addresses of the inventory. *)
Theorem scan_counts_every_file_once (path : string) (stdout err : string)
    (c : ascii) (rest : string) :
  path = String c rest ->
  execute_command
    ("find " +:+ quote path +:+ " -type f -name " +:+ dquote
     +:+ "*.log" +:+ dquote +:+ " 2>/dev/null") = (0%Z, stdout, err) ->
  let lines := PyStr.split PyStr.LF (PyStr.strip stdout) in
  exists inv folders,
    scan_structure quote execute_command (Some path)
    = ([ScanStart;
        FoundDateFolders (List.length folders) (sorted folders);
        FoundAddresses (List.length (beacon_logs inv));
        FoundLogs (List.length (filter is_beacon_file lines))
                  (List.length (filter is_system_file lines))],
       Inventory inv)
    /\ total_logs (beacon_logs inv)
       = List.length (filter is_beacon_file lines)
    /\ total_logs (system_logs inv)
       = List.length (filter is_system_file lines).
Proof.
  intros -> Hcmd lines.
  destruct (scan_listing_invariant stdout)
    as (_ & _ & _ & _ & K & C1 & C2).
  fold lines in K, C1, C2.
  set (st := fold_left scan_file lines (mk_sstate [] [] [] [])) in *.
  exists (mk_inventory (s_beacon st) (s_system st)), (date_folders st).
  cbn [beacon_logs system_logs].
  split; [|split; assumption].
  unfold scan_structure. rewrite Hcmd.
  cbn [Z.eqb negb]. unfold scan_listing. fold lines. fold st.
  rewrite K, C1, C2. unfold Dict.keys. rewrite length_map.
  reflexivity.
Qed.

End Scan.


Lemma scan_files_beacon_logs_by_their_path_witness :
  Dict.dict_wf (beacon_logs (snd (scan_listing example_listing)))
  /\ Forall
       (fun kv =>
          snd kv <> [] /\ dotted_quad (fst kv)
          /\ Forall
               (fun info =>
                  contains "beacon_" (li_path info) = true
                  /\ search_group DATE_PATTERN (li_path info)
                     = Some (li_date_folder info)
                  /\ search_group IP_PATTERN (li_path info) = Some (fst kv)
                  /\ six_ascii_digits (li_date_folder info) = true
                  /\ has_component (li_date_folder info) (li_path info)
                  /\ has_component (fst kv) (li_path info))
               (snd kv))
       (beacon_logs (snd (scan_listing example_listing))).
Proof.
  exact (scan_files_beacon_logs_by_their_path (fun p => p)
           (fun _ => (0%Z, example_listing, "")) (Some "/opt/logs")
           (ScanStart :: fst (scan_listing example_listing))
           (snd (scan_listing example_listing)) eq_refl).
Defined.

Lemma scan_files_system_logs_by_name_witness :
  Dict.dict_wf (system_logs (snd (scan_listing example_listing)))
  /\ Forall
       (fun kv =>
          snd kv <> []
          /\ Forall
               (fun path =>
                  In (fst kv) system_log_types
                  /\ basename path = fst kv +:+ ".log"
                  /\ contains "beacon_" path = false)
               (snd kv))
       (system_logs (snd (scan_listing example_listing))).
Proof.
  exact (scan_files_system_logs_by_name (fun p => p)
           (fun _ => (0%Z, example_listing, "")) (Some "/opt/logs")
           (ScanStart :: fst (scan_listing example_listing))
           (snd (scan_listing example_listing)) eq_refl).
Defined.

Lemma scan_counts_every_file_once_witness :
  exists inv folders,
    scan_structure (fun p => p) (fun _ => (0%Z, example_listing, ""))
                   (Some "/opt/logs")
    = ([ScanStart;
        FoundDateFolders (List.length folders) (sorted folders);
        FoundAddresses (List.length (beacon_logs inv));
        FoundLogs 3 1],
       Inventory inv)
    /\ total_logs (beacon_logs inv) = 3%nat
    /\ total_logs (system_logs inv) = 1%nat.
Proof.
  exact (scan_counts_every_file_once (fun p => p)
           (fun _ => (0%Z, example_listing, "")) "/opt/logs"
           example_listing "" "/" "opt/logs" eq_refl eq_refl).
Defined.

End DiscoveryExtras.

(** ** The collection of the beacon logs in [main] *)

Module MainExtras.

Import LogParser Vocab Extra LogDiscovery Main DiscoveryVocab MainVocab.
Import ParserFacts ParserExtras AggregatorExtras DiscoveryFacts.

(** *** [extend] on a [defaultdict(list)] *)

Lemma all_records_extend_at (k : string) (l : list LogEntry)
    (d : Dict.dict string (list LogEntry)) :
  List.length (all_records (extend_at k l d))
  = (List.length (all_records d) + List.length l)%nat.
Proof.
  unfold all_records.
  induction d as [|[k0 l0] d IH]; cbn [extend_at map List.concat snd].
  - rewrite app_nil_r. reflexivity.
  - destruct (String.eqb k k0); cbn [map List.concat snd];
      rewrite ?length_app; rewrite ?IH; lia.
Qed.

Lemma in_keys_extend_at (k x : string) (l : list LogEntry)
    (d : Dict.dict string (list LogEntry)) :
  In x (Dict.keys (extend_at k l d)) -> x = k \/ In x (Dict.keys d).
Proof.
  unfold Dict.keys.
  induction d as [|[k0 l0] d IH]; cbn [extend_at map fst In].
  - intros [H|[]]. auto.
  - destruct (String.eqb k k0); cbn [map fst In]; intuition.
Qed.

Lemma wf_extend_at (k : string) (l : list LogEntry)
    (d : Dict.dict string (list LogEntry)) :
  Dict.dict_wf d -> Dict.dict_wf (extend_at k l d).
Proof.
  unfold Dict.dict_wf.
  induction d as [|[k0 l0] d IH]; cbn [extend_at]; intros Hnd.
  - repeat constructor. intros [].
  - destruct (String.eqb k k0) eqn:E; [exact Hnd|].
    unfold Dict.keys in *. cbn [map fst] in *.
    apply NoDup_cons_iff in Hnd. destruct Hnd as [Hnotin Hnd].
    constructor; [|apply IH, Hnd].
    intros Hin. apply in_keys_extend_at in Hin. destruct Hin as [->|Hin].
    + rewrite String.eqb_refl in E. discriminate.
    + contradiction.
Qed.

Lemma forall_extend_at (Q : string -> LogEntry -> Prop) (k : string)
    (l : list LogEntry) (d : Dict.dict string (list LogEntry)) :
  Forall (Q k) l ->
  Forall (fun kv => Forall (Q (fst kv)) (snd kv)) d ->
  Forall (fun kv => Forall (Q (fst kv)) (snd kv)) (extend_at k l d).
Proof.
  intros Hq. induction 1 as [|[k0 l0] d Hl Hd IH]; cbn [extend_at].
  - repeat constructor. exact Hq.
  - destruct (String.eqb k k0) eqn:E.
    + apply String.eqb_eq in E. subst k0.
      constructor; [|exact Hd]. cbn [fst snd] in *.
      apply Forall_app. split; assumption.
    + constructor; [exact Hl|exact IH].
Qed.

(** *** What a parse gives to the loop *)

Lemma parse_returned_stamped (now_year : Z) (text : string)
    (folder : option string) (source : string) (ip : option string)
    (ws : list warning) (es : list LogEntry) :
  parse_beacon_log now_year text folder source ip = (ws, Returned es) ->
  Forall (fun e => source_file e = source /\ ip_address e = ip
                   /\ date_folder e = folder) es.
Proof.
  unfold parse_beacon_log. destruct (negb (PyStr.truthy text)).
  - intros H. injection H as _ <-. constructor.
  - destruct (resolve_base_year now_year folder source) as [w [y|e]];
      [|discriminate].
    intros H. injection H as _ <-.
    eapply Forall_impl;
      [|apply (flush_stamped y folder source ip), parse_lines_stamped;
        split; [constructor|exact I]].
    intros e (H1 & H2 & H3 & _). auto.
Qed.

Lemma step_no_folder_warning (base_year : Z) (folder : option string)
    (source : string) (ip : option string) (st : pstate) (line : string) :
  Forall (fun w => is_folder_warning w = false) (printed st) ->
  Forall (fun w => is_folder_warning w = false)
         (printed (step base_year folder source ip st line)).
Proof.
  intros Hp.
  destruct (match_header line) as [[[[a b] k] r]|] eqn:Hm.
  - destruct (build_timestamp base_year a b) as [ts|] eqn:Hb.
    + rewrite (step_header _ _ _ _ _ _ _ _ _ _ _ Hm Hb). exact Hp.
    + rewrite (step_malformed _ _ _ _ _ _ _ _ _ _ Hm Hb).
      cbn [printed]. apply Forall_app. split; [exact Hp|].
      repeat constructor.
  - destruct st as [es [e|] ws]; cbn [printed] in Hp.
    + rewrite (step_continuation base_year folder source ip
                 (mk_pstate es (Some e) ws) e line Hm eq_refl). exact Hp.
    + rewrite (step_orphan_eq _ _ _ _ _ _ _ Hm). cbn [printed].
      apply Forall_app. split; [exact Hp|].
      destruct (nonblank line); repeat constructor.
Qed.

Lemma parse_lines_no_folder_warning (base_year : Z) (folder : option string)
    (source : string) (ip : option string) (lines : list string)
    (st : pstate) :
  Forall (fun w => is_folder_warning w = false) (printed st) ->
  Forall (fun w => is_folder_warning w = false)
         (printed (parse_lines base_year folder source ip lines st)).
Proof.
  revert st. induction lines as [|l lines IH]; intros st Hst.
  - rewrite parse_lines_nil. exact Hst.
  - rewrite parse_lines_cons. apply IH, step_no_folder_warning, Hst.
Qed.

(** With a date folder of six ASCII digits the parse returns, whatever
    the clock says, and does not warn about the date folder. *)
Lemma parse_dated (text df source : string) (ip : option string) :
  six_ascii_digits df = true ->
  exists ws es,
    (forall now_year,
       parse_beacon_log now_year text (Some df) source ip
       = (ws, Returned es))
    /\ Forall (fun w => is_folder_warning w = false) ws.
Proof.
  intros Hdf. unfold parse_beacon_log.
  destruct (negb (PyStr.truthy text)).
  - exists [], []. split; [reflexivity|constructor].
  - destruct (resolve_valid 0 df source Hdf) as (yy & Hyy & _ & _).
    eexists _, _. split.
    + intros now_year.
      destruct (resolve_valid now_year df source Hdf) as (yy' & Hy & _ & ->).
      assert (yy' = yy) as -> by congruence.
      reflexivity.
    + cbn [app]. apply parse_lines_no_folder_warning. constructor.
Qed.

Section Collect.
Variable read_remote_file : string -> option string.
Variable now_year : Z.
Variable logs : Dict.dict string (list log_info).

Lemma collect_file_invariant (ip : string) (infos : list log_info)
    (info : log_info) (st st' : cstate) :
  In (ip, infos) logs -> In info infos ->
  collect_invariant logs st ->
  collect_file read_remote_file now_year ip st info = Done st' ->
  collect_invariant logs st'.
Proof.
  intros Hip Hinfo (T & W & F & K). unfold collect_file.
  destruct (read_remote_file (li_path info)) as [text|].
  2:{ intros H. injection H as <-. repeat split; assumption. }
  destruct (negb (PyStr.truthy text)).
  { intros H. injection H as <-. repeat split; assumption. }
  destruct (parse_beacon_log now_year text (Some (li_date_folder info))
              (li_path info) (Some ip)) as [ws [es|e]] eqn:Ep;
    [|discriminate].
  intros H. injection H as <-.
  pose proof (parse_returned_stamped _ _ _ _ _ _ _ Ep) as Hes.
  unfold collect_invariant.
  cbn [beacon_entries_by_ip total_beacon_entries].
  split; [rewrite all_records_extend_at, T; reflexivity|].
  split; [apply wf_extend_at, W|].
  split.
  - apply forall_extend_at; [|exact F].
    eapply Forall_impl; [|exact Hes].
    intros e (H1 & H2 & H3). split; [exact H2|].
    exists infos, info. auto.
  - intros x Hx. apply in_keys_extend_at in Hx. destruct Hx as [->|Hx].
    + unfold Dict.keys. apply (in_map fst _ _ Hip).
    + apply K, Hx.
Qed.

Lemma collect_files_invariant (ip : string) (infos : list log_info)
    (some : list log_info) (st st' : cstate) :
  In (ip, infos) logs -> incl some infos ->
  collect_invariant logs st ->
  collect_files read_remote_file now_year ip some st = Done st' ->
  collect_invariant logs st'.
Proof.
  intros Hip. revert st.
  induction some as [|info some IH]; intros st Hincl Hst; cbn [collect_files].
  - intros H. injection H as <-. exact Hst.
  - destruct (collect_file read_remote_file now_year ip st info)
      as [st1|out e] eqn:E1; [|discriminate].
    apply IH.
    + intros x Hx. apply Hincl. right. exact Hx.
    + apply (collect_file_invariant ip infos info st st1 Hip); auto.
      apply Hincl. left. reflexivity.
Qed.

Lemma collect_from_invariant (some : Dict.dict string (list log_info))
    (st st' : cstate) :
  incl some logs ->
  collect_invariant logs st ->
  collect_from read_remote_file now_year some st = Done st' ->
  collect_invariant logs st'.
Proof.
  revert st.
  induction some as [|[ip infos] some IH]; intros st Hincl Hst;
    cbn [collect_from].
  - intros H. injection H as <-. exact Hst.
  - destruct (collect_files read_remote_file now_year ip infos st)
      as [st1|out e] eqn:E1; [|discriminate].
    apply IH.
    + intros x Hx. apply Hincl. right. exact Hx.
    + apply (collect_files_invariant ip infos infos st st1); auto.
      * apply Hincl. left. reflexivity.
      * apply incl_refl.
Qed.

End Collect.

(** X16.  When the collection of the beacon logs ends without an
    exception, the number it reports is the number of records it
    collected; every record filed under an address carries that address,
    and the path and the date folder of a log that the inventory lists
    for that address; the addresses of the result are distinct and are
    addresses of the inventory. *)
Theorem collection_accounts_for_its_records
    (read_remote_file : string -> option string) (now_year : Z)
    (inv : inventory) (st : cstate) :
  collect_beacon_logs read_remote_file now_year inv = Done st ->
  total_beacon_entries st
  = List.length (all_records (beacon_entries_by_ip st))
  /\ Dict.dict_wf (beacon_entries_by_ip st)
  /\ Forall (fun kv =>
               Forall (collected_from (beacon_logs inv) (fst kv)) (snd kv))
            (beacon_entries_by_ip st)
  /\ forall ip, In ip (Dict.keys (beacon_entries_by_ip st)) ->
                In ip (Dict.keys (beacon_logs inv)).
Proof.
  intros H.
  apply (collect_from_invariant read_remote_file now_year (beacon_logs inv)
           (beacon_logs inv) (mk_cstate [] 0 []) st (incl_refl _)); [|exact H].
  unfold collect_invariant. cbn. repeat split; try constructor.
  intros ip [].
Qed.

Lemma collection_accounts_for_its_records_witness :
  exists st,
    collect_beacon_logs example_remote 2026 example_inventory = Done st
    /\ total_beacon_entries st = 2%nat
    /\ total_beacon_entries st
       = List.length (all_records (beacon_entries_by_ip st))
    /\ Dict.dict_wf (beacon_entries_by_ip st)
    /\ Forall (fun kv =>
                 Forall (collected_from (beacon_logs example_inventory)
                                        (fst kv)) (snd kv))
              (beacon_entries_by_ip st)
    /\ forall ip, In ip (Dict.keys (beacon_entries_by_ip st)) ->
                  In ip (Dict.keys (beacon_logs example_inventory)).
Proof.
  eexists. split; [vm_compute; reflexivity|].
  split; [reflexivity|].
  apply (collection_accounts_for_its_records example_remote 2026
           example_inventory).
  vm_compute. reflexivity.
Defined.

(** *** Inventories whose date folders are six digits *)

Section Dated.
Variable read_remote_file : string -> option string.

Lemma collect_file_dated (now_year : Z) (ip : string) (st : cstate)
    (info : log_info) :
  six_ascii_digits (li_date_folder info) = true ->
  Forall no_folder_warning (shown st) ->
  exists st',
    (forall now, collect_file read_remote_file now ip st info = Done st')
    /\ Forall no_folder_warning (shown st').
Proof.
  intros Hdf Hs. unfold collect_file.
  destruct (read_remote_file (li_path info)) as [text|].
  2:{ eexists. split; [reflexivity|]. cbn [shown].
      apply Forall_app. split; [exact Hs|]. repeat constructor. }
  destruct (negb (PyStr.truthy text)).
  { eexists. split; [reflexivity|]. cbn [shown].
    apply Forall_app. split; [exact Hs|]. repeat constructor. }
  destruct (parse_dated text (li_date_folder info) (li_path info) (Some ip)
              Hdf) as (ws & es & Hp & Hw).
  eexists. split.
  - intros now. rewrite Hp. reflexivity.
  - cbn [shown]. apply Forall_app. split; [exact Hs|].
    apply Forall_map. eapply Forall_impl; [|exact Hw].
    intros w Hf. exact Hf.
Qed.

Lemma collect_files_dated (now_year : Z) (ip : string)
    (infos : list log_info) (st : cstate) :
  Forall (fun info => six_ascii_digits (li_date_folder info) = true) infos ->
  Forall no_folder_warning (shown st) ->
  exists st',
    (forall now, collect_files read_remote_file now ip infos st = Done st')
    /\ Forall no_folder_warning (shown st').
Proof.
  intros Hall. revert st.
  induction Hall as [|info infos Hdf _ IH]; intros st Hs; cbn [collect_files].
  - exists st. split; [reflexivity|exact Hs].
  - destruct (collect_file_dated now_year ip st info Hdf Hs)
      as (st1 & H1 & Hs1).
    destruct (IH st1 Hs1) as (st2 & H2 & Hs2).
    exists st2. split; [|exact Hs2].
    intros now. rewrite H1. apply H2.
Qed.

Lemma collect_from_dated (now_year : Z)
    (logs : Dict.dict string (list log_info)) (st : cstate) :
  dated logs ->
  Forall no_folder_warning (shown st) ->
  exists st',
    (forall now, collect_from read_remote_file now logs st = Done st')
    /\ Forall no_folder_warning (shown st').
Proof.
  intros Hall. revert st.
  induction Hall as [|[ip infos] logs Hdf _ IH]; intros st Hs;
    cbn [collect_from].
  - exists st. split; [reflexivity|exact Hs].
  - cbn [snd] in Hdf.
    destruct (collect_files_dated now_year ip infos st Hdf Hs)
      as (st1 & H1 & Hs1).
    destruct (IH st1 Hs1) as (st2 & H2 & Hs2).
    exists st2. split; [|exact Hs2].
    intros now. rewrite H1. apply H2.
Qed.

End Dated.

(** The date folders of a listing's inventory are six ASCII digits. *)
Lemma scan_listing_dated (stdout : string) :
  dated (beacon_logs (snd (scan_listing stdout))).
Proof.
  destruct (scan_listing_invariant stdout) as (_ & _ & B & _).
  unfold scan_listing, dated. cbn [snd beacon_logs].
  eapply Forall_impl; [|exact B].
  intros [ip infos] [_ Hall]. cbn [fst snd] in *.
  eapply Forall_impl; [|exact Hall].
  intros info (_ & Hd & _). apply (date_pattern_finds _ _ Hd).
Qed.

Lemma scan_structure_dated (quote : string -> string)
    (execute_command : string -> Z * string * string)
    (logs_path : option string) (msgs : list scan_msg) (inv : inventory) :
  scan_structure quote execute_command logs_path = (msgs, Inventory inv) ->
  dated (beacon_logs inv).
Proof.
  unfold scan_structure.
  destruct logs_path as [[|c path]|]; try discriminate.
  destruct (execute_command _) as [[rc stdout] err].
  destruct (negb (rc =? 0)%Z).
  - intros H. injection H as _ <-. constructor.
  - pose proof (scan_listing_dated stdout) as Hd.
    destruct (scan_listing stdout) as [m i].
    intros H. injection H as _ <-. exact Hd.
Qed.

(** X17.  When every date folder of the inventory is six ASCII digits,
    the collection of the beacon logs ends without an exception,
    whatever the remote files hold and whether or not they can be read;
    it prints no warning about a date folder, and its result does not
    depend on the current year. *)
Theorem dated_collection_never_fails
    (read_remote_file : string -> option string) (inv : inventory) :
  dated (beacon_logs inv) ->
  exists st,
    (forall now_year,
       collect_beacon_logs read_remote_file now_year inv = Done st)
    /\ Forall no_folder_warning (shown st).
Proof.
  intros Hd. unfold collect_beacon_logs.
  apply (collect_from_dated read_remote_file 0 (beacon_logs inv)
           (mk_cstate [] 0 []) Hd).
  constructor.
Qed.

Lemma dated_collection_never_fails_witness :
  exists st,
    (forall now_year,
       collect_beacon_logs example_remote now_year example_inventory
       = Done st)
    /\ Forall no_folder_warning (shown st).
Proof.
  apply (dated_collection_never_fails example_remote example_inventory).
  vm_compute. repeat constructor.
Defined.

Lemma count_in_sorted (p : LogEntry -> bool)
    (d : Dict.dict string (list LogEntry)) :
  List.length (filter p (all_records (LogAggregator.aggregate_by_ip d)))
  = List.length (filter p (all_records d)).
Proof.
  unfold all_records, LogAggregator.aggregate_by_ip, Dict.map_values.
  induction d as [|[k l] d IH]; [reflexivity|].
  cbn [map List.concat snd fst]. rewrite !filter_app, !length_app, IH.
  rewrite filter_sort.
  rewrite <- (Permutation_length (SortFacts.sort_perm (filter p l))).
  reflexivity.
Qed.

(** X18.  From the listing to the two views: for an inventory that
    [scan_structure] returned, the collection of the beacon logs ends
    without an exception, and both views that [main] then builds of what
    was collected, the one by address and the one by address and day,
    hold exactly as many records as the number it reports. *)
Theorem scanned_logs_reach_both_views (quote : string -> string)
    (execute_command : string -> Z * string * string)
    (read_remote_file : string -> option string) (now_year : Z)
    (logs_path : option string) (msgs : list scan_msg) (inv : inventory) :
  scan_structure quote execute_command logs_path = (msgs, Inventory inv) ->
  exists st,
    collect_beacon_logs read_remote_file now_year inv = Done st
    /\ List.length
         (all_records (fst (aggregate_views (beacon_entries_by_ip st))))
       = total_beacon_entries st
    /\ List.length
         (all_records (snd (aggregate_views (beacon_entries_by_ip st))))
       = total_beacon_entries st.
Proof.
  intros Hscan. pose proof (scan_structure_dated _ _ _ _ _ Hscan) as Hd.
  destruct (collect_from_dated read_remote_file now_year (beacon_logs inv)
              (mk_cstate [] 0 []) Hd (Forall_nil _)) as (st & Hst & _).
  exists st. split; [apply Hst|].
  pose proof (collect_from_invariant read_remote_file now_year
                (beacon_logs inv) (beacon_logs inv) (mk_cstate [] 0 []) st
                (incl_refl _)) as Hinv.
  destruct Hinv as (T & _ & F & _); [|apply Hst|].
  { unfold collect_invariant. cbn. repeat split; try constructor.
    intros ip []. }
  unfold aggregate_views. cbn [fst snd]. split.
  - unfold LogAggregator.aggregate_by_ip.
    rewrite all_records_map_sort. symmetry. exact T.
  - unfold LogAggregator.aggregate_by_ip_and_date.
    rewrite all_records_map_sort.
    unfold LogAggregator.group_by_ip_and_date. rewrite all_records_group.
    change (List.length (all_records (@nil ((string * string)
                                            * list LogEntry)))) with 0%nat.
    rewrite Nat.add_0_l, count_in_sorted, T.
    f_equal. apply forallb_filter_id.
    unfold all_records. apply forallb_forall. intros e He.
    apply in_concat in He. destruct He as (l & Hl & He).
    apply in_map_iff in Hl. destruct Hl as ([ip es] & <- & Hkv).
    rewrite Forall_forall in F. specialize (F _ Hkv). cbn [fst snd] in *.
    rewrite Forall_forall in F.
    destruct (F _ He) as (_ & infos & info & Hi & Hii & _ & Hdf).
    unfold has_token. rewrite Hdf.
    unfold dated in Hd. rewrite Forall_forall in Hd.
    specialize (Hd _ Hi). cbn [snd] in Hd. rewrite Forall_forall in Hd.
    specialize (Hd _ Hii).
    unfold six_ascii_digits in Hd. apply andb_prop in Hd.
    destruct Hd as [Hlen _].
    destruct (li_date_folder info); [discriminate|reflexivity].
Qed.

Lemma scanned_logs_reach_both_views_witness :
  exists st,
    collect_beacon_logs example_remote 2026 example_inventory = Done st
    /\ List.length
         (all_records (fst (aggregate_views (beacon_entries_by_ip st))))
       = total_beacon_entries st
    /\ List.length
         (all_records (snd (aggregate_views (beacon_entries_by_ip st))))
       = total_beacon_entries st.
Proof.
  exact (scanned_logs_reach_both_views (fun p => p)
           (fun _ => (0%Z, example_listing, "")) example_remote 2026
           (Some "/opt/logs")
           (ScanStart :: fst (scan_listing example_listing))
           example_inventory eq_refl).
Defined.

(** *** The system logs *)


Section System.
Variable read_remote_file : string -> option string.
Variable now : nat -> DateTime.datetime.
Variable logs : Dict.dict string (list string).
Hypothesis now_valid : forall k, valid_datetime (now k).





End System.



(** *** From one remote log to its complete log *)

Lemma chronological_entries (folder : option string) (source : string)
    (ip : option string) (cs : list chunk) :
  chronological cs ->
  StronglySorted ts_le (map (chunk_entry folder source ip) cs).
Proof.
  unfold chronological.
  induction 1 as [|c cs Hs IH Hall]; cbn [map]; constructor.
  - exact IH.
  - apply Forall_map. eapply Forall_impl; [|exact Hall].
    intros c' H. exact H.
Qed.

Section Copy.
Context {World : Type}.
Variable path_join : string -> string -> string.
Variable mkdir : World -> string -> option World.
Variable write_file : World -> string -> string -> World * write_result.
Variable read_remote_file : string -> option string.

(** X20.  One address with one beacon log, downloaded, parsed, sorted and
    written: when the log is made only of well-formed records in the
    order of their times, the number of records reported is the number
    of its header lines, and [write_complete_logs] makes exactly one
    call of the file system: it writes the complete log of the address,
    and the text it writes is the lines of the remote log, each followed
    by one newline character.  So a remote log whose lines all end in
    one newline character is written as it is, character by character. *)
Theorem chronological_log_is_copied (now_year base_year : Z)
    (ip path df text output_dir : string) (w : list warning)
    (cs : list chunk) (others : Dict.dict string (list string))
    (w0 wc : World) :
  cs <> [] ->
  resolve_base_year now_year (Some df) path = (w, Returned base_year) ->
  read_remote_file path = Some text ->
  PyStr.splitlines text = flat_map chunk_lines cs ->
  Forall (chunk_ok base_year) cs ->
  chronological cs ->
  mkdir w0 (path_join output_dir "complete") = Some wc ->
  let file := path_join (path_join output_dir "complete")
                        (ip +:+ "-Complete.log") in
  let copy := String.concat EmptyString
                (map (fun line => line +:+ String PyStr.LF EmptyString)
                     (PyStr.splitlines text)) in
  exists st,
    collect_beacon_logs read_remote_file now_year
      (mk_inventory [(ip, [mk_log_info path df])] others) = Done st
    /\ total_beacon_entries st = List.length cs
    /\ LogWriter.write_complete_logs path_join mkdir write_file
         (fst (aggregate_views (beacon_entries_by_ip st))) output_dir w0
       = (fst (write_file wc file copy),
          [match snd (write_file wc file copy) with
           | Written => ReportWritten ip (List.length cs) file
           | IOFailed msg => ReportError file msg
           | OtherFailed msg => ReportUnexpected file msg
           end],
          Returned (match snd (write_file wc file copy) with
                    | Written => 1%nat
                    | _ => 0%nat
                    end))
    /\ (text = copy ->
        fst (fst (LogWriter.write_complete_logs path_join mkdir write_file
                    (fst (aggregate_views (beacon_entries_by_ip st)))
                    output_dir w0))
        = fst (write_file wc file text)).
Proof.
  intros Hne Hres Hread Hlines Hok Hchr Hmk file copy.
  pose proof (parse_chunks_text base_year (Some df) path (Some ip)
                now_year text w cs Hne Hres Hlines Hok) as Hparse.
  assert (Htext : PyStr.truthy text = true).
  { destruct text; [|reflexivity].
    destruct cs; [congruence|discriminate]. }
  set (es := map (chunk_entry (Some df) path (Some ip)) cs) in *.
  assert (Hes : es <> []) by (destruct cs; [congruence|discriminate]).
  assert (Hcopy : canonical_group_text es = copy).
  { rewrite <- WriterFacts.render_all_canonical. unfold es.
    rewrite (render_chunks base_year _ _ _ _ Hok), <- Hlines.
    reflexivity. }
  assert (Hlen : List.length es = List.length cs)
    by (unfold es; apply length_map).
  assert (Hwrite :
            LogWriter.write_complete_logs path_join mkdir write_file
              (fst (aggregate_views [(ip, es)])) output_dir w0
            = (fst (write_file wc file copy),
               [match snd (write_file wc file copy) with
                | Written => ReportWritten ip (List.length cs) file
                | IOFailed msg => ReportError file msg
                | OtherFailed msg => ReportUnexpected file msg
                end],
               Returned (match snd (write_file wc file copy) with
                         | Written => 1%nat
                         | _ => 0%nat
                         end))).
  { unfold aggregate_views. cbn [fst].
    unfold LogAggregator.aggregate_by_ip, Dict.map_values.
    cbn [map fst snd].
    rewrite (sort_sorted_id es (chronological_entries _ _ _ _ Hchr)).
    unfold LogWriter.write_complete_logs. cbv zeta. rewrite Hmk.
    cbn [fold_left fst snd].
    rewrite (WriterFacts.write_group_job write_file) by exact Hes.
    cbv zeta. cbn [LogWriter.world LogWriter.files_written LogWriter.reports
                   app Nat.add].
    unfold job_of, LogWriter.complete_file. rewrite Hcopy, Hlen.
    fold file.
    destruct (write_file wc file copy) as [w' [| msg | msg]]; reflexivity. }
  exists (mk_cstate [(ip, es)] (List.length es) (map FromParser w)).
  split; [|split; [|split]].
  - unfold collect_beacon_logs.
    cbn [beacon_logs collect_from collect_files].
    unfold collect_file. cbn [li_path li_date_folder].
    rewrite Hread, Htext. cbn [negb]. rewrite Hparse. reflexivity.
  - cbn [total_beacon_entries]. exact Hlen.
  - cbn [beacon_entries_by_ip]. exact Hwrite.
  - intros Heq. cbn [beacon_entries_by_ip]. rewrite Hwrite. cbn [fst].
    rewrite <- Heq. reflexivity.
Qed.

End Copy.

Lemma chronological_log_is_copied_witness :
  exists st,
    collect_beacon_logs example_remote 2026
      (mk_inventory
         [("10.0.0.5",
           [mk_log_info "/opt/logs/230815/10.0.0.5/beacon_123.log"
                        "230815"])] []) = Done st
    /\ total_beacon_entries st = 2%nat
    /\ LogWriter.write_complete_logs mem_join mem_mkdir (mem_write "")
         (fst (aggregate_views (beacon_entries_by_ip st))) "out" []
       = ([("out/complete/10.0.0.5-Complete.log",
            "08/15 10:00:01 UTC [input] whoami" +:+ PyStr.nl
            +:+ "DOMAIN\user" +:+ PyStr.nl
            +:+ "08/15 10:00:05 UTC [output] " +:+ PyStr.nl
            +:+ "administrator" +:+ PyStr.nl)],
          [ReportWritten "10.0.0.5" 2 "out/complete/10.0.0.5-Complete.log"],
          Returned 1%nat)
    /\ fst (fst (LogWriter.write_complete_logs mem_join mem_mkdir
                   (mem_write "")
                   (fst (aggregate_views (beacon_entries_by_ip st)))
                   "out" []))
       = [("out/complete/10.0.0.5-Complete.log", example_text)].
Proof.
  assert (Hok : Forall (chunk_ok 2023) example_chunks)
    by (repeat constructor).
  assert (Hne : example_chunks <> []) by discriminate.
  assert (Hchr : chronological example_chunks)
    by (repeat constructor).
  destruct (chronological_log_is_copied mem_join mem_mkdir (mem_write "")
              example_remote 2026 2023 "10.0.0.5"
              "/opt/logs/230815/10.0.0.5/beacon_123.log" "230815"
              example_text "out" [] example_chunks [] [] [] Hne eq_refl
              eq_refl eq_refl Hok Hchr eq_refl)
    as (st & H1 & H2 & H3 & H4).
  exists st. split; [exact H1|]. split; [exact H2|].
  split; [exact H3|]. exact (H4 eq_refl).
Defined.

End MainExtras.
